(** * Collaborative widget locking: lock engine, session tracker and reaper

    A shallow embedding of

    - [app/dbmodels/widget_locking_models.py]  (rows and their properties),
    - [app/schemas/widget_locking_schemas.py]  (request and response schemas),
    - [app/utils/cache.py]                     (the shared cache manager),
    - [app/core/database.py]                   (the session context manager),
    - [app/codebase/widget_locking.py]         ([CoreWidgetLocking]),
    - [app/services/widget_locking_service.py] ([WidgetLockingService]),
    - [app/routers/widget_locking_router.py]   (the acquire endpoint),

    followed by the properties of the lock engine that the specification
    states about them.

    Conventions of the embedding.

    - A [uuid.UUID] is a [positive].  A [datetime] is an integer number of
      microseconds (the resolution of Python's [datetime]); a [timedelta] is
      a difference of two such numbers.  [total_seconds()] is kept in
      microseconds, which preserves sign and order.
    - The two tables are finite maps keyed by their primary key
      ([widget_locks] by [widget_id], [user_sessions] by [session_id]); the
      primary-key column of a row is its key in the map, so the row records
      carry the other columns only.
    - Code runs in a state-and-exception monad over a [World].  The world
      holds the committed rows of the durable store, the view of the open
      SQLAlchemy session (committed rows plus the changes that were not
      committed yet), the shared cache, and the two [_initialized] flags.
    - Three oracles stand for the environment: [clock] gives the successive
      readings of [datetime.now], [fault] says which call to the database
      driver or to the cache backend raises, and [uuid4] gives the
      successive results of [uuid.uuid4()].
    - The identifier of the authenticated user is the text of a UUID, as
      [get_current_user] returns it; where the program converts it with
      [UUID(str(user_id))] the records below hold the result, and where it
      passes the text on unconverted the text is kept ([user_id_value]).
    - Arithmetic on times is exact.  Python's [datetime] ends with the year
      9999 and [timedelta] at 999999999 days, and raises [OverflowError]
      beyond; statements about leases are made for the durations that the
      request schema admits and for a clock within that range.
    - One call runs at a time.  The [DatabaseManager] is initialised;
      [session.rollback()] and [session.close()] do not fail; logging has no
      effect. *)

From stdpp Require Import base option list strings pretty gmap fin_maps fin_sets.
From Stdlib Require Import ZArith Lia.

Open Scope Z_scope.

(** ** Identifiers and time *)

Abbreviation uuid := positive.
Abbreviation datetime := Z.

Definition timedelta_seconds (s : Z) : Z := s * 1000000.
Definition timedelta_minutes (m : Z) : Z := m * 60000000.

(** ** Rows of the durable store ([widget_locking_models.py]) *)

Module WidgetLock.
Record t := mk {
  dashboard_id : uuid;
  session_id : uuid;
  user_id : uuid;
  user_name : string;
  locked_at : datetime;
  expires_at : datetime;
  last_heartbeat : datetime;
  is_active : bool
}.

(** [is_expired]: [datetime.now(timezone.utc) > self.expires_at]. *)
Definition is_expired (now : datetime) (l : t) : bool :=
  expires_at l <? now.

(** [time_remaining]: [max(0.0, (self.expires_at - now).total_seconds())]. *)
Definition time_remaining (now : datetime) (l : t) : Z :=
  Z.max 0 (expires_at l - now).
End WidgetLock.

Module UserSession.
Record t := mk {
  dashboard_id : uuid;
  user_id : uuid;
  user_name : string;
  user_email : option string;
  client_info : option string;
  connected_at : datetime;
  last_activity : datetime;
  is_active : bool;
  locked_widgets : list uuid
}.
End UserSession.

Module CollaborationEvent.
Record t := mk {
  event_id : uuid;
  dashboard_id : uuid;
  widget_id : option uuid;
  user_id : uuid;
  user_name : string;
  event_type : string;
  event_data : list (string * Z);
  created_at : datetime
}.
End CollaborationEvent.

(** The [user_info] dictionary built by the router: ["user_id"] is always
    present, the other keys are read with [dict.get]. *)
Module UserInfo.
Record t := mk {
  user_id : uuid;
  user_name : option string;
  user_email : option string;
  client_info : option string
}.
End UserInfo.

(** The identifier of a user as a Python value: [current_user["user_id"]]
    is a [str] ([UserInfo.user_id] of [permission_service.py]), the rows hold
    a [uuid.UUID]. *)
Inductive user_id_value :=
| IdStr (s : string)
| IdUUID (u : uuid).

(** [row.user_id == v], the left operand a [uuid.UUID]: [UUID.__eq__]
    answers [NotImplemented] for an operand that is not a [UUID], and [==]
    is [False] then. *)
Definition uuid_eq (u : uuid) (v : user_id_value) : bool :=
  match v with
  | IdUUID u' => Pos.eqb u u'
  | IdStr _ => false
  end.

(** [str(u)] of a [uuid.UUID]. *)
Definition str_uuid (u : uuid) : string := pretty (Npos u).

(** ** Schemas ([widget_locking_schemas.py]) *)

Module WidgetLockSchema.
Record t := mk {
  widget_id : uuid;
  dashboard_id : uuid;
  session_id : uuid;
  user_id : uuid;
  user_name : string;
  locked_at : datetime;
  expires_at : datetime;
  last_heartbeat : datetime;
  time_remaining : Z
}.
End WidgetLockSchema.

Module WidgetLockStatusResponse.
Record t := mk {
  widget_id : uuid;
  is_locked : bool;
  locked_by : option string;
  locked_by_user_id : option uuid;
  locked_at : option datetime;
  expires_at : option datetime;
  time_remaining : Z;
  can_acquire : bool
}.
End WidgetLockStatusResponse.

Module LockAcquisitionResponse.
Record t := mk {
  success : bool;
  widget_id : uuid;
  session_id : uuid;
  expires_at : datetime;
  message : string
}.
End LockAcquisitionResponse.

Module HeartbeatResponse.
Record t := mk {
  success : bool;
  widget_id : uuid;
  expires_at : datetime;
  message : string
}.
End HeartbeatResponse.

(** [WidgetLockAcquireSchema]: the body of the acquire request.
    [lock_duration: int = Field(default=60, ge=30, le=300)]. *)
Module WidgetLockAcquireSchema.
Record t := mk {
  widget_id : uuid;
  lock_duration : Z
}.
End WidgetLockAcquireSchema.

(** ** The durable store, the cache and the world *)

Record Store := mkStore {
  locks : gmap uuid WidgetLock.t;
  sessions : gmap uuid UserSession.t;
  events : list CollaborationEvent.t
}.

Inductive cache_val :=
| CLock (l : WidgetLockSchema.t)
| CStatus (s : WidgetLockStatusResponse.t).

Record CacheEntry := mkEntry {
  value : cache_val;
  expire_at : datetime;
  tags : list string
}.

Record World := mkWorld {
  db : Store;
  txn : Store;
  cache : gmap (string * uuid) CacheEntry;
  cache_initialized : bool;
  service_initialized : bool;
  ticks : nat;
  steps : nat;
  draws : nat
}.

Record Env := mkEnv {
  clock : nat → datetime;
  fault : nat → bool;
  uuid4 : nat → uuid
}.

(** A run in which no backend call fails. *)
Definition fault_free (c : nat → datetime) (u : nat → uuid) : Env :=
  {| clock := c; fault := λ _, false; uuid4 := u |}.

(** ** Exceptions and the monad *)

Inductive exn :=
| StoreError
| CacheError
| ValueError (msg : string)
| MultipleResultsFound
| IntegrityError
| ValidationError
| UnboundLocalError
| HTTPException (status : Z) (detail : string).

Definition str_exn (e : exn) : string :=
  match e with
  | StoreError => "store error"
  | CacheError => "cache error"
  | ValueError msg => msg
  | MultipleResultsFound => "Multiple rows were found when one or none was required"
  | IntegrityError => "integrity error"
  | ValidationError => "validation error"
  | UnboundLocalError => "cannot access local variable 'session'"
  | HTTPException status detail => pretty status +:+ ": " +:+ detail
  end.

Inductive outcome (A : Type) :=
| Return (a : A)
| Raise (e : exn).
Arguments Return {A} a.
Arguments Raise {A} e.

Definition M (A : Type) : Type := World → outcome A * World.

Definition run {A} (m : M A) (w : World) : outcome A * World := m w.

#[export] Instance M_ret : MRet M := λ A a w, (Return a, w).
#[export] Instance M_bind : MBind M := λ A B f m w,
  match m w with
  | (Return a, w') => f a w'
  | (Raise e, w') => (Raise e, w')
  end.

Definition raise {A} (e : exn) : M A := λ w, (Raise e, w).

(** [try: body except Exception as e: handler e]. *)
Definition try_except {A} (body : M A) (handler : exn → M A) : M A := λ w,
  match body w with
  | (Return a, w') => (Return a, w')
  | (Raise e, w') => handler e w'
  end.

(** [try: body finally: cleanup]. *)
Definition try_finally {A} (body : M A) (cleanup : M unit) : M A := λ w,
  match body w with
  | (Return a, w') =>
      match cleanup w' with
      | (Return _, w'') => (Return a, w'')
      | (Raise e, w'') => (Raise e, w'')
      end
  | (Raise e, w') =>
      match cleanup w' with
      | (Return _, w'') => (Raise e, w'')
      | (Raise e', w'') => (Raise e', w'')
      end
  end.

Definition get_world : M World := λ w, (Return w, w).
Definition modify (f : World → World) : M unit := λ w, (Return tt, f w).

(** Field updates of the world. *)
Definition set_db (f : Store → Store) (w : World) : World :=
  mkWorld (f (db w)) (txn w) (cache w) (cache_initialized w)
          (service_initialized w) (ticks w) (steps w) (draws w).
Definition set_txn (f : Store → Store) (w : World) : World :=
  mkWorld (db w) (f (txn w)) (cache w) (cache_initialized w)
          (service_initialized w) (ticks w) (steps w) (draws w).
Definition set_cache (f : gmap (string * uuid) CacheEntry → gmap (string * uuid) CacheEntry)
    (w : World) : World :=
  mkWorld (db w) (txn w) (f (cache w)) (cache_initialized w)
          (service_initialized w) (ticks w) (steps w) (draws w).
Definition set_cache_initialized (b : bool) (w : World) : World :=
  mkWorld (db w) (txn w) (cache w) b
          (service_initialized w) (ticks w) (steps w) (draws w).
Definition set_service_initialized (b : bool) (w : World) : World :=
  mkWorld (db w) (txn w) (cache w) (cache_initialized w)
          b (ticks w) (steps w) (draws w).
Definition set_ticks (n : nat) (w : World) : World :=
  mkWorld (db w) (txn w) (cache w) (cache_initialized w)
          (service_initialized w) n (steps w) (draws w).
Definition set_steps (n : nat) (w : World) : World :=
  mkWorld (db w) (txn w) (cache w) (cache_initialized w)
          (service_initialized w) (ticks w) n (draws w).
Definition set_draws (n : nat) (w : World) : World :=
  mkWorld (db w) (txn w) (cache w) (cache_initialized w)
          (service_initialized w) (ticks w) (steps w) n.

(** Field updates of the store. *)
Definition set_locks (f : gmap uuid WidgetLock.t → gmap uuid WidgetLock.t)
    (s : Store) : Store :=
  mkStore (f (locks s)) (sessions s) (events s).
Definition set_sessions (f : gmap uuid UserSession.t → gmap uuid UserSession.t)
    (s : Store) : Store :=
  mkStore (locks s) (f (sessions s)) (events s).
Definition set_events (f : list CollaborationEvent.t → list CollaborationEvent.t)
    (s : Store) : Store :=
  mkStore (locks s) (sessions s) (f (events s)).

(** ** Primitive effects *)

Section Program.
Context (env : Env).

(** [datetime.now(timezone.utc)]: the next reading of the clock. *)
Definition now : M datetime := λ w,
  (Return (clock env (ticks w)), set_ticks (S (ticks w)) w).

(** [uuid.uuid4()]. *)
Definition new_uuid : M uuid := λ w,
  (Return (uuid4 env (draws w)), set_draws (S (draws w)) w).

(** A call that reaches the database driver or the cache backend: it
    raises [e] when the fault oracle says so. *)
Definition backend (e : exn) : M unit := λ w,
  if fault env (steps w)
  then (Raise e, set_steps (S (steps w)) w)
  else (Return tt, set_steps (S (steps w)) w).

Fixpoint for_each {A} (l : list A) (f : A → M unit) : M unit :=
  match l with
  | [] => mret tt
  | x :: l' => f x;; for_each l' f
  end.

(** *** The SQLAlchemy session ([AsyncSession], [autoflush=False],
    [expire_on_commit=False]).  Statements and pending changes act on the
    session's view [txn]; only [commit] publishes them to [db]. *)

(** [await session.execute(select(...))]. *)
Definition execute_select {A} (q : Store → A) : M A :=
  backend StoreError;; w ← get_world; mret (q (txn w)).

(** [await session.execute(update(...))] and [delete(...)]. *)
Definition execute_dml (f : Store → Store) : M unit :=
  backend StoreError;; modify (set_txn f).

(** An attribute assignment on a loaded row, or [session.add(row)]: the
    change is pending in the session until it is flushed or committed. *)
Definition orm_update (f : Store → Store) : M unit := modify (set_txn f).

Definition flush : M unit := backend StoreError.

Definition commit : M unit :=
  backend StoreError;; modify (λ w, set_db (λ _, txn w) w).

Definition rollback : M unit := modify (λ w, set_txn (λ _, db w) w).

(** [session.close()] ends the transaction in progress: what was not
    committed is discarded. *)
Definition close : M unit := modify (λ w, set_txn (λ _, db w) w).

(** [result.scalar_one_or_none()]. *)
Definition scalar_one_or_none {A} (rows : list A) : M (option A) :=
  match rows with
  | [] => mret None
  | [x] => mret (Some x)
  | _ => raise MultipleResultsFound
  end.

(** [async with db_manager.session() as session: body]
    ([DatabaseManager.session]: "Manual commit required"). *)
Definition with_session {A} (body : M A) : M A :=
  modify (λ w, set_txn (λ _, db w) w);;
  try_finally (try_except body (λ e, rollback;; raise e)) close.

(** *** The cache backend (cashews) and [MultiLevelCacheManager] *)

Definition CACHE_TTL_DEFAULT : Z := 300.

Definition cache_setup : M unit := backend CacheError.

(** [cache.get]: an entry is served up to and including the time
    [expire_at] that [cache.set] gave it, and is dead after. *)
Definition cache_get (key : string * uuid) : M (option cache_val) :=
  backend CacheError;;
  t ← now;
  w ← get_world;
  mret (match cache w !! key with
        | Some e => if expire_at e <? t then None else Some (value e)
        | None => None
        end).

Definition cache_set (key : string * uuid) (v : cache_val) (expire : Z)
    (tgs : list string) : M unit :=
  backend CacheError;;
  t ← now;
  modify (set_cache (<[key := mkEntry v (t + timedelta_seconds expire) tgs]>)).

Definition cache_delete (key : string * uuid) : M unit :=
  backend CacheError;; modify (set_cache (delete key)).

Definition cache_delete_tags (tag : string) : M unit :=
  backend CacheError;;
  modify (set_cache (filter (λ kv, tag ∉ tags kv.2))).

Definition cache_manager_initialize : M unit :=
  w ← get_world;
  if cache_initialized w then mret tt
  else try_except
         (cache_setup;; modify (set_cache_initialized true))
         (λ e, modify (set_cache_initialized false);; raise e).

Definition get_shared (key : string * uuid) : M (option cache_val) :=
  w ← get_world;
  if negb (cache_initialized w) then mret None
  else try_except (cache_get key) (λ _, mret None).

Definition set_shared (key : string * uuid) (v : cache_val) (ttl : Z)
    (tgs : list string) : M bool :=
  w ← get_world;
  if negb (cache_initialized w) then mret false
  else try_except
         (let final_ttl := if ttl =? 0 then CACHE_TTL_DEFAULT else ttl in
          cache_set key v final_ttl tgs;; mret true)
         (λ _, mret false).

Definition delete_shared (key : string * uuid) : M bool :=
  w ← get_world;
  if negb (cache_initialized w) then mret false
  else try_except (cache_delete key;; mret true) (λ _, mret false).

Definition delete_by_tags (tgs : list string) : M bool :=
  w ← get_world;
  if negb (cache_initialized w) then mret false
  else try_except (for_each tgs cache_delete_tags;; mret true) (λ _, mret false).

(** The request-scoped dictionary that [delete_multi_level_by_tags] also
    clears is not used by the locking service and is left out. *)
Definition delete_multi_level_by_tags (tgs : list string) : M bool :=
  delete_by_tags tgs.

Definition get_cache : M unit :=
  w ← get_world;
  if negb (cache_initialized w) then cache_manager_initialize else mret tt.

(** [generate_predictable_key(prefix, id)] joins the prefix and [str(id)]
    with a colon; the pair stands for that string. *)
Definition generate_predictable_key (prefix : string) (id : uuid) : string * uuid :=
  (prefix, id).

End Program.

(** ** [CoreWidgetLocking] ([app/codebase/widget_locking.py]) *)

Module CoreWidgetLocking.
Section Core.
Context (env : Env).

(** Every function below takes the open [session] implicitly: it is the
    session view [txn] of the world. *)

Definition get_active_widget_lock (widget_id : uuid) : M (option WidgetLock.t) :=
  try_except
    (execute_select env (λ s,
       match locks s !! widget_id with
       | Some l => if WidgetLock.is_active l then Some l else None
       | None => None
       end))
    (λ e, raise e).

Definition get_user_session (session_id : uuid) : M (option UserSession.t) :=
  try_except
    (execute_select env (λ s,
       match sessions s !! session_id with
       | Some u => if UserSession.is_active u then Some u else None
       | None => None
       end))
    (λ _, mret None).

(** The rows of [user_sessions] that satisfy a condition, with their keys. *)
Definition select_sessions (P : UserSession.t → bool) (s : Store)
    : list (uuid * UserSession.t) :=
  map_to_list (filter (λ kv, P kv.2 = true) (sessions s)).

Definition select_locks (P : uuid → WidgetLock.t → bool) (s : Store)
    : list (uuid * WidgetLock.t) :=
  map_to_list (filter (λ kv, P kv.1 kv.2 = true) (locks s)).

Definition delete_locks (P : uuid → WidgetLock.t → bool) (s : Store) : Store :=
  set_locks (filter (λ kv, P kv.1 kv.2 = false)) s.

Definition set_last_activity (t : datetime) (u : UserSession.t) : UserSession.t :=
  UserSession.mk (UserSession.dashboard_id u) (UserSession.user_id u)
    (UserSession.user_name u) (UserSession.user_email u)
    (UserSession.client_info u) (UserSession.connected_at u) t
    (UserSession.is_active u) (UserSession.locked_widgets u).

Definition set_locked_widgets (ws : list uuid) (u : UserSession.t) : UserSession.t :=
  UserSession.mk (UserSession.dashboard_id u) (UserSession.user_id u)
    (UserSession.user_name u) (UserSession.user_email u)
    (UserSession.client_info u) (UserSession.connected_at u)
    (UserSession.last_activity u) (UserSession.is_active u) ws.

Definition set_session_active (b : bool) (u : UserSession.t) : UserSession.t :=
  UserSession.mk (UserSession.dashboard_id u) (UserSession.user_id u)
    (UserSession.user_name u) (UserSession.user_email u)
    (UserSession.client_info u) (UserSession.connected_at u)
    (UserSession.last_activity u) b (UserSession.locked_widgets u).

Definition set_lock_active (b : bool) (l : WidgetLock.t) : WidgetLock.t :=
  WidgetLock.mk (WidgetLock.dashboard_id l) (WidgetLock.session_id l)
    (WidgetLock.user_id l) (WidgetLock.user_name l) (WidgetLock.locked_at l)
    (WidgetLock.expires_at l) (WidgetLock.last_heartbeat l) b.

Definition set_lock_heartbeat (expires heartbeat : datetime) (l : WidgetLock.t)
    : WidgetLock.t :=
  WidgetLock.mk (WidgetLock.dashboard_id l) (WidgetLock.session_id l)
    (WidgetLock.user_id l) (WidgetLock.user_name l) (WidgetLock.locked_at l)
    expires heartbeat (WidgetLock.is_active l).

(** [session.add(user_session)]: the insert is rejected when the primary
    key is taken already. *)
Definition add_session (sid : uuid) (u : UserSession.t) : M unit :=
  w ← get_world;
  match sessions (txn w) !! sid with
  | Some _ => raise IntegrityError
  | None => orm_update (set_sessions (<[sid := u]>))
  end.

Definition get_or_create_user_session (dashboard_id : uuid) (user_info : UserInfo.t)
    : M (uuid * UserSession.t) :=
  try_except
    (let user_id_uuid := UserInfo.user_id user_info in
     rows ← execute_select env (select_sessions (λ u,
               Pos.eqb (UserSession.dashboard_id u) dashboard_id
               && Pos.eqb (UserSession.user_id u) user_id_uuid
               && UserSession.is_active u));
     existing_session ← scalar_one_or_none rows;
     match existing_session with
     | Some (sid, u) =>
         t ← now env;
         let u' := set_last_activity t u in
         orm_update (set_sessions (<[sid := u']>));;
         flush env;;
         mret (sid, u')
     | None =>
         sid ← new_uuid env;
         connected ← now env;
         last ← now env;
         let user_session :=
           UserSession.mk dashboard_id user_id_uuid
             (default "Unknown"%string (UserInfo.user_name user_info))
             (UserInfo.user_email user_info) (UserInfo.client_info user_info)
             connected last true [] in
         add_session sid user_session;;
         commit env;;
         mret (sid, user_session)
     end)
    (λ e, raise e).

Definition acquire_widget_lock (dashboard_id widget_id : uuid)
    (user_info : UserInfo.t) (lock_duration : Z) : M WidgetLock.t :=
  try_except
    ((* 1. the row of this widget, active or not *)
     widget_lock ← execute_select env (λ s, locks s !! widget_id);
     (* 2. an active, unexpired lock of somebody else blocks *)
     match widget_lock with
     | Some l =>
         if WidgetLock.is_active l then
           t ← now env;
           if t <? WidgetLock.expires_at l then
             if negb (Pos.eqb (WidgetLock.user_id l) (UserInfo.user_id user_info))
             then raise (ValueError ("Widget is currently locked by "
                                       +:+ WidgetLock.user_name l))
             else mret tt
           else mret tt
         else mret tt
     | None => mret tt
     end;;
     (* 3. get or create the session *)
     '(sid, user_session) ← get_or_create_user_session dashboard_id user_info;
     (* 4. the data *)
     now_ ← now env;
     let expires_at := now_ + timedelta_seconds lock_duration in
     let user_id_uuid := UserInfo.user_id user_info in
     let user_name := default "Unknown"%string (UserInfo.user_name user_info) in
     let row :=
       match widget_lock with
       | Some _ =>
           (* update of the existing row: every column is overwritten *)
           WidgetLock.mk dashboard_id sid user_id_uuid user_name
                         now_ expires_at now_ true
       | None =>
           WidgetLock.mk dashboard_id sid user_id_uuid user_name
                         now_ expires_at now_ true
       end in
     orm_update (set_locks (<[widget_id := row]>));;
     (* 5. the tracking list of the session *)
     (if bool_decide (widget_id ∈ UserSession.locked_widgets user_session)
      then mret tt
      else orm_update (set_sessions (<[sid :=
             set_last_activity now_
               (set_locked_widgets
                  (UserSession.locked_widgets user_session ++ [widget_id])
                  user_session)]>)));;
     commit env;;
     (* session.refresh(widget_lock) *)
     reloaded ← execute_select env (λ s, locks s !! widget_id);
     match reloaded with
     | Some l => mret l
     | None => raise StoreError
     end)
    (λ e, rollback;; raise e).

Definition refresh_widget_lock (widget_id : uuid) (lock_duration : Z)
    : M WidgetLock.t :=
  try_except
    (t ← now env;
     let new_expires_at := t + timedelta_seconds lock_duration in
     heartbeat ← now env;
     execute_dml env (set_locks (λ m,
       match m !! widget_id with
       | Some l => <[widget_id := set_lock_heartbeat new_expires_at heartbeat l]> m
       | None => m
       end));;
     flush env;;
     reloaded ← execute_select env (λ s, locks s !! widget_id);
     match reloaded with
     | Some l => mret l
     | None => raise StoreError
     end)
    (λ e, raise e).

Definition release_widget_lock (dashboard_id widget_id : uuid)
    (user_info : UserInfo.t) : M bool :=
  try_except
    ((* 1. the active lock of this widget on this dashboard *)
     widget_lock ← execute_select env (λ s,
       match locks s !! widget_id with
       | Some l =>
           if Pos.eqb (WidgetLock.dashboard_id l) dashboard_id
              && WidgetLock.is_active l
           then Some l else None
       | None => None
       end);
     match widget_lock with
     | None => mret true
     | Some l =>
         (* 2. ownership *)
         if negb (Pos.eqb (WidgetLock.user_id l) (UserInfo.user_id user_info))
         then mret false
         else
           (* 3. mark the lock inactive *)
           orm_update (set_locks (<[widget_id := set_lock_active false l]>));;
           (* 4. remove the widget from the session's list *)
           user_session ← get_user_session (WidgetLock.session_id l);
           match user_session with
           | Some u =>
               if bool_decide (widget_id ∈ UserSession.locked_widgets u)
               then orm_update (set_sessions (<[WidgetLock.session_id l :=
                      set_locked_widgets
                        (filter (λ w, w ≠ widget_id) (UserSession.locked_widgets u))
                        u]>))
               else mret tt
           | None => mret tt
           end;;
           (* 5. commit *)
           commit env;;
           mret true
     end)
    (λ e, rollback;; raise e).

Definition cleanup_stale_sessions_and_locks (session_timeout_minutes : Z)
    : M (nat * nat) :=
  try_except
    ((* count the expired locks *)
     t1 ← now env;
     counted ← execute_select env
                 (select_locks (λ _ l, WidgetLock.expires_at l <=? t1));
     let expired_locks_count := length counted in
     (* delete the expired locks *)
     t2 ← now env;
     execute_dml env (delete_locks (λ _ l, WidgetLock.expires_at l <=? t2));;
     (* the stale sessions *)
     t3 ← now env;
     let stale_time := t3 - timedelta_minutes session_timeout_minutes in
     stale_sessions ← execute_select env (select_sessions (λ u,
                        (UserSession.last_activity u <=? stale_time)
                        && UserSession.is_active u));
     for_each stale_sessions (λ '(sid, u),
       execute_dml env (delete_locks (λ _ l, Pos.eqb (WidgetLock.session_id l) sid));;
       orm_update (set_sessions (<[sid := set_session_active false u]>)));;
     flush env;;
     let stale_sessions_count := length stale_sessions in
     flush env;;
     mret (expired_locks_count, stale_sessions_count))
    (λ e, rollback;; raise e).

Definition log_collaboration_event (dashboard_id : uuid) (user_info : UserInfo.t)
    (event_type : string) (widget_id : option uuid) (event_data : list (string * Z))
    : M CollaborationEvent.t :=
  try_except
    (eid ← new_uuid env;
     created ← now env;
     let event :=
       CollaborationEvent.mk eid dashboard_id widget_id
         (UserInfo.user_id user_info)
         (default "Unknown"%string (UserInfo.user_name user_info))
         event_type event_data created in
     orm_update (set_events (λ es, es ++ [event]));;
     flush env;;
     mret event)
    (λ e, raise e).

End Core.
End CoreWidgetLocking.

(** ** [WidgetLockingService] ([app/services/widget_locking_service.py]) *)

Module WidgetLockingService.
Section Service.
Context (env : Env).

(** [self.lock_expiration_threshold = timedelta(minutes=2)], read as
    [int(self.lock_expiration_threshold.total_seconds())]. *)
Definition lock_expiration_threshold_seconds : Z := 120.

Definition initialize : M unit :=
  w ← get_world;
  if negb (service_initialized w)
  then get_cache env;; modify (set_service_initialized true)
  else mret tt.

Definition _cache_key_widget_lock (widget_id : uuid) : string * uuid :=
  generate_predictable_key "widget_lock" widget_id.
Definition _cache_key_dashboard_sessions (dashboard_id : uuid) : string * uuid :=
  generate_predictable_key "dashboard_sessions" dashboard_id.
Definition _cache_key_widget_status (widget_id : uuid) : string * uuid :=
  generate_predictable_key "widget_status" widget_id.

(** [WidgetLockSchema(widget_id=lock.widget_id, ..., time_remaining=lock.time_remaining)];
    the property [time_remaining] reads the clock. *)
Definition lock_schema (widget_id : uuid) (l : WidgetLock.t) : M WidgetLockSchema.t :=
  t ← now env;
  mret (WidgetLockSchema.mk widget_id (WidgetLock.dashboard_id l)
          (WidgetLock.session_id l) (WidgetLock.user_id l) (WidgetLock.user_name l)
          (WidgetLock.locked_at l) (WidgetLock.expires_at l)
          (WidgetLock.last_heartbeat l) (WidgetLock.time_remaining t l)).

Definition dashboard_tags (dashboard_id : uuid) : list string :=
  ["resource:dashboard_sessions";
   "entity:dashboard:" +:+ pretty (Npos dashboard_id)]%string.

(** The body of [try] in [acquire_widget_lock] up to the first
    [async with]: the local variable [session] is not bound yet.  The result
    is [Some r] when the function returns [r] from here. *)
Definition acquire_cache_check (widget_id : uuid)
    : M (option LockAcquisitionResponse.t) :=
  initialize;;
  let cache_key := _cache_key_widget_lock widget_id in
  existing_lock ← get_shared env cache_key;
  match existing_lock with
  | Some (CLock existing_lock_data) =>
      if 0 <? WidgetLockSchema.time_remaining existing_lock_data then
        placeholder ← new_uuid env;
        t ← now env;
        mret (Some (LockAcquisitionResponse.mk false widget_id placeholder t
                      ("Widget is locked by "
                         +:+ WidgetLockSchema.user_name existing_lock_data)))
      else mret None
  | Some (CStatus _) => raise ValidationError
  | None => mret None
  end.

(** The rest of the body of [try]: [session] is bound from here on. *)
Definition acquire_store (dashboard_id widget_id : uuid) (user_info : UserInfo.t)
    (lock_duration : Z) : M LockAcquisitionResponse.t :=
  let cache_key := _cache_key_widget_lock widget_id in
  denied ← with_session
    (db_lock ← CoreWidgetLocking.get_active_widget_lock env widget_id;
     match db_lock with
     | Some l =>
         t ← now env;
         if negb (WidgetLock.is_expired t l)
         then mret (Some (LockAcquisitionResponse.mk false widget_id
                            (WidgetLock.session_id l) (WidgetLock.expires_at l)
                            ("Widget is locked by " +:+ WidgetLock.user_name l)))
         else mret None
     | None => mret None
     end);
  match denied with
  | Some r => mret r
  | None =>
      widget_lock ← with_session
        (CoreWidgetLocking.acquire_widget_lock env dashboard_id widget_id
           user_info lock_duration);
      initialize;;
      lock_data ← lock_schema widget_id widget_lock;
      set_shared env cache_key (CLock lock_data) (Z.min lock_duration 30) [];;
      delete_multi_level_by_tags env (dashboard_tags dashboard_id);;
      with_session
        (CoreWidgetLocking.log_collaboration_event env dashboard_id user_info
           "lock_acquired" (Some widget_id) [("duration"%string, lock_duration)]);;
      mret (LockAcquisitionResponse.mk true widget_id
              (WidgetLock.session_id widget_lock)
              (WidgetLock.expires_at widget_lock)
              "Widget lock acquired successfully")
  end.

(** The handler is [await session.rollback()] followed by the failure
    response.  When the exception comes from the part before the first
    [async with], reading [session] raises [UnboundLocalError] instead. *)
Definition acquire_widget_lock (dashboard_id widget_id : uuid)
    (user_info : UserInfo.t) (lock_duration : Z) : M LockAcquisitionResponse.t :=
  early ← try_except (acquire_cache_check widget_id)
             (λ _, raise UnboundLocalError);
  match early with
  | Some r => mret r
  | None =>
      try_except (acquire_store dashboard_id widget_id user_info lock_duration)
        (λ e,
           rollback;;
           placeholder ← new_uuid env;
           t ← now env;
           mret (LockAcquisitionResponse.mk false widget_id placeholder t
                   ("Failed to acquire lock: " +:+ str_exn e)))
  end.

Definition refresh_widget_lock (dashboard_id widget_id : uuid)
    (user_info : UserInfo.t) : M HeartbeatResponse.t :=
  try_except
    (let request_user_id := UserInfo.user_id user_info in
     r ← with_session
       (widget_lock ← CoreWidgetLocking.get_active_widget_lock env widget_id;
        match widget_lock with
        | None =>
            t ← now env;
            mret (inl (HeartbeatResponse.mk false widget_id t
                         "Widget lock not found or already released"))
        | Some l =>
            if negb (Pos.eqb (WidgetLock.user_id l) request_user_id) then
              mret (inl (HeartbeatResponse.mk false widget_id
                           (WidgetLock.expires_at l)
                           "You don't own this widget lock"))
            else
              t ← now env;
              if WidgetLock.is_expired t l then
                mret (inl (HeartbeatResponse.mk false widget_id
                             (WidgetLock.expires_at l)
                             "Widget lock has expired"))
              else
                updated_lock ← CoreWidgetLocking.refresh_widget_lock env widget_id
                                  lock_expiration_threshold_seconds;
                user_session ← CoreWidgetLocking.get_user_session env
                                  (WidgetLock.session_id updated_lock);
                match user_session with
                | Some u =>
                    t' ← now env;
                    orm_update (set_sessions
                      (<[WidgetLock.session_id updated_lock :=
                           CoreWidgetLocking.set_last_activity t' u]>))
                | None => mret tt
                end;;
                commit env;;
                mret (inr updated_lock)
        end);
     match r with
     | inl response => mret response
     | inr updated_lock =>
         let cache_key := _cache_key_widget_lock widget_id in
         lock_data ← lock_schema widget_id updated_lock;
         initialize;;
         set_shared env cache_key (CLock lock_data) 30 [];;
         mret (HeartbeatResponse.mk true widget_id
                 (WidgetLock.expires_at updated_lock)
                 "Widget lock heartbeat refreshed")
     end)
    (λ e,
       t ← now env;
       mret (HeartbeatResponse.mk false widget_id t
               ("Internal Error: " +:+ str_exn e))).

Definition release_widget_lock (dashboard_id widget_id : uuid)
    (user_info : UserInfo.t) : M bool :=
  try_except
    (success ← with_session
       (CoreWidgetLocking.release_widget_lock env dashboard_id widget_id user_info);
     if negb success then mret false
     else
       initialize;;
       let cache_key := _cache_key_widget_lock widget_id in
       let status_key := _cache_key_widget_status widget_id in
       delete_shared env cache_key;;
       delete_shared env status_key;;
       delete_multi_level_by_tags env (dashboard_tags dashboard_id);;
       with_session
         (CoreWidgetLocking.log_collaboration_event env dashboard_id user_info
            "lock_released" (Some widget_id) [];;
          commit env);;
       mret true)
    (λ _, mret false).

Definition unlocked_status (widget_id : uuid) : WidgetLockStatusResponse.t :=
  WidgetLockStatusResponse.mk widget_id false None None None None 0 true.

(** The body of [try] in [get_widget_lock_status]. *)
Definition get_widget_lock_status_body (widget_id : uuid)
    (current_user_id : user_id_value) : M WidgetLockStatusResponse.t :=
  initialize;;
  let cache_key := _cache_key_widget_status widget_id in
  cached_status ← get_shared env cache_key;
  match cached_status with
  | Some (CStatus s) => mret s
  | Some (CLock _) => raise ValidationError
  | None =>
      status ← with_session
        (widget_lock ← CoreWidgetLocking.get_active_widget_lock env widget_id;
         match widget_lock with
         | None => mret (unlocked_status widget_id)
         | Some l =>
             t ← now env;
             if WidgetLock.expires_at l <? t then mret (unlocked_status widget_id)
             else
               t' ← now env;
               mret (WidgetLockStatusResponse.mk widget_id true
                       (Some (WidgetLock.user_name l)) (Some (WidgetLock.user_id l))
                       (Some (WidgetLock.locked_at l)) (Some (WidgetLock.expires_at l))
                       (WidgetLock.time_remaining t' l)
                       (uuid_eq (WidgetLock.user_id l) current_user_id))
         end);
      initialize;;
      set_shared env cache_key (CStatus status) 2 [];;
      mret status
  end.

Definition get_widget_lock_status (widget_id : uuid)
    (current_user_id : user_id_value) : M WidgetLockStatusResponse.t :=
  try_except (get_widget_lock_status_body widget_id current_user_id)
    (λ _, mret (unlocked_status widget_id)).

Definition stop_dashboard_editing (dashboard_id user_id : uuid) : M bool :=
  try_except
    (initialize;;
     r ← with_session
       (rows ← execute_select env (CoreWidgetLocking.select_sessions (λ u,
                 Pos.eqb (UserSession.dashboard_id u) dashboard_id
                 && Pos.eqb (UserSession.user_id u) user_id
                 && UserSession.is_active u));
        user_session ← scalar_one_or_none rows;
        match user_session with
        | None =>
            rows_inactive ← execute_select env (CoreWidgetLocking.select_sessions (λ u,
                               Pos.eqb (UserSession.dashboard_id u) dashboard_id
                               && Pos.eqb (UserSession.user_id u) user_id
                               && negb (UserSession.is_active u)));
            inactive_session ← scalar_one_or_none rows_inactive;
            match inactive_session with
            | Some _ => mret None
            | None =>
                active_locks ← execute_select env (CoreWidgetLocking.select_locks (λ _ l,
                                  Pos.eqb (WidgetLock.dashboard_id l) dashboard_id
                                  && Pos.eqb (WidgetLock.user_id l) user_id
                                  && WidgetLock.is_active l));
                match active_locks with
                | [] => mret tt
                | _ =>
                    for_each active_locks (λ '(wid, l),
                      orm_update (set_locks
                        (<[wid := CoreWidgetLocking.set_lock_active false l]>)));;
                    flush env
                end;;
                mret None
            end
        | Some (sid, u) =>
            orm_update (set_sessions
              (<[sid := CoreWidgetLocking.set_session_active false u]>));;
            commit env;;
            mret (Some sid)
        end);
     match r with
     | None => mret true
     | Some sid =>
         let cache_key := _cache_key_dashboard_sessions dashboard_id in
         delete_shared env cache_key;;
         with_session
           (CoreWidgetLocking.log_collaboration_event env dashboard_id
              (UserInfo.mk user_id None None None)
              "dashboard_edit_stopped" None [("session_id"%string, Zpos sid)]);;
         mret true
     end)
    (λ _, mret false).

(** [session_timeout_minutes: int = 5], the default of the core function,
    is what the service uses. *)
Definition session_timeout_minutes : Z := 5.

Definition cleanup_stale_sessions_and_locks : M (nat * nat) :=
  initialize;;
  try_except
    (counts ← with_session
       (CoreWidgetLocking.cleanup_stale_sessions_and_locks env session_timeout_minutes);
     delete_multi_level_by_tags env ["resource:widget_lock"%string];;
     delete_multi_level_by_tags env ["resource:dashboard_sessions"%string];;
     delete_multi_level_by_tags env ["resource:widget_status"%string];;
     mret counts)
    (λ _, rollback;; mret (0%nat, 0%nat)).

End Service.
End WidgetLockingService.

(** ** The acquire endpoint ([app/routers/widget_locking_router.py]) *)

Module Router.
Section Router.
Context (env : Env).

(** [uuid.UUID(s)] of the standard library: [None] when it raises
    [ValueError]. *)
Context (UUID : string → option uuid).

(** The authenticated user as [get_current_user] returns it. *)
Record CurrentUser := mkCurrentUser {
  cu_user_id : uuid;
  username : option string;
  email : option string
}.

(** Validation of the request body against [WidgetLockAcquireSchema]
    ([ge=30, le=300]); FastAPI answers 422 when it fails and the endpoint
    function is not entered. *)
Definition validate_lock_data (lock_data : WidgetLockAcquireSchema.t) : M unit :=
  let d := WidgetLockAcquireSchema.lock_duration lock_data in
  if (30 <=? d) && (d <=? 300) then mret tt
  else raise (HTTPException 422 "lock_duration out of range").

(** [try: uuid.UUID(dashboard_id) except ValueError: raise HTTPException(400, ...)]. *)
Definition dashboard_uuid (dashboard_id : string) : M uuid :=
  match UUID dashboard_id with
  | Some d => mret d
  | None => raise (HTTPException 400 "Invalid dashboard ID format")
  end.

Definition acquire_widget_lock (dashboard_id : string)
    (lock_data : WidgetLockAcquireSchema.t) (client : string)
    (current_user : CurrentUser) : M LockAcquisitionResponse.t :=
  validate_lock_data lock_data;;
  try_except
    (d ← dashboard_uuid dashboard_id;
     let user_info :=
       UserInfo.mk (cu_user_id current_user)
         (Some (default "Unknown"%string (username current_user)))
         (email current_user) (Some client) in
     result ← WidgetLockingService.acquire_widget_lock env d
                 (WidgetLockAcquireSchema.widget_id lock_data) user_info
                 (WidgetLockAcquireSchema.lock_duration lock_data);
     if negb (LockAcquisitionResponse.success result)
     then raise (HTTPException 409 (LockAcquisitionResponse.message result))
     else mret result)
    (λ e,
       match e with
       | HTTPException _ _ => raise e
       | _ => raise (HTTPException 500
                       ("Failed to acquire widget lock: " +:+ str_exn e))
       end).

End Router.
End Router.

(** ** Vocabulary of the statements *)

(** The row that the query of [release_widget_lock] selects: the lock of the
    widget when it belongs to the dashboard and is active. *)
Definition active_lock_on (s : Store) (dashboard_id widget_id : uuid)
    : option WidgetLock.t :=
  match locks s !! widget_id with
  | Some l =>
      if Pos.eqb (WidgetLock.dashboard_id l) dashboard_id && WidgetLock.is_active l
      then Some l else None
  | None => None
  end.

(** The row that [get_active_widget_lock] selects. *)
Definition active_lock (s : Store) (widget_id : uuid) : option WidgetLock.t :=
  match locks s !! widget_id with
  | Some l => if WidgetLock.is_active l then Some l else None
  | None => None
  end.

(** The row that [get_user_session] selects. *)
Definition active_session (s : Store) (session_id : uuid) : option UserSession.t :=
  match sessions s !! session_id with
  | Some u => if UserSession.is_active u then Some u else None
  | None => None
  end.

(** A lock row refers to a row of [user_sessions] of the same user on the
    same dashboard; [acquire_widget_lock] writes the lock rows with the
    session that [get_or_create_user_session] gave it. *)
Definition lock_has_session (s : Store) (l : WidgetLock.t) : bool :=
  match sessions s !! WidgetLock.session_id l with
  | Some u =>
      Pos.eqb (UserSession.dashboard_id u) (WidgetLock.dashboard_id l)
      && Pos.eqb (UserSession.user_id u) (WidgetLock.user_id l)
  | None => false
  end.

Definition locks_have_sessions (s : Store) : Prop :=
  map_Forall (λ _ l, lock_has_session s l = true) (locks s).

#[export] Instance locks_have_sessions_dec (s : Store) : Decision (locks_have_sessions s).
Proof. unfold locks_have_sessions. apply _. Defined.

(** A program that leaves the committed rows alone, whatever its outcome. *)
Definition keeps_db {A} (m : M A) : Prop := ∀ w, db (m w).2 = db w.



(** The widgets whose lock row is active and belongs to the session. *)
Definition locks_of_session (s : Store) (sid : uuid) : gset uuid :=
  dom (filter (λ kv : uuid * WidgetLock.t,
                 WidgetLock.is_active kv.2 = true ∧ WidgetLock.session_id kv.2 = sid)
              (locks s)).

(** Session consistency: for every session row, [locked_widgets] is, as a
    set, the set of widgets with an active lock row of that session. *)
Definition session_consistent (s : Store) : Prop :=
  map_Forall (λ sid (u : UserSession.t),
                list_to_set (UserSession.locked_widgets u) = locks_of_session s sid)
             (sessions s).

#[export] Instance session_consistent_dec (s : Store) : Decision (session_consistent s).
Proof. unfold session_consistent. apply _. Defined.

(** ** Concrete inputs *)

(** A clock that advances by one microsecond at every reading. *)
Definition example_clock (n : nat) : datetime := Z.of_nat n.
Definition example_uuid4 (n : nat) : uuid := Pos.of_nat (100 + n).
Definition example_env : Env := fault_free example_clock example_uuid4.

Definition empty_store : Store := mkStore ∅ ∅ [].
Definition initial_world : World :=
  mkWorld empty_store empty_store ∅ false false 0 0 0.

Definition alice : UserInfo.t := UserInfo.mk 1 (Some "A"%string) None None.
Definition bob : UserInfo.t := UserInfo.mk 2 (Some "B"%string) None None.
Definition d1 : uuid := 10%positive.
Definition w1 : uuid := 20%positive.

(** The identifier of a user as the status endpoint passes it on. *)
Definition caller (user_info : UserInfo.t) : user_id_value :=
  IdStr (str_uuid (UserInfo.user_id user_info)).


(** Alice acquires [w1] on [d1] for 60 s in the initial world. *)
Definition world_after_acquire : World :=
  (run (WidgetLockingService.acquire_widget_lock example_env d1 w1 alice 60)
       initial_world).2.

(** A parser of identifiers that knows the two names ["d1"] and ["w1"]. *)
Definition example_UUID (s : string) : option uuid :=
  if String.eqb s "d1" then Some d1
  else if String.eqb s "w1" then Some w1
  else None.

(** Alice as the authentication dependency returns her, and a request for a
    lease of 60 s on [w1]. *)
Definition alice_user : Router.CurrentUser :=
  Router.mkCurrentUser 1 (Some "A"%string) None.
Definition request_60 : WidgetLockAcquireSchema.t := WidgetLockAcquireSchema.mk w1 60.

(** An environment in which exactly the backend call number [k] fails. *)
Definition failing_env (k : nat) : Env :=
  mkEnv example_clock (λ n, Nat.eqb n k) example_uuid4.

(** A clock that advances by one microsecond at every reading and jumps
    ahead by [jump] at the reading number [k]. *)
Definition clock_jumping_at (k : nat) (jump : Z) (n : nat) : datetime :=
  if (n <? k)%nat then Z.of_nat n else jump + Z.of_nat n.

(** The readings taken by Alice's acquisition in the initial world are the
    first seven; afterwards 100 s pass. *)
Definition late_env : Env :=
  fault_free (clock_jumping_at 7 100000000) example_uuid4.

(** After Alice's lease has expired, Bob acquires [w1]. *)
Definition world_after_takeover : World :=
  (run (WidgetLockingService.acquire_widget_lock late_env d1 w1 bob 60)
       world_after_acquire).2.

(** Alice acquires [w1] on [d1] for 60 s and leaves the dashboard. *)
Definition world_after_acquire_and_stop : World :=
  (run (WidgetLockingService.stop_dashboard_editing example_env d1
          (UserInfo.user_id alice))
       world_after_acquire).2.


(** Ten minutes pass after Alice's acquisition. *)
Definition very_late_env : Env :=
  fault_free (clock_jumping_at 7 600000000) example_uuid4.

(** ** The rest of the program

    The methods of [WidgetLockingService] and of the router that come
    beside the ones above, and the background service of
    [app/services/session_cleanup_service.py] that runs the reaper. *)

(** *** [WidgetLockingService]: the editing session of a dashboard *)

Module WidgetLockingService_rest.
Section Service.
Context (env : Env).

Definition _cache_key_session_locks (session_id : uuid) : string * uuid :=
  generate_predictable_key "session_locks" session_id.

Definition start_dashboard_editing (dashboard_id : uuid) (user_info : UserInfo.t)
    : M (uuid * UserSession.t) :=
  try_except
    (WidgetLockingService.initialize env;;
     '(sid, user_session) ← with_session
        (CoreWidgetLocking.get_or_create_user_session env dashboard_id user_info);
     let cache_key := WidgetLockingService._cache_key_dashboard_sessions dashboard_id in
     delete_shared env cache_key;;
     with_session
       (CoreWidgetLocking.log_collaboration_event env dashboard_id user_info
          "dashboard_edit_started" None [("session_id"%string, Zpos sid)]);;
     mret (sid, user_session))
    (λ e, raise e).

(** The result of the session block is [Some b] when the function returns
    [b] from inside the block. *)
Definition refresh_dashboard_editing (dashboard_id user_id : uuid) : M bool :=
  try_except
    (WidgetLockingService.initialize env;;
     r ← with_session
       (rows ← execute_select env (CoreWidgetLocking.select_sessions (λ u,
                 Pos.eqb (UserSession.dashboard_id u) dashboard_id
                 && Pos.eqb (UserSession.user_id u) user_id
                 && UserSession.is_active u));
        user_session ← scalar_one_or_none rows;
        match user_session with
        | None =>
            rows_any ← execute_select env (CoreWidgetLocking.select_sessions (λ u,
                          Pos.eqb (UserSession.dashboard_id u) dashboard_id
                          && Pos.eqb (UserSession.user_id u) user_id));
            any_session ← scalar_one_or_none rows_any;
            match any_session with
            | Some (sid, u) =>
                t ← now env;
                orm_update (set_sessions (<[sid :=
                  CoreWidgetLocking.set_last_activity t
                    (CoreWidgetLocking.set_session_active true u)]>));;
                commit env;;
                mret (Some true)
            | None => mret (Some false)
            end
        | Some (sid, u) =>
            t ← now env;
            orm_update (set_sessions (<[sid := CoreWidgetLocking.set_last_activity t u]>));;
            commit env;;
            mret None
        end);
     match r with
     | Some b => mret b
     | None =>
         let cache_key := WidgetLockingService._cache_key_dashboard_sessions dashboard_id in
         delete_shared env cache_key;;
         mret true
     end)
    (λ _, mret false).

End Service.
End WidgetLockingService_rest.

(** *** The other endpoints of the router *)

Module Router_rest.
Section Router.
Context (env : Env).

(** [uuid.UUID(s)] of the standard library: [None] when it raises
    [ValueError]. *)
Context (UUID : string → option uuid).

(** [except HTTPException: raise] followed by
    [except Exception as e: raise HTTPException(500, prefix + str(e))]. *)
Definition reraise_http {A} (prefix : string) (e : exn) : M A :=
  match e with
  | HTTPException _ _ => raise e
  | _ => raise (HTTPException 500 (prefix +:+ str_exn e))
  end.

(** The [user_info] of the heartbeat and release endpoints has the two keys
    ["user_id"] and ["user_name"]. *)
Definition user_info_of (current_user : Router.CurrentUser) : UserInfo.t :=
  UserInfo.mk (Router.cu_user_id current_user)
    (Some (default "Unknown"%string (Router.username current_user))) None None.

Definition refresh_widget_lock (dashboard_id : string) (widget_id : uuid)
    (current_user : Router.CurrentUser) : M HeartbeatResponse.t :=
  try_except
    (d ← Router.dashboard_uuid UUID dashboard_id;
     result ← WidgetLockingService.refresh_widget_lock env d widget_id
                 (user_info_of current_user);
     if negb (HeartbeatResponse.success result)
     then raise (HTTPException 404 (HeartbeatResponse.message result))
     else mret result)
    (reraise_http "Failed to refresh widget lock: ").

(** The dictionaries [{"success": True, "message": ...}] that the endpoints
    below return are given by their message. *)
Definition release_widget_lock (dashboard_id : string) (widget_id : uuid)
    (current_user : Router.CurrentUser) : M string :=
  try_except
    (d ← Router.dashboard_uuid UUID dashboard_id;
     success ← WidgetLockingService.release_widget_lock env d widget_id
                  (user_info_of current_user);
     if negb success
     then raise (HTTPException 403 "You don't own this widget lock")
     else mret "Widget lock released successfully"%string)
    (reraise_http "Failed to release widget lock: ").

(** This endpoint has the blanket handler only: an [HTTPException] raised in
    its body is caught as well.  [current_user["user_id"]], a [str], is
    passed on as it is. *)
Definition get_widget_lock_status (dashboard_id widget_id : string)
    (current_user : Router.CurrentUser) : M WidgetLockStatusResponse.t :=
  try_except
    (ids ← match UUID dashboard_id with
           | Some d =>
               match UUID widget_id with
               | Some wid => mret (d, wid)
               | None => raise (HTTPException 400
                                  "Invalid dashboard or widget ID format")
               end
           | None => raise (HTTPException 400 "Invalid dashboard or widget ID format")
           end;
     WidgetLockingService.get_widget_lock_status env ids.2
       (IdStr (str_uuid (Router.cu_user_id current_user))))
    (λ e, raise (HTTPException 500
                   ("Failed to get widget lock status: " +:+ str_exn e))).

Definition stop_dashboard_editing (dashboard_id : string)
    (current_user : Router.CurrentUser) : M string :=
  try_except
    (d ← Router.dashboard_uuid UUID dashboard_id;
     success ← WidgetLockingService.stop_dashboard_editing env d
                  (Router.cu_user_id current_user);
     if negb success
     then raise (HTTPException 404 "No active editing session found")
     else mret "Dashboard editing session stopped successfully"%string)
    (reraise_http "Failed to stop dashboard editing: ").

Definition refresh_dashboard_editing (dashboard_id : string)
    (current_user : Router.CurrentUser) : M string :=
  try_except
    (d ← Router.dashboard_uuid UUID dashboard_id;
     success ← WidgetLockingService_rest.refresh_dashboard_editing env d
                  (Router.cu_user_id current_user);
     if negb success
     then raise (HTTPException 404 "No active editing session found")
     else mret "Dashboard editing session refreshed successfully"%string)
    (reraise_http "Failed to refresh dashboard editing: ").

End Router.
End Router_rest.

(** *** [SessionCleanupService] ([session_cleanup_service.py])

    The APScheduler object is a value of a type [Sched]; its three methods
    that the service calls are functions on it that return normally or
    raise. *)

Module SessionCleanupService.
Section Cleanup.
Context {Sched : Type}.
Context (add_job : Z → Sched → outcome unit * Sched).
Context (scheduler_start : Sched → outcome unit * Sched).
Context (scheduler_shutdown : Sched → outcome unit * Sched).

Record t := mk {
  scheduler : Sched;
  is_running : bool;
  cleanup_interval : Z
}.

Definition start_cleanup_service (s : t) : outcome unit * t :=
  if is_running s then (Return tt, s)
  else
    match add_job (cleanup_interval s) (scheduler s) with
    | (Raise e, sc) => (Raise e, mk sc (is_running s) (cleanup_interval s))
    | (Return _, sc) =>
        match scheduler_start sc with
        | (Raise e, sc') => (Raise e, mk sc' (is_running s) (cleanup_interval s))
        | (Return _, sc') => (Return tt, mk sc' true (cleanup_interval s))
        end
    end.

Definition stop_cleanup_service (s : t) : outcome unit * t :=
  if negb (is_running s) then (Return tt, s)
  else
    match scheduler_shutdown (scheduler s) with
    | (Raise e, sc) => (Raise e, mk sc (is_running s) (cleanup_interval s))
    | (Return _, sc) => (Return tt, mk sc false (cleanup_interval s))
    end.

Definition update_cleanup_interval (new_interval : Z) (s : t) : outcome unit * t :=
  if new_interval <? 10
  then (Raise (ValueError "Cleanup interval must be at least 10 seconds"), s)
  else
    match (if is_running s then stop_cleanup_service s else (Return tt, s)) with
    | (Raise e, s1) => (Raise e, s1)
    | (Return _, s1) =>
        let s2 := mk (scheduler s1) (is_running s1) new_interval in
        if is_running s2 then start_cleanup_service s2 else (Return tt, s2)
    end.

End Cleanup.

Section Task.
Context (env : Env).

Definition _cleanup_task : M unit :=
  try_except
    (WidgetLockingService.cleanup_stale_sessions_and_locks env;; mret tt)
    (λ _, mret tt).

Definition run_manual_cleanup : M (nat * nat) :=
  try_except
    (WidgetLockingService.cleanup_stale_sessions_and_locks env)
    (λ _, mret (0%nat, 0%nat)).

End Task.
End SessionCleanupService.

(** ** Vocabulary of the further statements *)

(** A program every run of which takes the world to one that is related to
    it by [R]. *)
Definition respects (R : World → World → Prop) {A} (m : M A) : Prop :=
  ∀ w, R w (m w).2.

(** The shared cache is the same. *)
Definition same_cache (w w' : World) : Prop := cache w' = cache w.

(** The clock was read zero or more times. *)
Definition later (w w' : World) : Prop := (ticks w ≤ ticks w')%nat.

(** The committed audit trail is the same. *)
Definition same_events (w w' : World) : Prop := events (db w') = events (db w).

(** Inside a session that has no pending audit event: the committed audit
    trail is the same and the session has no pending audit event. *)
Definition no_event_step (w w' : World) : Prop :=
  events (txn w) = events (db w) →
  events (db w') = events (db w) ∧ events (txn w') = events (db w').

(** No entry of the cache carries a tag. *)
Definition untagged (m : gmap (string * uuid) CacheEntry) : Prop :=
  map_Forall (λ _ e, tags e = []) m.

(** The rows of [user_sessions] of a user on a dashboard. *)
Definition session_of (dashboard_id user_id : uuid) (u : UserSession.t) : bool :=
  Pos.eqb (UserSession.dashboard_id u) dashboard_id
  && Pos.eqb (UserSession.user_id u) user_id.

(** No row of [user_sessions] satisfies [P]. *)
Definition no_session (P : UserSession.t → bool) (s : Store) : Prop :=
  map_Forall (λ _ u, P u = false) (sessions s).

(** [sid] is the one row of [user_sessions] that satisfies [P]. *)
Definition only_session (P : UserSession.t → bool) (s : Store) (sid : uuid)
    (u : UserSession.t) : Prop :=
  sessions s !! sid = Some u ∧ P u = true
  ∧ map_Forall (λ sid' u', P u' = true → sid' = sid) (sessions s).

#[export] Instance UserSession_eq_dec : EqDecision UserSession.t.
Proof. solve_decision. Defined.

#[export] Instance no_session_dec P s : Decision (no_session P s).
Proof. unfold no_session. apply _. Defined.

#[export] Instance only_session_dec P s sid u : Decision (only_session P s sid u).
Proof. unfold only_session. apply _. Defined.

#[export] Instance untagged_dec m : Decision (untagged m).
Proof. unfold untagged. apply _. Defined.

(** A cache without tags stays without tags. *)
Definition stays_untagged (w w' : World) : Prop :=
  untagged (cache w) → untagged (cache w').

(** A cache without tags is left as it is. *)
Definition untagged_cache_kept (w w' : World) : Prop :=
  untagged (cache w) → cache w' = cache w.

(** A clock that never goes back. *)
Definition monotone (c : nat → datetime) : Prop :=
  ∀ i j, (i ≤ j)%nat → c i ≤ c j.

(** ** Further concrete inputs *)


(** Alice opens [d1] for editing and leaves, twice. *)
Definition world_after_two_stops : World :=
  (run (WidgetLockingService_rest.start_dashboard_editing example_env d1 alice;;
        WidgetLockingService.stop_dashboard_editing example_env d1 1;;
        WidgetLockingService_rest.start_dashboard_editing example_env d1 alice;;
        WidgetLockingService.stop_dashboard_editing example_env d1 1)
       initial_world).2.

(** At most one row of [user_sessions] satisfies [P]. *)
Definition at_most_one_session (P : UserSession.t → bool) (s : Store) : Prop :=
  map_Forall (λ a ua, P ua = true →
    map_Forall (λ b ub, P ub = true → a = b) (sessions s)) (sessions s).

#[export] Instance at_most_one_session_dec P s : Decision (at_most_one_session P s).
Proof. unfold at_most_one_session. apply _. Defined.

(** The cache manager of an initialised service is initialised. *)
Definition manager_ready (w : World) : Prop :=
  service_initialized w = true → cache_initialized w = true.

(** A scheduler that is the list of the intervals of its jobs: its methods
    do not raise, and a shutdown forgets the jobs. *)
Definition example_add_job (interval : Z) (jobs : list Z) : outcome unit * list Z :=
  (Return tt, jobs ++ [interval]).
Definition example_scheduler_start (jobs : list Z) : outcome unit * list Z :=
  (Return tt, jobs).
Definition example_scheduler_shutdown (jobs : list Z) : outcome unit * list Z :=
  (Return tt, []).

(** The background service as [start_cleanup_service] leaves it: running,
    with the job of the reaper every 30 s. *)
Definition running_service : SessionCleanupService.t :=
  SessionCleanupService.mk [30] true 30.

(** No two active rows of [user_sessions] are of the same user on the same
    dashboard. *)
Definition one_active_session_each (s : Store) : Prop :=
  map_Forall (λ a ua, map_Forall (λ b ub,
    UserSession.is_active ua = true → UserSession.is_active ub = true →
    UserSession.dashboard_id ua = UserSession.dashboard_id ub →
    UserSession.user_id ua = UserSession.user_id ub → a = b) (sessions s)) (sessions s).

#[export] Instance one_active_session_each_dec s : Decision (one_active_session_each s).
Proof. unfold one_active_session_each. apply _. Defined.

(** The committed lock rows are the same. *)
Definition same_locks (w w' : World) : Prop := locks (db w') = locks (db w).

(** Inside a session that has no pending change of a lock row: the committed
    lock rows are the same and the session has no pending change of one. *)
Definition no_lock_step (w w' : World) : Prop :=
  locks (txn w) = locks (db w) →
  locks (db w') = locks (db w) ∧ locks (txn w') = locks (db w').

(** The committed store has every lock row with its session row after a
    program when it has before. *)
Definition inv_step (w w' : World) : Prop :=
  locks_have_sessions (db w) → locks_have_sessions (db w').

(** ** Evaluation of monadic code *)

Ltac munfold :=
  unfold run, mbind, M_bind, mret, M_ret, raise, try_except, try_finally,
    get_world, modify, now, new_uuid, backend, execute_select, execute_dml,
    orm_update, flush, commit, rollback, close, with_session,
    scalar_one_or_none, set_db, set_txn, set_cache, set_cache_initialized,
    set_service_initialized, set_ticks, set_steps, set_draws, set_locks,
    set_sessions, set_events in *.

Ltac msimpl := repeat (progress (munfold; cbn)).

(** Closed statements about concrete inputs: the conjuncts are evaluated one
    after the other, so that the values found by the earlier ones are known
    to the later ones. *)
Ltac by_evaluation :=
  repeat match goal with
         | |- ∃ _, _ => eexists
         | |- _ ∧ _ => split
         end;
  [> (vm_compute; first [reflexivity | exact I]) ..].

(** Rewriting with the equations at hand, then computing. *)
Ltac mrew :=
  repeat match goal with
         | H : ?x = _ |- context [?x] => rewrite H
         end.
Ltac mgo := repeat (progress (mrew; cbn)).

Lemma set_locked_widgets_same (u : UserSession.t) :
  CoreWidgetLocking.set_locked_widgets (UserSession.locked_widgets u) u = u.
Proof. by destruct u. Qed.

Lemma filter_not_elem (w : uuid) (ws : list uuid) :
  w ∉ ws → filter (λ x, x ≠ w) ws = ws.
Proof.
  induction ws as [|x ws IH]; [done|].
  intros Hn. apply not_elem_of_cons in Hn as [Hne Hn].
  rewrite filter_cons_True by congruence. by rewrite IH.
Qed.


(** ** Inversion of runs *)

Lemma bind_Return_inv {A B} (m : M A) (f : A → M B) (w w' : World) (b : B) :
  (m ≫= f) w = (Return b, w') →
  ∃ a w1, m w = (Return a, w1) ∧ f a w1 = (Return b, w').
Proof.
  unfold mbind, M_bind. destruct (m w) as [[a|e] w1]; intros H; [eauto|done].
Qed.

Lemma try_except_Return_inv {A} (m : M A) (h : exn → M A) (w w' : World) (a : A) :
  try_except m h w = (Return a, w') →
  m w = (Return a, w') ∨ ∃ e w1, m w = (Raise e, w1) ∧ h e w1 = (Return a, w').
Proof.
  unfold try_except. destruct (m w) as [[a'|e] w1]; intros H; [left; congruence|eauto].
Qed.

(** ** Code that leaves the committed rows alone *)

Lemma keeps_db_ret {A} (a : A) : keeps_db (mret a).
Proof. done. Qed.

Lemma keeps_db_raise {A} (e : exn) : keeps_db (@raise A e).
Proof. done. Qed.

Lemma keeps_db_bind {A B} (m : M A) (f : A → M B) :
  keeps_db m → (∀ a, keeps_db (f a)) → keeps_db (m ≫= f).
Proof.
  intros Hm Hf w. unfold mbind, M_bind. specialize (Hm w).
  destruct (m w) as [[a|e] w1]; cbn in *; [|done].
  by rewrite Hf.
Qed.

Lemma keeps_db_try_except {A} (m : M A) (h : exn → M A) :
  keeps_db m → (∀ e, keeps_db (h e)) → keeps_db (try_except m h).
Proof.
  intros Hm Hh w. unfold try_except. specialize (Hm w).
  destruct (m w) as [[a|e] w1]; cbn in *; [done|].
  by rewrite Hh.
Qed.

Lemma keeps_db_try_finally {A} (m : M A) (k : M unit) :
  keeps_db m → keeps_db k → keeps_db (try_finally m k).
Proof.
  intros Hm Hk w. unfold try_finally. specialize (Hm w).
  destruct (m w) as [[a|e] w1]; cbn in *;
    specialize (Hk w1); destruct (k w1) as [[[]|e'] w2]; cbn in *; congruence.
Qed.

Lemma keeps_db_get_world : keeps_db get_world.
Proof. done. Qed.

Lemma keeps_db_modify (f : World → World) :
  (∀ w, db (f w) = db w) → keeps_db (modify f).
Proof. intros Hf w. apply Hf. Qed.

Lemma keeps_db_now env : keeps_db (now env).
Proof. done. Qed.

Lemma keeps_db_new_uuid env : keeps_db (new_uuid env).
Proof. done. Qed.

Lemma keeps_db_backend env e : keeps_db (backend env e).
Proof. intros w. unfold backend. by destruct (fault env (steps w)). Qed.

Lemma keeps_db_scalar_one_or_none {A} (rows : list A) :
  keeps_db (scalar_one_or_none rows).
Proof. by destruct rows as [|? [|? ?]]. Qed.

Lemma keeps_db_for_each {A} (l : list A) (f : A → M unit) :
  (∀ x, keeps_db (f x)) → keeps_db (for_each l f).
Proof.
  intros Hf. induction l as [|x l IH]; cbn; [done|].
  apply keeps_db_bind; auto.
Qed.

Create HintDb keeps discriminated.
#[export] Hint Resolve keeps_db_ret keeps_db_raise keeps_db_get_world
  keeps_db_now keeps_db_new_uuid keeps_db_backend
  keeps_db_scalar_one_or_none : keeps.

(** Syntax-directed proof that a program keeps the committed rows. *)
Ltac keeps_step :=
  match goal with
  | |- keeps_db (_ ≫= _) => apply keeps_db_bind; [|intros]
  | |- keeps_db (try_except _ _) => apply keeps_db_try_except; [|intros]
  | |- keeps_db (try_finally _ _) => apply keeps_db_try_finally
  | |- keeps_db (for_each _ _) => apply keeps_db_for_each; intros
  | |- keeps_db (modify _) => apply keeps_db_modify; intros; reflexivity
  | |- keeps_db (match ?x with _ => _ end) => destruct x
  | |- keeps_db (let _ := _ in _) => cbv zeta
  | |- keeps_db _ => solve [auto with keeps]
  end.

Ltac keeps0 := repeat keeps_step.

Lemma keeps_db_execute_select env {A} (q : Store → A) :
  keeps_db (execute_select env q).
Proof. unfold execute_select. keeps0. Qed.

Lemma keeps_db_execute_dml env (f : Store → Store) : keeps_db (execute_dml env f).
Proof. unfold execute_dml. keeps0. Qed.

Lemma keeps_db_orm_update (f : Store → Store) : keeps_db (orm_update f).
Proof. unfold orm_update. keeps0. Qed.

Lemma keeps_db_flush env : keeps_db (flush env).
Proof. unfold flush. keeps0. Qed.

Lemma keeps_db_rollback : keeps_db rollback.
Proof. unfold rollback. keeps0. Qed.

Lemma keeps_db_close : keeps_db close.
Proof. unfold close. keeps0. Qed.

#[export] Hint Resolve keeps_db_execute_select keeps_db_execute_dml
  keeps_db_orm_update keeps_db_flush keeps_db_rollback keeps_db_close : keeps.

Lemma keeps_db_with_session {A} (m : M A) : keeps_db m → keeps_db (with_session m).
Proof. intros Hm. unfold with_session. keeps0. Qed.

Ltac keeps := repeat first [apply keeps_db_with_session | keeps_step].

Lemma keeps_db_cache_manager_initialize env : keeps_db (cache_manager_initialize env).
Proof. unfold cache_manager_initialize, cache_setup. keeps. Qed.

Lemma keeps_db_get_cache env : keeps_db (get_cache env).
Proof.
  unfold get_cache. keeps. apply keeps_db_cache_manager_initialize.
Qed.

Lemma keeps_db_get_shared env key : keeps_db (get_shared env key).
Proof. unfold get_shared, cache_get. keeps. Qed.

Lemma keeps_db_set_shared env key v ttl tgs : keeps_db (set_shared env key v ttl tgs).
Proof. unfold set_shared, cache_set. keeps. Qed.

Lemma keeps_db_delete_shared env key : keeps_db (delete_shared env key).
Proof. unfold delete_shared, cache_delete. keeps. Qed.

Lemma keeps_db_delete_multi_level_by_tags env tgs :
  keeps_db (delete_multi_level_by_tags env tgs).
Proof.
  unfold delete_multi_level_by_tags, delete_by_tags, cache_delete_tags. keeps.
Qed.

Lemma keeps_db_initialize env : keeps_db (WidgetLockingService.initialize env).
Proof.
  unfold WidgetLockingService.initialize. keeps. apply keeps_db_get_cache.
Qed.

#[export] Hint Resolve keeps_db_with_session keeps_db_get_cache
  keeps_db_get_shared keeps_db_set_shared keeps_db_delete_shared
  keeps_db_delete_multi_level_by_tags keeps_db_initialize : keeps.

Lemma keeps_db_lock_schema env wid l : keeps_db (WidgetLockingService.lock_schema env wid l).
Proof. unfold WidgetLockingService.lock_schema. keeps. Qed.

Lemma keeps_db_log_collaboration_event env d ui ty wid data :
  keeps_db (CoreWidgetLocking.log_collaboration_event env d ui ty wid data).
Proof. unfold CoreWidgetLocking.log_collaboration_event. keeps. Qed.

Lemma keeps_db_get_active_widget_lock env wid :
  keeps_db (CoreWidgetLocking.get_active_widget_lock env wid).
Proof. unfold CoreWidgetLocking.get_active_widget_lock. keeps. Qed.

Lemma keeps_db_get_user_session env sid :
  keeps_db (CoreWidgetLocking.get_user_session env sid).
Proof. unfold CoreWidgetLocking.get_user_session. keeps. Qed.

#[export] Hint Resolve keeps_db_lock_schema keeps_db_log_collaboration_event
  keeps_db_get_active_widget_lock keeps_db_get_user_session : keeps.

Lemma try_except_reraise_inv {A} (m : M A) (k : M unit) (w w' : World) (a : A) :
  try_except m (λ e, k;; raise e) w = (Return a, w') → m w = (Return a, w').
Proof.
  intros [H|(e & w1 & _ & H)]%try_except_Return_inv; [done|].
  apply bind_Return_inv in H as (? & ? & _ & [=]).
Qed.


(** A session block that returns normally: the body ran on the committed
    rows and what it left uncommitted was discarded. *)
Lemma with_session_Return_inv {A} (m : M A) (w w' : World) (a : A) :
  with_session m w = (Return a, w') →
  ∃ w1, m (set_txn (λ _, db w) w) = (Return a, w1)
        ∧ w' = set_txn (λ _, db w1) w1.
Proof.
  unfold with_session. intros (? & w0 & [= _ <-] & H)%bind_Return_inv.
  unfold try_finally, try_except in H.
  destruct (m _) as [[a'|e] w1]; cbn in H.
  - injection H as <- <-. eauto.
  - unfold rollback, raise, close in H. cbn in H. done.
Qed.

Lemma bind_Return_run {A B} (m : M A) (f : A → M B) (w w1 : World) (a : A) :
  m w = (Return a, w1) → (m ≫= f) w = f a w1.
Proof. intros H. unfold mbind, M_bind. by rewrite H. Qed.

Lemma try_except_Return_run {A} (m : M A) (h : exn → M A) (w w1 : World) (a : A) :
  m w = (Return a, w1) → try_except m h w = (Return a, w1).
Proof. intros H. unfold try_except. by rewrite H. Qed.

(** ** AcquireLock by the owner of the lock *)

(** The store check of the service denies whenever the widget has an active
    lock that has not expired; it does not look at the owner. *)
Lemma acquire_store_denies (c : nat → datetime) (u : nat → uuid) (w : World)
    (d wid : uuid) (ui : UserInfo.t) (dur : Z) (l : WidgetLock.t) :
  active_lock (db w) wid = Some l →
  c (ticks w) ≤ WidgetLock.expires_at l →
  ∃ r w',
    WidgetLockingService.acquire_store (fault_free c u) d wid ui dur w
      = (Return r, w')
    ∧ LockAcquisitionResponse.success r = false
    ∧ db w' = db w.
Proof.
  intros Hl Hexp. unfold active_lock in Hl.
  unfold WidgetLockingService.acquire_store.
  match goal with
  | |- context [with_session ?body ≫= _] =>
      assert (∃ r w', with_session body w = (Return (Some r), w')
                      ∧ LockAcquisitionResponse.success r = false
                      ∧ db w' = db w) as (r & w' & Hcheck & Hr & Hdb)
  end.
  { unfold CoreWidgetLocking.get_active_widget_lock, WidgetLock.is_expired.
    msimpl. rewrite Hl. cbn.
    destruct (Z.ltb_spec (WidgetLock.expires_at l) (c (ticks w))) as [He|He];
      [lia|].
    cbn. by eexists _, _. }
  exists r, w'. by rewrite (bind_Return_run _ _ _ _ _ Hcheck).
Qed.

(** The cache check either denies or passes on, and leaves the store as it
    is, as long as the entry of the lock key is a lock payload. *)
Lemma acquire_cache_check_cases (c : nat → datetime) (u : nat → uuid) (w : World)
    (wid : uuid) :
  (∀ e, cache w !! WidgetLockingService._cache_key_widget_lock wid = Some e →
        ∃ ld, value e = CLock ld) →
  ∃ early w1,
    WidgetLockingService.acquire_cache_check (fault_free c u) wid w
      = (Return early, w1)
    ∧ db w1 = db w
    ∧ match early with
      | Some r => LockAcquisitionResponse.success r = false
      | None => ticks w1 = ticks w ∨ ticks w1 = S (ticks w)
      end.
Proof.
  intros Hcache.
  unfold WidgetLockingService.acquire_cache_check,
    WidgetLockingService.initialize, get_cache, cache_manager_initialize,
    cache_setup, get_shared, cache_get.
  msimpl.
  destruct (service_initialized w) eqn:Hsi, (cache_initialized w) eqn:Hci; mgo;
    try (eexists _, _; by auto);
    (destruct (cache w !! _) as [e|] eqn:He; cbn; [|eexists _, _; by auto]);
    (destruct (Hcache e eq_refl) as [ld Hld]);
    (destruct (expire_at e <? _); cbn; [eexists _, _; by auto|]);
    rewrite Hld; destruct (0 <? _); cbn; eexists _, _; by auto.
Qed.

(** C1, what the code does.  While a widget has an active lock that has not
    expired at the readings of the clock that the call takes for its
    checks, [WidgetLockingService.acquire_widget_lock] answers
    [success=False] to every requester, the owner of the lock included, and
    leaves the store as it is: the expiry is not extended. *)
Theorem acquire_denied_while_locked (c : nat → datetime) (u : nat → uuid)
    (w : World) (d wid : uuid) (ui : UserInfo.t) (dur : Z) (l : WidgetLock.t) :
  active_lock (db w) wid = Some l →
  c (ticks w) ≤ WidgetLock.expires_at l →
  c (S (ticks w)) ≤ WidgetLock.expires_at l →
  (∀ e, cache w !! WidgetLockingService._cache_key_widget_lock wid = Some e →
        ∃ ld, value e = CLock ld) →
  ∃ r w',
    run (WidgetLockingService.acquire_widget_lock (fault_free c u) d wid ui dur) w
      = (Return r, w')
    ∧ LockAcquisitionResponse.success r = false
    ∧ db w' = db w.
Proof.
  intros Hl Hexp0 Hexp1 Hcache.
  destruct (acquire_cache_check_cases c u w wid Hcache)
    as (early & w1 & Hcheck & Hdb & Hearly).
  unfold run, WidgetLockingService.acquire_widget_lock.
  erewrite bind_Return_run by (by apply try_except_Return_run).
  destruct early as [r|].
  - by eexists _, _.
  - rewrite <- Hdb in Hl.
    destruct (acquire_store_denies c u w1 d wid ui dur l Hl)
      as (r & w' & Hstore & Hr & Hdb'); [by destruct Hearly as [-> | ->]|].
    exists r, w'. split; [by apply try_except_Return_run|].
    split; [done|congruence].
Qed.

(** Alice holds [w1] with a lease of 60 s and asks again a few microseconds
    later: she is denied and the row keeps its expiry. *)
Lemma acquire_denied_while_locked_witness :
  ∃ l r w',
    active_lock (db world_after_acquire) w1 = Some l
    ∧ WidgetLock.user_id l = UserInfo.user_id alice
    ∧ run (WidgetLockingService.acquire_widget_lock example_env d1 w1 alice 60)
          world_after_acquire = (Return r, w')
    ∧ LockAcquisitionResponse.success r = false
    ∧ db w' = db world_after_acquire.
Proof.
  assert (Hl : active_lock (db world_after_acquire) w1
               = Some (WidgetLock.mk 10 100 1 "A" 3 60000003 3 true))
    by (vm_compute; reflexivity).
  destruct (acquire_denied_while_locked example_clock example_uuid4
              world_after_acquire d1 w1 alice 60 _ Hl) as (r & w' & H).
  - vm_compute. discriminate.
  - vm_compute. discriminate.
  - intros e He. vm_compute in He. injection He as <-. by eexists.
  - eexists _, r, w'. split; [exact Hl|]. split; [reflexivity|]. exact H.
Defined.

(** The core function, called directly in the same state, does renew for the
    owner: the ownership test that the service leaves out is there. *)
Example core_acquire_renews_for_owner :
  ∃ l w',
    run (with_session
           (CoreWidgetLocking.acquire_widget_lock example_env d1 w1 alice 60))
        world_after_acquire = (Return l, w')
    ∧ locks (db w') !! w1 = Some l
    ∧ WidgetLock.user_id l = UserInfo.user_id alice
    ∧ WidgetLock.expires_at l = 60000009.
Proof. by_evaluation. Qed.

(** ** Session consistency *)

(** C2, what the code does.  Alice acquires [w1]; her lease expires; Bob
    acquires [w1].  Both calls succeed.  The store is consistent after the
    first and not after the second: the lock row now belongs to Bob's
    session, and the session of Alice still lists the widget. *)
Theorem session_consistency_lost_on_takeover :
  (∃ r w, run (WidgetLockingService.acquire_widget_lock late_env d1 w1 alice 60)
              initial_world = (Return r, w)
          ∧ LockAcquisitionResponse.success r = true
          ∧ w = world_after_acquire)
  ∧ session_consistent (db world_after_acquire)
  ∧ (∃ r w, run (WidgetLockingService.acquire_widget_lock late_env d1 w1 bob 60)
                world_after_acquire = (Return r, w)
            ∧ LockAcquisitionResponse.success r = true
            ∧ w = world_after_takeover)
  ∧ ¬ session_consistent (db world_after_takeover)
  ∧ ∃ sid s, sessions (db world_after_takeover) !! sid = Some s
             ∧ UserSession.user_id s = UserInfo.user_id alice
             ∧ w1 ∈ UserSession.locked_widgets s
             ∧ w1 ∉ locks_of_session (db world_after_takeover) sid.
Proof.
  split; [by_evaluation|].
  split; [apply (bool_decide_unpack _); vm_compute; exact I|].
  split; [by_evaluation|].
  split; [apply (bool_decide_unpack _); vm_compute; exact I|].
  exists 100%positive. eexists. split; [vm_compute; reflexivity|].
  split; [reflexivity|]. split; [cbn; set_solver|].
  apply (bool_decide_unpack _). vm_compute. exact I.
Qed.

(** ** The reaper *)

Lemma for_each_Return {A} (l : list A) (f : A → M unit) (w : World) :
  (∀ x w0, ∃ w1, f x w0 = (Return tt, w1)) →
  ∃ w', for_each l f w = (Return tt, w').
Proof.
  intros Hf. revert w. induction l as [|x l IH]; intros w; cbn; [by eexists|].
  unfold mbind, M_bind. destruct (Hf x w) as [w1 ->]. apply IH.
Qed.

Lemma keeps_db_core_cleanup env timeout :
  keeps_db (CoreWidgetLocking.cleanup_stale_sessions_and_locks env timeout).
Proof. unfold CoreWidgetLocking.cleanup_stale_sessions_and_locks. keeps. Qed.

(** The reaper, whatever fails, never changes a committed row: the core
    function deletes and updates inside its session and flushes, nobody
    commits, and the session is closed. *)
Lemma cleanup_keeps_db (env : Env) :
  keeps_db (WidgetLockingService.cleanup_stale_sessions_and_locks env).
Proof.
  unfold WidgetLockingService.cleanup_stale_sessions_and_locks.
  pose proof (keeps_db_core_cleanup env). keeps.
Qed.

(** *** What the core function does inside its session *)

(** The body of the loop of the reaper over the stale sessions. *)
Lemma cleanup_loop_step (env : Env) (sid : uuid) (us : UserSession.t)
    (w w' : World) :
  (execute_dml env (CoreWidgetLocking.delete_locks
                      (λ _ l, Pos.eqb (WidgetLock.session_id l) sid));;
   orm_update (set_sessions
                 (<[sid := CoreWidgetLocking.set_session_active false us]>))) w
    = (Return tt, w') →
  locks (txn w')
    = filter (λ kv, Pos.eqb (WidgetLock.session_id kv.2) sid = false) (locks (txn w))
  ∧ sessions (txn w')
    = <[sid := CoreWidgetLocking.set_session_active false us]> (sessions (txn w)).
Proof.
  intros H. msimpl. destruct (fault env (steps w)); [done|].
  by injection H as <-.
Qed.

Lemma cleanup_loop_locks_subset (env : Env) (ls : list (uuid * UserSession.t))
    (w w' : World) (k : uuid) (l : WidgetLock.t) :
  for_each ls (λ '(sid, us),
    execute_dml env (CoreWidgetLocking.delete_locks
                       (λ _ l, Pos.eqb (WidgetLock.session_id l) sid));;
    orm_update (set_sessions
                  (<[sid := CoreWidgetLocking.set_session_active false us]>))) w
    = (Return tt, w') →
  locks (txn w') !! k = Some l → locks (txn w) !! k = Some l.
Proof.
  revert w. induction ls as [|[sid us] ls IH]; intros w H Hk.
  - by injection H as <-.
  - cbn in H. apply bind_Return_inv in H as ([] & w1 & H1 & H).
    apply cleanup_loop_step in H1 as [Hlocks _].
    specialize (IH w1 H Hk). rewrite Hlocks in IH.
    by apply map_lookup_filter_Some in IH as [? _].
Qed.

Lemma cleanup_loop_session_other (env : Env) (ls : list (uuid * UserSession.t))
    (w w' : World) (sid : uuid) :
  for_each ls (λ '(sid, us),
    execute_dml env (CoreWidgetLocking.delete_locks
                       (λ _ l, Pos.eqb (WidgetLock.session_id l) sid));;
    orm_update (set_sessions
                  (<[sid := CoreWidgetLocking.set_session_active false us]>))) w
    = (Return tt, w') →
  sid ∉ ls.*1 →
  sessions (txn w') !! sid = sessions (txn w) !! sid.
Proof.
  revert w. induction ls as [|[sid' us] ls IH]; intros w H Hnot.
  - by injection H as <-.
  - cbn in H, Hnot. apply not_elem_of_cons in Hnot as [Hne Hnot].
    apply bind_Return_inv in H as ([] & w1 & H1 & H).
    apply cleanup_loop_step in H1 as [_ Hsess].
    rewrite (IH w1 H Hnot), Hsess. by apply lookup_insert_ne.
Qed.

(** After the loop, a session of the list is inactive in the session view
    and no lock row of the view belongs to it. *)
Lemma cleanup_loop_effect (env : Env) (ls : list (uuid * UserSession.t))
    (w w' : World) (sid : uuid) (us : UserSession.t) :
  for_each ls (λ '(sid, us),
    execute_dml env (CoreWidgetLocking.delete_locks
                       (λ _ l, Pos.eqb (WidgetLock.session_id l) sid));;
    orm_update (set_sessions
                  (<[sid := CoreWidgetLocking.set_session_active false us]>))) w
    = (Return tt, w') →
  NoDup ls.*1 →
  (sid, us) ∈ ls →
  sessions (txn w') !! sid = Some (CoreWidgetLocking.set_session_active false us)
  ∧ ∀ k l, locks (txn w') !! k = Some l → WidgetLock.session_id l ≠ sid.
Proof.
  revert w. induction ls as [|[sid' us'] ls IH]; intros w H Hnd Hin.
  - by apply elem_of_nil in Hin.
  - cbn in H, Hnd. apply NoDup_cons in Hnd as [Hfresh Hnd].
    apply bind_Return_inv in H as ([] & w1 & H1 & H).
    apply elem_of_cons in Hin as [[= <- <-]|Hin]; [|by apply (IH w1)].
    apply cleanup_loop_step in H1 as [Hlocks Hsess]. split.
    + rewrite (cleanup_loop_session_other _ _ _ _ _ H Hfresh), Hsess.
      apply lookup_insert_eq.
    + intros k l Hk.
      apply (cleanup_loop_locks_subset _ _ _ _ _ _ H) in Hk.
      rewrite Hlocks in Hk. apply map_lookup_filter_Some in Hk as [_ Hk].
      cbn in Hk. by apply Pos.eqb_neq.
Qed.

(** Inside the session, every active session idle for the timeout is made
    inactive and every lock row that references it is deleted. *)
Lemma core_cleanup_reaps_stale_in_session (c : nat → datetime) (u : nat → uuid)
    (timeout : Z) (w w' : World) (counts : nat * nat) (sid : uuid)
    (us : UserSession.t) :
  CoreWidgetLocking.cleanup_stale_sessions_and_locks (fault_free c u) timeout w
    = (Return counts, w') →
  sessions (txn w) !! sid = Some us →
  UserSession.is_active us = true →
  UserSession.last_activity us ≤ c (S (S (ticks w))) - timedelta_minutes timeout →
  sessions (txn w') !! sid = Some (CoreWidgetLocking.set_session_active false us)
  ∧ ∀ k l, locks (txn w') !! k = Some l → WidgetLock.session_id l ≠ sid.
Proof.
  intros H Hs Hact Hidle.
  unfold CoreWidgetLocking.cleanup_stale_sessions_and_locks in H.
  apply try_except_reraise_inv in H.
  apply bind_Return_inv in H as (t1 & w1 & H1 & H).
  apply bind_Return_inv in H as (counted & w2 & H2 & H).
  apply bind_Return_inv in H as (t2 & w3 & H3 & H).
  apply bind_Return_inv in H as ([] & w4 & H4 & H).
  apply bind_Return_inv in H as (t3 & w5 & H5 & H).
  apply bind_Return_inv in H as (stale & w6 & H6 & H).
  apply bind_Return_inv in H as ([] & w7 & H7 & H).
  apply bind_Return_inv in H as ([] & w8 & H8 & H).
  apply bind_Return_inv in H as ([] & w9 & H9 & H).
  injection H as _ <-.
  assert (Hstale : NoDup stale.*1 ∧ (sid, us) ∈ stale).
  { clear H7 H8 H9. msimpl.
    injection H1 as <- <-. injection H2 as <- <-. injection H3 as <- <-.
    injection H4 as <-. injection H5 as <- <-. injection H6 as <- _. cbn.
    unfold CoreWidgetLocking.select_sessions, CoreWidgetLocking.delete_locks.
    cbn. split; [apply NoDup_fst_map_to_list|].
    apply elem_of_map_to_list, map_lookup_filter_Some. split; [done|]. cbn.
    rewrite Hact, andb_true_r. apply Z.leb_le. lia. }
  destruct Hstale as [Hnd Hin].
  destruct (cleanup_loop_effect _ _ _ _ _ _ H7 Hnd Hin) as [Hsess Hlocks].
  clear -Hsess Hlocks H8 H9. msimpl.
  injection H8 as <-. injection H9 as <-. done.
Qed.

(** Inside the session, every lock row with [expires_at <= now] is deleted
    (the clock does not run backwards between the count and the delete). *)
Lemma core_cleanup_deletes_expired_in_session (c : nat → datetime)
    (u : nat → uuid) (timeout : Z) (w w' : World) (counts : nat * nat)
    (k : uuid) (l : WidgetLock.t) :
  c (ticks w) ≤ c (S (ticks w)) →
  CoreWidgetLocking.cleanup_stale_sessions_and_locks (fault_free c u) timeout w
    = (Return counts, w') →
  locks (txn w) !! k = Some l →
  WidgetLock.expires_at l ≤ c (ticks w) →
  locks (txn w') !! k = None.
Proof.
  intros Hmono H Hk Hexp.
  unfold CoreWidgetLocking.cleanup_stale_sessions_and_locks in H.
  apply try_except_reraise_inv in H.
  apply bind_Return_inv in H as (t1 & w1 & H1 & H).
  apply bind_Return_inv in H as (counted & w2 & H2 & H).
  apply bind_Return_inv in H as (t2 & w3 & H3 & H).
  apply bind_Return_inv in H as ([] & w4 & H4 & H).
  apply bind_Return_inv in H as (t3 & w5 & H5 & H).
  apply bind_Return_inv in H as (stale & w6 & H6 & H).
  apply bind_Return_inv in H as ([] & w7 & H7 & H).
  apply bind_Return_inv in H as ([] & w8 & H8 & H).
  apply bind_Return_inv in H as ([] & w9 & H9 & H).
  injection H as _ <-.
  assert (Hw6 : locks (txn w6) !! k = None).
  { clear H7 H8 H9. msimpl.
    injection H1 as <- <-. injection H2 as <- <-. injection H3 as <- <-.
    injection H4 as <-. injection H5 as <- <-. injection H6 as <- <-. cbn.
    apply map_lookup_filter_None. right. intros l' Hl'. cbn.
    assert (l' = l) as -> by congruence.
    apply not_false_iff_true, Z.leb_le. lia. }
  assert (Hw7 : locks (txn w7) !! k = None).
  { destruct (locks (txn w7) !! k) as [l'|] eqn:Hl'; [|done].
    apply (cleanup_loop_locks_subset _ _ _ _ _ _ H7) in Hl'. congruence. }
  clear -Hw7 H8 H9. msimpl.
  injection H8 as <-. injection H9 as <-. done.
Qed.

(** What the core function returns when no backend call fails. *)
Lemma core_cleanup_counts (c : nat → datetime) (u : nat → uuid) (timeout : Z)
    (w : World) :
  ∃ w',
    CoreWidgetLocking.cleanup_stale_sessions_and_locks (fault_free c u) timeout w
    = (Return
         (length (CoreWidgetLocking.select_locks
                    (λ _ l, WidgetLock.expires_at l <=? c (ticks w)) (txn w)),
          length (CoreWidgetLocking.select_sessions
                    (λ s, (UserSession.last_activity s
                             <=? c (S (S (ticks w))) - timedelta_minutes timeout)
                          && UserSession.is_active s) (txn w))),
       w').
Proof.
  unfold CoreWidgetLocking.cleanup_stale_sessions_and_locks.
  msimpl.
  match goal with
  | |- context [for_each ?l ?f ?w0] =>
      destruct (for_each_Return l f w0) as [w2 ->]
  end.
  { intros [sid s] w0. by eexists. }
  by eexists.
Qed.

(** C3, what the code does.  When no backend call fails,
    [WidgetLockingService.cleanup_stale_sessions_and_locks] returns the
    number of locks with [expires_at <= now] and the number of active
    sessions idle for the timeout of 5 minutes, and the committed store
    afterwards is the store before: no lock row is deleted and no session is
    deactivated. *)
Theorem cleanup_returns_counts_and_discards (c : nat → datetime) (u : nat → uuid)
    (w : World) :
  let expired :=
    CoreWidgetLocking.select_locks
      (λ _ l, WidgetLock.expires_at l <=? c (ticks w)) (db w) in
  let stale :=
    CoreWidgetLocking.select_sessions
      (λ s, (UserSession.last_activity s
               <=? c (S (S (ticks w))) - timedelta_minutes 5)
            && UserSession.is_active s) (db w) in
  ∃ w',
    run (WidgetLockingService.cleanup_stale_sessions_and_locks (fault_free c u)) w
      = (Return (length expired, length stale), w')
    ∧ db w' = db w.
Proof.
  intros expired stale.
  pose proof (cleanup_keeps_db (fault_free c u) w) as Hdb.
  unfold run.
  destruct (WidgetLockingService.cleanup_stale_sessions_and_locks _ w)
    as [o w'] eqn:Hrun.
  exists w'. split; [|done]. f_equal. clear Hdb.
  revert Hrun.
  unfold WidgetLockingService.cleanup_stale_sessions_and_locks,
    WidgetLockingService.initialize, get_cache, cache_manager_initialize,
    cache_setup, delete_multi_level_by_tags, delete_by_tags, cache_delete_tags,
    WidgetLockingService.session_timeout_minutes.
  msimpl.
  destruct (service_initialized w) eqn:Hsi, (cache_initialized w) eqn:Hci; mgo.
  all: match goal with
       | |- context [CoreWidgetLocking.cleanup_stale_sessions_and_locks ?e ?t ?w0] =>
           destruct (core_cleanup_counts c u t w0) as [w2 ->]
       end; cbn;
       destruct (cache_initialized w2); cbn; by intros [= <- _].
Qed.

(** Ten minutes after Alice acquired [w1]: her lease has expired and her
    session is stale.  The core function, in its session, deletes the lock
    row and deactivates the session; the service returns the counts (1, 1)
    and the committed store still has the expired lock row, active, and the
    stale session, active. *)
Example cleanup_at_expired_lock_and_stale_session :
  let inside :=
    run (CoreWidgetLocking.cleanup_stale_sessions_and_locks very_late_env 5)
        world_after_acquire in
  let call :=
    run (WidgetLockingService.cleanup_stale_sessions_and_locks very_late_env)
        world_after_acquire in
  inside.1 = Return (1%nat, 1%nat)
  ∧ locks (txn inside.2) = ∅
  ∧ active_session (txn inside.2) 100 = None
  ∧ call.1 = Return (1%nat, 1%nat)
  ∧ active_lock (db call.2) w1
    = Some (WidgetLock.mk d1 100 1 "A" 3 60000003 3 true)
  ∧ (∃ us, active_session (db call.2) 100 = Some us
           ∧ UserSession.locked_widgets us = [w1])
  ∧ db call.2 = db world_after_acquire.
Proof. intros inside call. by_evaluation. Qed.
(** ** ReleaseLock *)

(** [CoreWidgetLocking.release_widget_lock], run in a session of its own as
    the service runs it, when no backend call fails:
    - with no active lock of the widget on the dashboard it returns [True]
      and leaves the store and the cache as they were;
    - with an active lock of another user it returns [False] and leaves the
      store and the cache as they were;
    - with an active lock of the requester it returns [True] and the row has
      [is_active=False] and its other columns as before (nothing else of
      the lock table changes); the widget is removed from the
      [locked_widgets] of the session of the lock when [get_user_session]
      finds that session, which it does when the session is active, and the
      session table is left as it was otherwise. *)
Lemma release_widget_lock_cases (c : nat → datetime) (u : nat → uuid)
    (w : World) (d wid : uuid) (ui : UserInfo.t) :
  let call := run (with_session
                (CoreWidgetLocking.release_widget_lock (fault_free c u) d wid ui)) w in
  match active_lock_on (db w) d wid with
  | None =>
      call.1 = Return true ∧ db call.2 = db w ∧ cache call.2 = cache w
  | Some l =>
      if decide (WidgetLock.user_id l = UserInfo.user_id ui) then
        call.1 = Return true
        ∧ locks (db call.2)
          = <[wid := WidgetLock.mk (WidgetLock.dashboard_id l)
                       (WidgetLock.session_id l) (WidgetLock.user_id l)
                       (WidgetLock.user_name l) (WidgetLock.locked_at l)
                       (WidgetLock.expires_at l) (WidgetLock.last_heartbeat l)
                       false]> (locks (db w))
        ∧ sessions (db call.2)
          = match active_session (db w) (WidgetLock.session_id l) with
            | Some s =>
                <[WidgetLock.session_id l :=
                    CoreWidgetLocking.set_locked_widgets
                      (filter (λ x, x ≠ wid) (UserSession.locked_widgets s)) s]>
                  (sessions (db w))
            | None => sessions (db w)
            end
        ∧ events (db call.2) = events (db w)
        ∧ cache call.2 = cache w
      else
        call.1 = Return false ∧ db call.2 = db w ∧ cache call.2 = cache w
  end.
Proof.
  unfold active_lock_on, active_session,
    CoreWidgetLocking.release_widget_lock, CoreWidgetLocking.get_user_session,
    CoreWidgetLocking.set_lock_active.
  msimpl.
  destruct (locks (db w) !! wid) as [l|] eqn:Hl; cbn; [|done].
  destruct (_ && _); cbn; [|done].
  case_decide as Hu.
  - rewrite Hu, Pos.eqb_refl. cbn.
    destruct (sessions (db w) !! WidgetLock.session_id l) as [s|] eqn:Hs; cbn; [|done].
    destruct (UserSession.is_active s); cbn; [|done].
    case_bool_decide as Hin; cbn; [done|].
    rewrite filter_not_elem, set_locked_widgets_same by done.
    by rewrite (insert_id (sessions (db w))).
  - apply Pos.eqb_neq in Hu. rewrite Hu. cbn. done.
Qed.

(** C4, what the code does for a lock whose session was stopped.  When the
    requester owns the active lock of the widget and the session of the lock
    is not active (StopEditing leaves the locks of the session as they are),
    [CoreWidgetLocking.release_widget_lock] returns [True] and sets the row
    inactive, but the session table is left as it was: the widget stays in
    the [locked_widgets] of the owning session.  No backend call fails. *)
Theorem release_keeps_widget_of_stopped_session (c : nat → datetime)
    (u : nat → uuid) (w : World) (d wid : uuid) (ui : UserInfo.t)
    (l : WidgetLock.t) (s : UserSession.t) :
  active_lock_on (db w) d wid = Some l →
  WidgetLock.user_id l = UserInfo.user_id ui →
  sessions (db w) !! WidgetLock.session_id l = Some s →
  UserSession.is_active s = false →
  ∃ w' l',
    run (with_session
           (CoreWidgetLocking.release_widget_lock (fault_free c u) d wid ui)) w
      = (Return true, w')
    ∧ locks (db w') !! wid = Some l'
    ∧ WidgetLock.is_active l' = false
    ∧ WidgetLock.session_id l' = WidgetLock.session_id l
    ∧ sessions (db w') = sessions (db w).
Proof.
  intros Hl Hown Hs Hina.
  pose proof (release_widget_lock_cases c u w d wid ui) as H. cbv zeta in H.
  rewrite Hl in H. rewrite decide_True in H by done.
  unfold active_session in H. rewrite Hs, Hina in H.
  destruct H as (Hret & Hlocks & Hsess & _).
  destruct (run _ w) as [o w'] eqn:Hrun. cbn in Hret, Hlocks, Hsess. subst o.
  eexists w', _. split; [done|].
  rewrite Hlocks, lookup_insert_eq. done.
Qed.

(** Alice acquires [w1], leaves the dashboard, and releases [w1]: her
    session, stopped, keeps [w1] in its list. *)
Lemma release_keeps_widget_of_stopped_session_witness :
  ∃ w' l',
    run (with_session
           (CoreWidgetLocking.release_widget_lock example_env d1 w1 alice))
        world_after_acquire_and_stop
      = (Return true, w')
    ∧ locks (db w') !! w1 = Some l'
    ∧ WidgetLock.is_active l' = false
    ∧ WidgetLock.session_id l' = 100%positive
    ∧ sessions (db w')
      = {[ 100%positive := UserSession.mk d1 1 "A" None None 1 3 false [w1] ]}.
Proof.
  replace ({[ 100%positive := UserSession.mk d1 1 "A" None None 1 3 false [w1] ]})
    with (sessions (db world_after_acquire_and_stop)) by (vm_compute; reflexivity).
  apply (release_keeps_widget_of_stopped_session example_clock example_uuid4
           world_after_acquire_and_stop d1 w1 alice
           (WidgetLock.mk d1 100 1 "A" 3 60000003 3 true)
           (UserSession.mk d1 1 "A" None None 1 3 false [w1])).
  - vm_compute. reflexivity.
  - reflexivity.
  - vm_compute. reflexivity.
  - reflexivity.
Defined.

(** The same through the service, followed by a heartbeat of the editing
    session, which reactivates the session (see
    [refresh_dashboard_editing]): Alice then has an active session that
    lists [w1], and [w1] has no active lock.  The store was consistent after
    the acquisition. *)
Example release_after_stop_breaks_consistency :
  let w :=
    (run (WidgetLockingService.release_widget_lock example_env d1 w1 alice;;
          WidgetLockingService_rest.refresh_dashboard_editing example_env d1
            (UserInfo.user_id alice))
         world_after_acquire_and_stop).2 in
  session_consistent (db world_after_acquire)
  ∧ active_lock (db w) w1 = None
  ∧ (∃ s, sessions (db w) !! 100%positive = Some s
          ∧ UserSession.is_active s = true
          ∧ UserSession.locked_widgets s = [w1])
  ∧ ¬ session_consistent (db w).
Proof.
  intros w.
  split; [apply (bool_decide_unpack _); vm_compute; exact I|].
  split; [vm_compute; reflexivity|].
  split; [eexists; split; [vm_compute; reflexivity|]; split; reflexivity|].
  apply (bool_decide_unpack _). vm_compute. exact I.
Qed.

(** The service around the core function: when the core function returns
    [True], also when nothing was locked, the service invalidates the cache
    entries of the widget and commits a [lock_released] audit event.  Bob
    releases [w1] in the empty store. *)
Example release_of_unlocked_widget_is_logged :
  ∃ w' ev,
    run (WidgetLockingService.release_widget_lock example_env d1 w1 bob)
        initial_world = (Return true, w')
    ∧ locks (db w') = ∅ ∧ sessions (db w') = ∅
    ∧ events (db w') = [ev]
    ∧ CollaborationEvent.event_type ev = "lock_released"%string.
Proof. by_evaluation. Qed.

(** ** RefreshLock *)


(** Whatever fails in the backends, a heartbeat that does not meet the three
    conditions never changes the store and never reports success. *)
Lemma refresh_widget_lock_rejected (env : Env) (w : World) (d wid : uuid)
    (ui : UserInfo.t) :
  let call := run (WidgetLockingService.refresh_widget_lock env d wid ui) w in
  (∀ l, active_lock (db w) wid = Some l →
        WidgetLock.user_id l = UserInfo.user_id ui →
        clock env (ticks w) ≤ WidgetLock.expires_at l → False) →
  ∃ r, call.1 = Return r ∧ HeartbeatResponse.success r = false ∧ db call.2 = db w.
Proof.
  intros call Hno. subst call.
  unfold active_lock in Hno.
  unfold WidgetLockingService.refresh_widget_lock,
    CoreWidgetLocking.get_active_widget_lock.
  msimpl.
  destruct (fault env (steps w)); cbn; [eexists; repeat split|].
  destruct (locks (db w) !! wid) as [l|] eqn:Hl; cbn; [|eexists; repeat split].
  destruct (WidgetLock.is_active l) eqn:Ha; cbn; [|eexists; repeat split].
  destruct (Pos.eqb_spec (WidgetLock.user_id l) (UserInfo.user_id ui)) as [Hu|Hu];
    cbn; [|eexists; repeat split].
  unfold WidgetLock.is_expired.
  destruct (Z.ltb_spec (WidgetLock.expires_at l) (clock env (ticks w))) as [He|He];
    cbn; [eexists; repeat split|].
  exfalso. by apply (Hno l).
Qed.


(** ** GetLockStatus *)



(** The value that the status endpoint passes as [current_user_id] is the
    [str] of the token, which is [==] to no [uuid.UUID]: the owner of a lock
    is told [can_acquire=False] like everybody else.  Alice holds [w1] and
    polls its status. *)
Example get_widget_lock_status_owner_through_endpoint :
  ∃ v w',
    run (Router_rest.get_widget_lock_status example_env example_UUID "d1" "w1"
           alice_user) world_after_acquire
      = (Return v, w')
    ∧ WidgetLockStatusResponse.is_locked v = true
    ∧ WidgetLockStatusResponse.locked_by_user_id v
      = Some (Router.cu_user_id alice_user)
    ∧ WidgetLockStatusResponse.can_acquire v = false.
Proof. by_evaluation. Qed.


(** The entry of the status cache is keyed by the widget alone.  Alice holds
    [w1]; Bob polls and his view ([can_acquire=False]) is cached; Alice
    polls within the two seconds and is given Bob's view. *)
Example get_widget_lock_status_shared_between_users :
  let w :=
    (run (WidgetLockingService.get_widget_lock_status example_env w1 (caller bob))
         world_after_acquire).2 in
  ∃ l v w',
    active_lock (db w) w1 = Some l
    ∧ WidgetLock.user_id l = UserInfo.user_id alice
    ∧ run (WidgetLockingService.get_widget_lock_status example_env w1
             (caller alice)) w = (Return v, w')
    ∧ WidgetLockStatusResponse.is_locked v = true
    ∧ WidgetLockStatusResponse.can_acquire v = false.
Proof. intros w. by_evaluation. Qed.

(** ** AcquireLock: the lease *)

(** What [CoreWidgetLocking.acquire_widget_lock] returns is the committed
    row of the widget, and its lease is the requested duration. *)
Lemma core_acquire_result (env : Env) (d wid : uuid) (ui : UserInfo.t) (dur : Z)
    (w w' : World) (l : WidgetLock.t) :
  with_session (CoreWidgetLocking.acquire_widget_lock env d wid ui dur) w
    = (Return l, w') →
  locks (db w') !! wid = Some l
  ∧ WidgetLock.is_active l = true
  ∧ WidgetLock.user_id l = UserInfo.user_id ui
  ∧ WidgetLock.dashboard_id l = d
  ∧ WidgetLock.expires_at l = WidgetLock.locked_at l + timedelta_seconds dur.
Proof.
  intros (w1 & H & ->)%with_session_Return_inv.
  unfold CoreWidgetLocking.acquire_widget_lock in H.
  apply try_except_reraise_inv in H.
  apply bind_Return_inv in H as (widget_lock & w2 & _ & H).
  apply bind_Return_inv in H as ([] & w3 & _ & H).
  apply bind_Return_inv in H as ([sid us] & w4 & _ & H).
  clear w w2 w3.
  msimpl.
  destruct (bool_decide _); cbn in H;
    destruct (fault env _); cbn in H; try done;
    destruct (fault env _); cbn in H; try done;
    rewrite lookup_insert_eq in H; cbn in H;
    injection H as <- <-; cbn; rewrite lookup_insert_eq;
    by destruct widget_lock.
Qed.

(** The fast path of the cache only ever denies. *)
Lemma acquire_cache_check_denies (env : Env) (wid : uuid) (w w' : World)
    (r : LockAcquisitionResponse.t) :
  WidgetLockingService.acquire_cache_check env wid w = (Return (Some r), w') →
  LockAcquisitionResponse.success r = false.
Proof.
  unfold WidgetLockingService.acquire_cache_check.
  intros ([] & w1 & _ & H)%bind_Return_inv.
  apply bind_Return_inv in H as (existing & w2 & _ & H).
  destruct existing as [[ld|st]|]; [|done..].
  destruct (0 <? _); [|done].
  apply bind_Return_inv in H as (p & w3 & _ & H).
  apply bind_Return_inv in H as (t & w4 & _ & [= <- _]). done.
Qed.

(** A successful acquisition leaves the committed row of the widget with the
    lease that was asked for. *)
Lemma service_acquire_success (env : Env) (d wid : uuid) (ui : UserInfo.t)
    (dur : Z) (w w' : World) (r : LockAcquisitionResponse.t) :
  WidgetLockingService.acquire_widget_lock env d wid ui dur w = (Return r, w') →
  LockAcquisitionResponse.success r = true →
  ∃ l, locks (db w') !! wid = Some l
       ∧ WidgetLock.is_active l = true
       ∧ WidgetLock.user_id l = UserInfo.user_id ui
       ∧ WidgetLock.dashboard_id l = d
       ∧ WidgetLock.expires_at l = WidgetLock.locked_at l + timedelta_seconds dur
       ∧ LockAcquisitionResponse.expires_at r = WidgetLock.expires_at l.
Proof.
  unfold WidgetLockingService.acquire_widget_lock.
  intros (early & w1 & Hearly & H)%bind_Return_inv Hok.
  destruct early as [r'|].
  { injection H as -> ->.
    apply try_except_Return_inv in Hearly as [Hc|(e & w2 & _ & [=])].
    apply acquire_cache_check_denies in Hc. congruence. }
  clear Hearly.
  apply try_except_Return_inv in H as [H|(e & w2 & _ & H)].
  2:{ apply bind_Return_inv in H as ([] & w3 & _ & H).
      apply bind_Return_inv in H as (p & w4 & _ & H).
      apply bind_Return_inv in H as (t & w5 & _ & [= <- _]). done. }
  unfold WidgetLockingService.acquire_store in H.
  apply bind_Return_inv in H as (denied & w2 & Hden & H).
  destruct denied as [r'|].
  { injection H as -> ->.
    apply with_session_Return_inv in Hden as (w3 & Hden & _).
    apply bind_Return_inv in Hden as ([l|] & w4 & _ & Hden); [|done].
    apply bind_Return_inv in Hden as (t & w5 & _ & Hden).
    destruct (negb _); [|done].
    injection Hden as <- _. done. }
  clear Hden.
  apply bind_Return_inv in H as (l & w3 & Hl & H).
  apply core_acquire_result in Hl as (Hrow & Ha & Hu & Hd & He).
  exists l. rewrite <- Hrow.
  match type of H with
  | ?tail w3 = _ => assert (Hk : keeps_db tail) by keeps
  end.
  specialize (Hk w3). rewrite H in Hk. cbn in Hk. rewrite Hk.
  repeat (split; [done|]).
  apply bind_Return_inv in H as ([] & ? & _ & H).
  apply bind_Return_inv in H as (? & ? & _ & H).
  apply bind_Return_inv in H as (? & ? & _ & H).
  apply bind_Return_inv in H as (? & ? & _ & H).
  apply bind_Return_inv in H as (? & ? & _ & [= <- _]).
  done.
Qed.

(** C7.  Every acquisition that the endpoint grants has a lease between 30
    and 300 seconds, whatever [lock_duration] the caller sends and whatever
    fails in the backends: the request schema rejects a duration outside
    [30, 300] before the engine runs, and the engine applies the validated
    duration as it is ([expires_at - locked_at] is that duration). *)
Theorem acquire_lease_within_bounds (env : Env) (UUID : string → option uuid)
    (w w' : World) (dashboard_id : string)
    (lock_data : WidgetLockAcquireSchema.t) (client : string)
    (current_user : Router.CurrentUser) (r : LockAcquisitionResponse.t) :
  run (Router.acquire_widget_lock env UUID dashboard_id lock_data client
         current_user) w
    = (Return r, w') →
  ∃ l, locks (db w') !! WidgetLockAcquireSchema.widget_id lock_data = Some l
       ∧ WidgetLock.is_active l = true
       ∧ WidgetLock.user_id l = Router.cu_user_id current_user
       ∧ LockAcquisitionResponse.expires_at r = WidgetLock.expires_at l
       ∧ timedelta_seconds 30
         ≤ WidgetLock.expires_at l - WidgetLock.locked_at l
         ≤ timedelta_seconds 300.
Proof.
  unfold run, Router.acquire_widget_lock, Router.validate_lock_data.
  intros ([] & w1 & Hv & H)%bind_Return_inv.
  destruct (Z.leb_spec 30 (WidgetLockAcquireSchema.lock_duration lock_data)) as [Hlo|?];
    [|done].
  destruct (Z.leb_spec (WidgetLockAcquireSchema.lock_duration lock_data) 300) as [Hhi|?];
    [|done].
  cbn in Hv. injection Hv as <-.
  apply try_except_Return_inv in H as [H|(e & w2 & _ & H)].
  2:{ by destruct e. }
  apply bind_Return_inv in H as (d & w2 & _ & H).
  apply bind_Return_inv in H as (result & w3 & Hs & H).
  destruct (LockAcquisitionResponse.success result) eqn:Hok; [|done].
  injection H as -> ->.
  apply service_acquire_success in Hs as (l & Hrow & Ha & Hu & _ & He & Hr); [|done].
  exists l. repeat (split; [done|]).
  unfold timedelta_seconds in *. lia.
Qed.

Lemma acquire_lease_within_bounds_witness :
  ∃ r w',
    run (Router.acquire_widget_lock example_env example_UUID "d1" request_60
           "browser" alice_user)
        initial_world = (Return r, w')
    ∧ ∃ l, locks (db w') !! w1 = Some l
           ∧ WidgetLock.is_active l = true
           ∧ WidgetLock.user_id l = 1%positive
           ∧ LockAcquisitionResponse.expires_at r = WidgetLock.expires_at l
           ∧ timedelta_seconds 30
             ≤ WidgetLock.expires_at l - WidgetLock.locked_at l
             ≤ timedelta_seconds 300.
Proof.
  eexists _, _. split; [vm_compute; reflexivity|].
  apply (acquire_lease_within_bounds example_env example_UUID initial_world _
           "d1" request_60 "browser" alice_user).
  vm_compute. reflexivity.
Defined.

(** A duration outside [30, 300] is not clamped: the request is refused and
    nothing happens. *)
Lemma acquire_rejects_out_of_range (env : Env) (UUID : string → option uuid)
    (w : World) (dashboard_id : string)
    (lock_data : WidgetLockAcquireSchema.t) (client : string)
    (current_user : Router.CurrentUser) :
  ¬ (30 ≤ WidgetLockAcquireSchema.lock_duration lock_data ≤ 300) →
  run (Router.acquire_widget_lock env UUID dashboard_id lock_data client
         current_user) w
    = (Raise (HTTPException 422 "lock_duration out of range"), w).
Proof.
  intros Hout. unfold run, Router.acquire_widget_lock, Router.validate_lock_data.
  destruct (Z.leb_spec 30 (WidgetLockAcquireSchema.lock_duration lock_data));
    destruct (Z.leb_spec (WidgetLockAcquireSchema.lock_duration lock_data) 300);
    cbn; first [lia | done].
Qed.

(** ** AcquireLock: store errors *)

(** C8, what the code does.  Alice acquires [w1] in the empty store and the
    driver fails at the commit of the lock upsert (backend call number 6:
    cache set-up, cache read, three selects and the commit of the new session
    come before it).  The call returns [success=False] and no lock row
    exists, but the session row that [get_or_create_user_session] created and
    committed on its own is in the store. *)
Theorem acquire_failure_leaves_session_row :
  ∃ r w',
    run (WidgetLockingService.acquire_widget_lock (failing_env 6) d1 w1 alice 60)
        initial_world = (Return r, w')
    ∧ LockAcquisitionResponse.success r = false
    ∧ LockAcquisitionResponse.message r
      = "Failed to acquire lock: store error"%string
    ∧ locks (db w') = ∅
    ∧ sessions (db initial_world) = ∅
    ∧ sessions (db w')
      = {[ 100%positive := UserSession.mk d1 1 "A" None None 1 2 true [] ]}.
Proof. by_evaluation. Qed.

(** When the driver fails after the commit of the upsert, at the reload of
    the row (call 7) or at the flush of the audit event (call 11), the call
    also returns [success=False], and the lock is held. *)
Example acquire_failure_after_commit (k : nat) :
  k = 7%nat ∨ k = 11%nat →
  ∃ r w' l,
    run (WidgetLockingService.acquire_widget_lock (failing_env k) d1 w1 alice 60)
        initial_world = (Return r, w')
    ∧ LockAcquisitionResponse.success r = false
    ∧ active_lock (db w') w1 = Some l
    ∧ WidgetLock.user_id l = UserInfo.user_id alice.
Proof. intros [-> | ->]; by_evaluation. Qed.

(** An error before the first session block (here the set-up of the cache,
    call 0) reaches the handler with [session] unbound, and the
    [UnboundLocalError] raised there leaves the function. *)
Example acquire_failure_before_session :
  ∃ w',
    run (WidgetLockingService.acquire_widget_lock (failing_env 0) d1 w1 alice 60)
        initial_world = (Raise UnboundLocalError, w').
Proof. by_evaluation. Qed.

Lemma try_except_total {A} (m : M A) (h : exn → M A) (w : World) :
  (∀ e w0, ∃ a w1, h e w0 = (Return a, w1)) →
  ∃ a w', try_except m h w = (Return a, w').
Proof.
  intros Hh. unfold try_except. destruct (m w) as [[a|e] w1]; [by eexists _, _|].
  apply Hh.
Qed.

(** What does hold: once the service is initialised and the entry of the
    lock key is a lock payload, no exception leaves
    [WidgetLockingService.acquire_widget_lock], whatever fails in the
    backends. *)
Lemma acquire_returns_a_response (env : Env) (w : World) (d wid : uuid)
    (ui : UserInfo.t) (dur : Z) :
  service_initialized w = true →
  (∀ e, cache w !! WidgetLockingService._cache_key_widget_lock wid = Some e →
        ∃ ld, value e = CLock ld) →
  ∃ r w',
    run (WidgetLockingService.acquire_widget_lock env d wid ui dur) w
      = (Return r, w').
Proof.
  intros Hsi Hcache.
  assert (∃ early w1,
            WidgetLockingService.acquire_cache_check env wid w = (Return early, w1))
    as (early & w1 & Hcheck).
  { unfold WidgetLockingService.acquire_cache_check,
      WidgetLockingService.initialize, get_shared, cache_get.
    msimpl. rewrite Hsi. cbn.
    destruct (cache_initialized w); cbn; [|by eexists _, _].
    destruct (fault env (steps w)); cbn; [by eexists _, _|].
    destruct (cache w !! _) as [e|] eqn:He; cbn; [|by eexists _, _].
    destruct (Hcache e eq_refl) as [ld Hld].
    destruct (expire_at e <? _); cbn; [by eexists _, _|].
    rewrite Hld. destruct (0 <? _); cbn; by eexists _, _. }
  unfold run, WidgetLockingService.acquire_widget_lock.
  erewrite bind_Return_run by (by apply try_except_Return_run).
  destruct early as [r|]; [by eexists _, _|].
  apply try_except_total. intros e w0. by eexists _, _.
Qed.

(** ** StopEditing without a session *)

Lemma select_sessions_nil (P : UserSession.t → bool) (s : Store) :
  (∀ sid us, sessions s !! sid = Some us → P us = false) →
  CoreWidgetLocking.select_sessions P s = [].
Proof.
  intros HP. unfold CoreWidgetLocking.select_sessions.
  apply map_to_list_empty_iff, map_empty. intros sid.
  apply map_lookup_filter_None. right. intros us Hus. cbn.
  rewrite (HP sid us Hus). done.
Qed.





(** ** GetLockStatus: errors *)

(** C10, as amended.  Whenever the body of [get_widget_lock_status] raises
    (the driver fails in the store query, the cache cannot be initialised,
    the cached payload does not validate), the call returns the unlocked
    view: [is_locked=False], [time_remaining=0], [can_acquire=True], whatever
    the rows say.  The store is not changed. *)
Theorem get_widget_lock_status_fails_open (env : Env) (w w1 : World)
    (wid : uuid) (uid : user_id_value) (e : exn) :
  WidgetLockingService.get_widget_lock_status_body env wid uid w = (Raise e, w1) →
  ∃ v, run (WidgetLockingService.get_widget_lock_status env wid uid) w
         = (Return v, w1)
       ∧ WidgetLockStatusResponse.is_locked v = false
       ∧ WidgetLockStatusResponse.time_remaining v = 0
       ∧ WidgetLockStatusResponse.can_acquire v = true
       ∧ db w1 = db w.
Proof.
  intros Hbody.
  exists (WidgetLockingService.unlocked_status wid).
  unfold run, WidgetLockingService.get_widget_lock_status, try_except.
  rewrite Hbody. repeat (split; [done|]).
  assert (Hk : keeps_db (WidgetLockingService.get_widget_lock_status_body env wid uid)).
  { unfold WidgetLockingService.get_widget_lock_status_body. keeps. }
  specialize (Hk w). by rewrite Hbody in Hk.
Qed.

(** Alice holds [w1]; the store query of Bob's poll fails; Bob is told that
    he can acquire the widget. *)
Lemma get_widget_lock_status_fails_open_witness :
  ∃ l v w',
    active_lock (db world_after_acquire) w1 = Some l
    ∧ WidgetLock.user_id l = UserInfo.user_id alice
    ∧ run (WidgetLockingService.get_widget_lock_status
             (failing_env (S (steps world_after_acquire))) w1
             (caller bob)) world_after_acquire
      = (Return v, w')
    ∧ WidgetLockStatusResponse.is_locked v = false
    ∧ WidgetLockStatusResponse.time_remaining v = 0
    ∧ WidgetLockStatusResponse.can_acquire v = true
    ∧ db w' = db world_after_acquire.
Proof.
  eexists _, _, _. split; [vm_compute; reflexivity|]. split; [reflexivity|].
  destruct (get_widget_lock_status_fails_open
              (failing_env (S (steps world_after_acquire))) world_after_acquire
              _ w1 (caller bob) StoreError
              ltac:(vm_compute; reflexivity)) as (v & Hrun & Hv).
  vm_compute in Hrun. injection Hrun as <-.
  split; [vm_compute; reflexivity|]. exact Hv.
Defined.

(** C10, as stated, fails for a failure of the cache on a read: the cache
    manager swallows it and the call goes on to the store.  Alice holds
    [w1]; the cache read of Bob's poll fails (the next backend call); Bob
    gets the view computed from the row, not the unlocked view. *)
Lemma get_widget_lock_status_cache_failure_swallowed :
  ∃ v w' w'',
    run (cache_get (failing_env (steps world_after_acquire))
           (WidgetLockingService._cache_key_widget_status w1))
        world_after_acquire = (Raise CacheError, w'')
    ∧ run (WidgetLockingService.get_widget_lock_status
             (failing_env (steps world_after_acquire)) w1 (caller bob))
          world_after_acquire = (Return v, w')
    ∧ WidgetLockStatusResponse.is_locked v = true
    ∧ WidgetLockStatusResponse.can_acquire v = false
    ∧ 0 < WidgetLockStatusResponse.time_remaining v.
Proof. by_evaluation. Qed.

(** ** Programs and relations between the world before and the world after *)

Section respects.
Context (R : World → World → Prop) `{!PreOrder R}.

Lemma respects_ret {A} (a : A) : respects R (mret a).
Proof. intros w. reflexivity. Qed.

Lemma respects_raise {A} (e : exn) : respects R (@raise A e).
Proof. intros w. reflexivity. Qed.

Lemma respects_get_world : respects R get_world.
Proof. intros w. reflexivity. Qed.

Lemma respects_bind {A B} (m : M A) (f : A → M B) :
  respects R m → (∀ a, respects R (f a)) → respects R (m ≫= f).
Proof.
  intros Hm Hf w. unfold mbind, M_bind. specialize (Hm w).
  destruct (m w) as [[a|e] w1]; cbn in *; [|done].
  by etrans; [|apply Hf].
Qed.

Lemma respects_try_except {A} (m : M A) (h : exn → M A) :
  respects R m → (∀ e, respects R (h e)) → respects R (try_except m h).
Proof.
  intros Hm Hh w. unfold try_except. specialize (Hm w).
  destruct (m w) as [[a|e] w1]; cbn in *; [done|].
  by etrans; [|apply Hh].
Qed.

Lemma respects_try_finally {A} (m : M A) (k : M unit) :
  respects R m → respects R k → respects R (try_finally m k).
Proof.
  intros Hm Hk w. unfold try_finally. specialize (Hm w).
  destruct (m w) as [[a|e] w1]; cbn in *;
    specialize (Hk w1); destruct (k w1) as [[[]|e'] w2]; cbn in *; by etrans.
Qed.

Lemma respects_for_each {A} (l : list A) (f : A → M unit) :
  (∀ x, respects R (f x)) → respects R (for_each l f).
Proof.
  intros Hf. induction l as [|x l IH]; cbn; [apply respects_ret|].
  by apply respects_bind.
Qed.

Lemma respects_scalar_one_or_none {A} (rows : list A) :
  respects R (scalar_one_or_none rows).
Proof. destruct rows as [|? [|? ?]]; intros w; reflexivity. Qed.

Lemma respects_modify (f : World → World) :
  (∀ w, R w (f w)) → respects R (modify f).
Proof. intros Hf w. apply Hf. Qed.

End respects.

#[export] Instance same_cache_preorder : PreOrder same_cache.
Proof. split; [done|]. unfold same_cache. intros ??? ??. congruence. Qed.

#[export] Instance later_preorder : PreOrder later.
Proof. split; unfold later; [intros ?; lia|intros ???; lia]. Qed.

#[export] Instance same_events_preorder : PreOrder same_events.
Proof. split; [done|]. unfold same_events. intros ??? ??. congruence. Qed.

#[export] Instance no_event_step_preorder : PreOrder no_event_step.
Proof.
  split; [by intros ??|]. unfold no_event_step. intros w1 w2 w3 H12 H23 H1.
  destruct (H12 H1) as [Hd Ht]. destruct H23 as [Hd' Ht']; [congruence|].
  split; congruence.
Qed.

Create HintDb prog discriminated.
#[export] Hint Unfold
  execute_select execute_dml orm_update flush commit rollback close with_session
  cache_setup cache_get cache_set cache_delete cache_delete_tags
  cache_manager_initialize get_shared set_shared delete_shared delete_by_tags
  delete_multi_level_by_tags get_cache
  CoreWidgetLocking.get_active_widget_lock CoreWidgetLocking.get_user_session
  CoreWidgetLocking.add_session CoreWidgetLocking.get_or_create_user_session
  CoreWidgetLocking.acquire_widget_lock CoreWidgetLocking.refresh_widget_lock
  CoreWidgetLocking.release_widget_lock
  CoreWidgetLocking.cleanup_stale_sessions_and_locks
  CoreWidgetLocking.log_collaboration_event
  WidgetLockingService.initialize WidgetLockingService.lock_schema
  WidgetLockingService.acquire_cache_check WidgetLockingService.acquire_store
  WidgetLockingService.acquire_widget_lock WidgetLockingService.refresh_widget_lock
  WidgetLockingService.release_widget_lock
  WidgetLockingService.get_widget_lock_status_body
  WidgetLockingService.get_widget_lock_status
  WidgetLockingService.stop_dashboard_editing
  WidgetLockingService.cleanup_stale_sessions_and_locks
  WidgetLockingService_rest.start_dashboard_editing
  WidgetLockingService_rest.refresh_dashboard_editing : prog.

(** Syntax-directed proof that a program respects a relation; [leaf] proves
    the relation for the primitive steps. *)
Ltac respects_step leaf :=
  lazymatch goal with
  | |- respects _ (_ ≫= _) => apply respects_bind; [tc_solve| |intros]
  | |- respects _ (try_except _ _) => apply respects_try_except; [tc_solve| |intros]
  | |- respects _ (try_finally _ _) => apply respects_try_finally; [tc_solve| |]
  | |- respects _ (for_each _ _) => apply respects_for_each; [tc_solve|intros]
  | |- respects _ (scalar_one_or_none _) => apply respects_scalar_one_or_none; tc_solve
  | |- respects _ (mret _) => apply respects_ret; tc_solve
  | |- respects _ (raise _) => apply respects_raise; tc_solve
  | |- respects _ get_world => apply respects_get_world; tc_solve
  | |- respects _ (match ?x with _ => _ end) => destruct x
  | |- respects _ (let _ := _ in _) => cbv zeta
  | |- respects _ (modify _) => apply respects_modify; intros ?; leaf
  | |- respects _ (now _) => intros ?; leaf
  | |- respects _ (new_uuid _) => intros ?; leaf
  | |- respects _ (backend _ _) =>
      let w := fresh "w" in
      intros w; unfold backend; destruct (fault _ (steps w)); leaf
  | |- respects _ _ => first [assumption | progress autounfold with prog]
  end.

Ltac respects_go leaf := repeat respects_step leaf.

(** ** The audit trail *)

Lemma same_events_of_keeps_db {A} (m : M A) : keeps_db m → respects same_events m.
Proof. intros Hm w. unfold same_events. by rewrite Hm. Qed.

Ltac no_event_leaf := unfold no_event_step; cbn; intuition congruence.

(** A session block that starts without a pending audit event and commits
    none leaves the committed audit trail alone. *)
Lemma same_events_with_session {A} (m : M A) :
  respects no_event_step m → respects same_events (with_session m).
Proof.
  intros Hm.
  assert (Hb : respects no_event_step
                 (try_finally (try_except m (λ e, rollback;; raise e)) close))
    by respects_go no_event_leaf.
  intros w. unfold with_session, modify, mbind, M_bind. cbn.
  specialize (Hb (set_txn (λ _, db w) w)).
  destruct (try_finally _ _ _) as [[a|e] w']; cbn in *; by apply Hb.
Qed.

Ltac same_events_go :=
  repeat first
    [ solve [apply same_events_of_keeps_db; keeps]
    | apply same_events_with_session; solve [respects_go no_event_leaf]
    | respects_step ltac:(fail) ].

(** X5.  Of the operations of the service, only the release adds to the committed
    audit trail: the events that acquire, start and stop log are flushed in
    a session that is closed without a commit. *)
Theorem audit_events_are_not_committed (env : Env) (w : World) (d wid uid : uuid)
    (ui : UserInfo.t) (dur : Z) :
  events (db (run (WidgetLockingService.acquire_widget_lock env d wid ui dur) w).2)
    = events (db w)
  ∧ events (db (run (WidgetLockingService_rest.start_dashboard_editing env d ui) w).2)
    = events (db w)
  ∧ events (db (run (WidgetLockingService.stop_dashboard_editing env d uid) w).2)
    = events (db w)
  ∧ events (db (run (WidgetLockingService.refresh_widget_lock env d wid ui) w).2)
    = events (db w)
  ∧ events (db (run (WidgetLockingService_rest.refresh_dashboard_editing env d uid) w).2)
    = events (db w).
Proof.
  repeat split.
  - assert (H : respects same_events
                  (WidgetLockingService.acquire_widget_lock env d wid ui dur))
      by same_events_go.
    apply H.
  - assert (H : respects same_events
                  (WidgetLockingService_rest.start_dashboard_editing env d ui))
      by same_events_go.
    apply H.
  - assert (H : respects same_events
                  (WidgetLockingService.stop_dashboard_editing env d uid))
      by same_events_go.
    apply H.
  - assert (H : respects same_events
                  (WidgetLockingService.refresh_widget_lock env d wid ui))
      by same_events_go.
    apply H.
  - assert (H : respects same_events
                  (WidgetLockingService_rest.refresh_dashboard_editing env d uid))
      by same_events_go.
    apply H.
Qed.

(** ** The shared cache *)

(** X14.  What [set_shared] stores is what [get_shared] returns until its lifetime
    is over: the entry lives for [ttl] seconds from the write, for
    [CACHE_TTL_DEFAULT] seconds when [ttl] is 0 ([ttl or ...]); a read up to
    and at the end of the lifetime finds it, a read after the end is a
    miss. *)
Theorem shared_cache_round_trip (c : nat → datetime) (u : nat → uuid) (w : World)
    (key : string * uuid) (v : cache_val) (ttl : Z) (tgs : list string) :
  cache_initialized w = true →
  ∃ w',
    run (stored ← set_shared (fault_free c u) key v ttl tgs;
         found ← get_shared (fault_free c u) key;
         mret (stored, found)) w
    = (Return (true,
               if c (ticks w)
                  + timedelta_seconds (if ttl =? 0 then CACHE_TTL_DEFAULT else ttl)
                  <? c (S (ticks w))
               then None else Some v), w').
Proof.
  intros Hci. unfold set_shared, get_shared, cache_set, cache_get.
  msimpl. mgo. rewrite lookup_insert_eq. cbn.
  by eexists.
Qed.

Lemma shared_cache_round_trip_witness :
  ∃ w',
    run (stored ← set_shared example_env (WidgetLockingService._cache_key_widget_status w1)
                    (CStatus (WidgetLockingService.unlocked_status w1)) 2 [];
         found ← get_shared example_env (WidgetLockingService._cache_key_widget_status w1);
         mret (stored, found)) world_after_acquire
    = (Return (true, Some (CStatus (WidgetLockingService.unlocked_status w1))), w').
Proof.
  destruct (shared_cache_round_trip example_clock example_uuid4 world_after_acquire
              (WidgetLockingService._cache_key_widget_status w1)
              (CStatus (WidgetLockingService.unlocked_status w1)) 2 [])
    as [w' Hw']; [vm_compute; reflexivity|].
  exists w'. exact Hw'.
Defined.

(** X15.  The methods of the cache manager never raise: a failure of the backend is
    answered with [None] or [False], and the committed rows are not
    involved. *)
Theorem shared_cache_methods_never_raise (env : Env) (w : World)
    (key : string * uuid) (v : cache_val) (ttl : Z) (tgs : list string) :
  (∃ r w', run (get_shared env key) w = (Return r, w') ∧ db w' = db w
           ∧ (fault env (steps w) = true → r = None ∧ cache w' = cache w))
  ∧ (∃ r w', run (set_shared env key v ttl tgs) w = (Return r, w') ∧ db w' = db w
             ∧ (fault env (steps w) = true → r = false ∧ cache w' = cache w))
  ∧ (∃ r w', run (delete_shared env key) w = (Return r, w') ∧ db w' = db w
             ∧ (fault env (steps w) = true → r = false ∧ cache w' = cache w))
  ∧ (∃ r w', run (delete_by_tags env tgs) w = (Return r, w') ∧ db w' = db w).
Proof.
  repeat split.
  - unfold get_shared, cache_get. msimpl.
    destruct (cache_initialized w); cbn; [|by eexists _, _].
    destruct (fault env (steps w)); cbn; by eexists _, _.
  - unfold set_shared, cache_set. msimpl.
    destruct (cache_initialized w); cbn; [|by eexists _, _].
    destruct (fault env (steps w)); cbn; by eexists _, _.
  - unfold delete_shared, cache_delete. msimpl.
    destruct (cache_initialized w); cbn; [|by eexists _, _].
    destruct (fault env (steps w)); cbn; by eexists _, _.
  - pose proof (keeps_db_delete_multi_level_by_tags env tgs w) as Hk.
    unfold delete_multi_level_by_tags in Hk. unfold run.
    destruct (delete_by_tags env tgs w) as [[r|e] w'] eqn:H; [by eexists _, _|].
    exfalso. unfold delete_by_tags, mbind, M_bind, get_world in H. cbn in H.
    destruct (negb (cache_initialized w)); [done|].
    destruct (try_except_total (for_each tgs (cache_delete_tags env);; mret true)
                (λ _, mret false) w) as (r & w0 & Hr); [intros; by eexists _, _|].
    unfold mbind, M_bind in Hr. congruence.
Qed.

(** ** Invalidation by tags *)

Lemma for_each_cache_delete_tags (c : nat → datetime) (u : nat → uuid)
    (tgs : list string) (w : World) :
  ∃ w', for_each tgs (cache_delete_tags (fault_free c u)) w = (Return tt, w')
        ∧ cache w' = filter (λ kv, Forall (λ tag, tag ∉ tags kv.2) tgs) (cache w)
        ∧ db w' = db w ∧ txn w' = txn w
        ∧ cache_initialized w' = cache_initialized w.
Proof.
  revert w. induction tgs as [|tag tgs IH]; intros w.
  - exists w. split; [done|]. split; [|done].
    symmetry. apply map_filter_id. intros; constructor.
  - destruct (IH (set_cache (filter (λ kv, tag ∉ tags kv.2)) (set_steps (S (steps w)) w)))
      as (w' & Hw' & Hc & ? & ? & ?).
    exists w'. split; [exact Hw'|]. split; [|done].
    rewrite Hc. cbn. rewrite map_filter_filter. apply map_filter_ext.
    intros k e _. cbn. rewrite Forall_cons. tauto.
Qed.

(** X16.  [delete_by_tags] on an initialised cache, when the backend does not fail,
    removes the entries that carry one of the tags and no other entry. *)
Theorem delete_by_tags_removes_tagged (c : nat → datetime) (u : nat → uuid)
    (tgs : list string) (w : World) :
  cache_initialized w = true →
  ∃ w',
    run (delete_by_tags (fault_free c u) tgs) w = (Return true, w')
    ∧ ∀ key e, cache w' !! key = Some e
               ↔ cache w !! key = Some e ∧ ∀ tag, tag ∈ tgs → tag ∉ tags e.
Proof.
  intros Hci. unfold run, delete_by_tags.
  unfold mbind at 1, M_bind, get_world, try_except. cbn. rewrite Hci. cbn.
  destruct (for_each_cache_delete_tags c u tgs w) as (w' & Hw' & Hc & _).
  unfold mbind, M_bind. rewrite Hw'. exists w'. split; [done|].
  intros key e. rewrite Hc, map_lookup_filter_Some. cbn.
  by rewrite Forall_forall.
Qed.

Lemma delete_by_tags_removes_tagged_witness :
  ∃ w',
    run (delete_by_tags example_env ["resource:widget_lock"%string]) world_after_acquire
      = (Return true, w')
    ∧ ∀ key e, cache w' !! key = Some e
               ↔ cache world_after_acquire !! key = Some e
                 ∧ ∀ tag, tag ∈ ["resource:widget_lock"%string] → tag ∉ tags e.
Proof.
  apply (delete_by_tags_removes_tagged example_clock example_uuid4).
  vm_compute. reflexivity.
Defined.

#[export] Instance stays_untagged_preorder : PreOrder stays_untagged.
Proof. split; unfold stays_untagged; [by intros ?|intros ???; tauto]. Qed.

#[export] Instance untagged_cache_kept_preorder : PreOrder untagged_cache_kept.
Proof.
  split; unfold untagged_cache_kept; [by intros ?|].
  intros w1 w2 w3 H12 H23 H1. rewrite H23, H12; [done..|]. by rewrite H12.
Qed.

Ltac stays_untagged_leaf :=
  unfold stays_untagged, untagged; cbn;
  first [ done
        | intros; apply map_Forall_insert_2; done
        | intros; apply map_Forall_delete; done
        | let Hu := fresh "Hu" in
          let k := fresh "k" in
          let x := fresh "x" in
          let Hx := fresh "Hx" in
          intros Hu k x [Hx _]%map_lookup_filter_Some; by apply (Hu k x) ].

Ltac untagged_cache_kept_leaf :=
  unfold untagged_cache_kept, untagged; cbn;
  first [ done
        | let Hu := fresh "Hu" in
          let k := fresh "k" in
          let x := fresh "x" in
          let Hx := fresh "Hx" in
          intros Hu; apply map_filter_id; intros k x Hx; cbn;
          rewrite (Hu k x Hx); apply not_elem_of_nil ].

(** X17.  The entries that the locking service writes carry no tag: when the cache
    holds no tagged entry before an operation of the service, it holds none
    afterwards. *)
Theorem service_cache_entries_are_untagged (env : Env) (w : World) (d wid : uuid)
    (uid : user_id_value) (ui : UserInfo.t) (dur : Z) :
  untagged (cache w) →
  untagged (cache (run (WidgetLockingService.acquire_widget_lock env d wid ui dur) w).2)
  ∧ untagged (cache (run (WidgetLockingService.refresh_widget_lock env d wid ui) w).2)
  ∧ untagged (cache (run (WidgetLockingService.get_widget_lock_status env wid uid) w).2)
  ∧ untagged (cache (run (WidgetLockingService.release_widget_lock env d wid ui) w).2).
Proof.
  intros Hun. repeat split.
  - assert (H : respects stays_untagged
                  (WidgetLockingService.acquire_widget_lock env d wid ui dur))
      by respects_go stays_untagged_leaf.
    by apply H.
  - assert (H : respects stays_untagged
                  (WidgetLockingService.refresh_widget_lock env d wid ui))
      by respects_go stays_untagged_leaf.
    by apply H.
  - assert (H : respects stays_untagged
                  (WidgetLockingService.get_widget_lock_status env wid uid))
      by respects_go stays_untagged_leaf.
    by apply H.
  - assert (H : respects stays_untagged
                  (WidgetLockingService.release_widget_lock env d wid ui))
      by respects_go stays_untagged_leaf.
    by apply H.
Qed.

Lemma service_cache_entries_are_untagged_witness :
  untagged (cache (run (WidgetLockingService.acquire_widget_lock example_env d1 w1 alice 60)
                       initial_world).2).
Proof.
  apply (service_cache_entries_are_untagged example_env initial_world d1 w1
           (caller alice) alice 60).
  apply map_Forall_empty.
Defined.

(** X18.  The invalidation by tags of the reaper finds nothing to remove: when no
    entry of the cache carries a tag, as is the case for the entries of the
    locking service, [cleanup_stale_sessions_and_locks] leaves the cache as it
    is, whatever fails in the backends. *)
Theorem cleanup_invalidates_no_untagged_entry (env : Env) (w : World) :
  untagged (cache w) →
  cache (run (WidgetLockingService.cleanup_stale_sessions_and_locks env) w).2
    = cache w.
Proof.
  intros Hun.
  assert (H : respects untagged_cache_kept
                (WidgetLockingService.cleanup_stale_sessions_and_locks env))
    by respects_go untagged_cache_kept_leaf.
  by apply H.
Qed.

Lemma cleanup_invalidates_no_untagged_entry_witness :
  cache (run (WidgetLockingService.cleanup_stale_sessions_and_locks very_late_env)
             world_after_acquire).2
    = cache world_after_acquire.
Proof.
  apply (cleanup_invalidates_no_untagged_entry very_late_env world_after_acquire).
  unfold untagged. apply (bool_decide_unpack _). vm_compute. reflexivity.
Defined.

(** ** AcquireLock: mutual exclusion *)

Ltac later_leaf := unfold later; cbn; lia.

Lemma later_run {A} (m : M A) (w w' : World) (o : outcome A) :
  respects later m → m w = (o, w') → (ticks w ≤ ticks w')%nat.
Proof. intros Hm H. specialize (Hm w). by rewrite H in Hm. Qed.

Lemma keeps_db_acquire_cache_check env wid :
  keeps_db (WidgetLockingService.acquire_cache_check env wid).
Proof. unfold WidgetLockingService.acquire_cache_check. keeps. Qed.

(** X1.  A lock is granted only when the active lock that the widget had before
    the call, if any, was past its expiry at a reading of the clock taken
    during the call; this holds whatever fails in the backends. *)
Theorem acquire_granted_only_after_expiry (env : Env) (w w' : World)
    (d wid : uuid) (ui : UserInfo.t) (dur : Z) (r : LockAcquisitionResponse.t)
    (l : WidgetLock.t) :
  run (WidgetLockingService.acquire_widget_lock env d wid ui dur) w = (Return r, w') →
  LockAcquisitionResponse.success r = true →
  active_lock (db w) wid = Some l →
  ∃ n, (ticks w ≤ n < ticks w')%nat ∧ WidgetLock.expires_at l < clock env n.
Proof.
  unfold run, WidgetLockingService.acquire_widget_lock.
  intros (early & w1 & Hearly & H)%bind_Return_inv Hok Hl.
  destruct early as [r'|].
  { injection H as -> ->.
    apply try_except_Return_inv in Hearly as [Hc|(e & w2 & _ & [=])].
    apply acquire_cache_check_denies in Hc. congruence. }
  apply try_except_Return_inv in Hearly as [Hearly|(e & w2 & _ & [=])].
  assert (Hdb1 : db w1 = db w).
  { pose proof (keeps_db_acquire_cache_check env wid w) as Hk.
    by rewrite Hearly in Hk. }
  assert (Ht1 : (ticks w ≤ ticks w1)%nat).
  { eapply later_run; [|exact Hearly]. respects_go later_leaf. }
  clear Hearly.
  apply try_except_Return_inv in H as [H|(e & w2 & _ & H)].
  2:{ apply bind_Return_inv in H as ([] & w3 & _ & H).
      apply bind_Return_inv in H as (p & w4 & _ & H).
      apply bind_Return_inv in H as (t & w5 & _ & [= <- _]). done. }
  unfold WidgetLockingService.acquire_store in H.
  apply bind_Return_inv in H as (denied & w2 & Hden & H).
  destruct denied as [r'|].
  { injection H as -> ->.
    apply with_session_Return_inv in Hden as (w3 & Hden & _).
    apply bind_Return_inv in Hden as ([l'|] & w4 & _ & Hden); [|done].
    apply bind_Return_inv in Hden as (t & w5 & _ & Hden).
    destruct (negb _); [|done].
    injection Hden as <- _. done. }
  assert (Ht2 : (ticks w2 ≤ ticks w')%nat).
  { eapply later_run; [|exact H]. respects_go later_leaf. }
  clear H.
  apply with_session_Return_inv in Hden as (w3 & Hden & ->).
  unfold CoreWidgetLocking.get_active_widget_lock in Hden.
  apply bind_Return_inv in Hden as (db_lock & w4 & Hsel & Hden).
  apply try_except_Return_inv in Hsel as [Hsel|(e & w5 & _ & [=])].
  unfold execute_select, backend in Hsel. msimpl. cbn in Hsel.
  destruct (fault env (steps w1)); [done|]. cbn in Hsel.
  injection Hsel as <- <-. cbn in Hden.
  rewrite Hdb1 in Hden. unfold active_lock in Hl. rewrite Hl in Hden. cbn in Hden.
  destruct (WidgetLock.is_expired (clock env (ticks w1)) l) eqn:Hexp; cbn in Hden; [|done].
  injection Hden as <-. cbn in Ht2.
  exists (ticks w1). split; [lia|].
  unfold WidgetLock.is_expired in Hexp. lia.
Qed.

(** Bob is granted [w1] 100 s after Alice acquired it for 60 s. *)
Lemma acquire_granted_only_after_expiry_witness :
  ∃ n, (ticks world_after_acquire ≤ n
        < ticks (run (WidgetLockingService.acquire_widget_lock late_env d1 w1 bob 60)
                     world_after_acquire).2)%nat
       ∧ 60000003 < clock late_env n.
Proof.
  eapply (acquire_granted_only_after_expiry late_env world_after_acquire _ d1 w1 bob 60 _
            (WidgetLock.mk d1 100 1 "A" 3 60000003 3 true)).
  - vm_compute. reflexivity.
  - vm_compute. reflexivity.
  - vm_compute. reflexivity.
Defined.

(** ** Editing sessions *)

Lemma select_sessions_only (P : UserSession.t → bool) (s : Store) (sid : uuid)
    (u : UserSession.t) :
  only_session P s sid u → CoreWidgetLocking.select_sessions P s = [(sid, u)].
Proof.
  intros (Hu & HP & Huniq). unfold CoreWidgetLocking.select_sessions.
  rewrite <- map_to_list_singleton. f_equal.
  apply map_eq. intros sid'. destruct (decide (sid' = sid)) as [->|Hne].
  - rewrite lookup_singleton_eq. by apply map_lookup_filter_Some.
  - rewrite lookup_singleton_ne by done.
    apply map_lookup_filter_None. right. intros u' Hu' HP'. cbn in HP'.
    by apply Hne, (Huniq sid' u').
Qed.

Lemma only_session_new (P : UserSession.t → bool) (s : Store) (sid : uuid)
    (u : UserSession.t) :
  no_session P s → P u = true →
  only_session P (set_sessions (<[sid := u]>) s) sid u.
Proof.
  intros Hnone HP. split; [apply lookup_insert_eq|]. split; [done|].
  intros sid' u' Hu' HP'. destruct (decide (sid' = sid)) as [|Hne]; [done|].
  cbn in Hu'. rewrite lookup_insert_ne in Hu' by done.
  rewrite (Hnone sid' u' Hu') in HP'. done.
Qed.

Ltac init_cases w :=
  let Hsi := fresh "Hsi" in
  let Hci := fresh "Hci" in
  destruct (service_initialized w) eqn:Hsi, (cache_initialized w) eqn:Hci; mgo.

Lemma start_dashboard_editing_creates (c : nat → datetime) (u : nat → uuid)
    (w : World) (d : uuid) (ui : UserInfo.t) :
  no_session (λ us, session_of d (UserInfo.user_id ui) us && UserSession.is_active us)
    (db w) →
  sessions (db w) !! u (draws w) = None →
  let us := UserSession.mk d (UserInfo.user_id ui)
              (default "Unknown"%string (UserInfo.user_name ui))
              (UserInfo.user_email ui) (UserInfo.client_info ui)
              (c (ticks w)) (c (S (ticks w))) true [] in
  ∃ w',
    run (WidgetLockingService_rest.start_dashboard_editing (fault_free c u) d ui) w
      = (Return (u (draws w), us), w')
    ∧ db w' = set_sessions (<[u (draws w) := us]>) (db w).
Proof.
  intros Hnone Hfresh us.
  pose proof (select_sessions_nil
                (λ us, session_of d (UserInfo.user_id ui) us && UserSession.is_active us)
                (db w) Hnone) as Hsel.
  unfold session_of in Hsel.
  unfold WidgetLockingService_rest.start_dashboard_editing,
    WidgetLockingService.initialize, get_cache, cache_manager_initialize,
    cache_setup, CoreWidgetLocking.get_or_create_user_session,
    CoreWidgetLocking.add_session, delete_shared, cache_delete,
    CoreWidgetLocking.log_collaboration_event.
  msimpl. init_cases w; by eexists.
Qed.

Lemma start_dashboard_editing_reuses (c : nat → datetime) (u : nat → uuid)
    (w : World) (d : uuid) (ui : UserInfo.t) (sid : uuid) (u0 : UserSession.t) :
  only_session (λ us, session_of d (UserInfo.user_id ui) us && UserSession.is_active us)
    (db w) sid u0 →
  ∃ w',
    run (WidgetLockingService_rest.start_dashboard_editing (fault_free c u) d ui) w
      = (Return (sid, CoreWidgetLocking.set_last_activity (c (ticks w)) u0), w')
    ∧ db w' = db w.
Proof.
  intros Hsel%select_sessions_only. unfold session_of in Hsel.
  unfold WidgetLockingService_rest.start_dashboard_editing,
    WidgetLockingService.initialize, get_cache, cache_manager_initialize,
    cache_setup, CoreWidgetLocking.get_or_create_user_session,
    CoreWidgetLocking.add_session, delete_shared, cache_delete,
    CoreWidgetLocking.log_collaboration_event.
  msimpl. init_cases w; by eexists.
Qed.

(** X6.  StartEditing for a user without an active session on the dashboard, when
    no backend call fails: one session row is created and committed, active,
    with an empty [locked_widgets] and the identifier that [uuid4] drew;
    nothing else of the store changes, the audit event included. *)
Theorem start_dashboard_editing_new_session (c : nat → datetime) (u : nat → uuid)
    (w : World) (d : uuid) (ui : UserInfo.t) :
  no_session (λ us, session_of d (UserInfo.user_id ui) us && UserSession.is_active us)
    (db w) →
  sessions (db w) !! u (draws w) = None →
  ∃ us w',
    run (WidgetLockingService_rest.start_dashboard_editing (fault_free c u) d ui) w
      = (Return (u (draws w), us), w')
    ∧ UserSession.dashboard_id us = d
    ∧ UserSession.user_id us = UserInfo.user_id ui
    ∧ UserSession.is_active us = true
    ∧ UserSession.locked_widgets us = []
    ∧ sessions (db w') = <[u (draws w) := us]> (sessions (db w))
    ∧ locks (db w') = locks (db w)
    ∧ events (db w') = events (db w).
Proof.
  intros Hnone Hfresh.
  destruct (start_dashboard_editing_creates c u w d ui Hnone Hfresh) as (w' & Hrun & Hdb).
  eexists _, w'. split; [exact Hrun|]. by rewrite Hdb.
Qed.


(** X8.  StartEditing twice: the second call returns the session of the first and
    adds no row. *)
Theorem start_dashboard_editing_twice (c : nat → datetime) (u : nat → uuid)
    (w : World) (d : uuid) (ui : UserInfo.t) :
  no_session (λ us, session_of d (UserInfo.user_id ui) us && UserSession.is_active us)
    (db w) →
  sessions (db w) !! u (draws w) = None →
  ∃ us w',
    run (s1 ← WidgetLockingService_rest.start_dashboard_editing (fault_free c u) d ui;
         s2 ← WidgetLockingService_rest.start_dashboard_editing (fault_free c u) d ui;
         mret (s1.1, s2.1)) w
      = (Return (u (draws w), u (draws w)), w')
    ∧ sessions (db w') = <[u (draws w) := us]> (sessions (db w)).
Proof.
  intros Hnone Hfresh.
  destruct (start_dashboard_editing_creates c u w d ui Hnone Hfresh) as (w1 & Hrun1 & Hdb1).
  cbv zeta in *.
  match type of Hrun1 with
  | _ = (Return (_, ?us), _) => set (us1 := us) in *
  end.
  destruct (start_dashboard_editing_reuses c u w1 d ui (u (draws w)) us1) as (w2 & Hrun2 & Hdb2).
  { rewrite Hdb1. apply only_session_new; [done|].
    unfold session_of. cbn. by rewrite !Pos.eqb_refl. }
  exists us1, w2. split.
  - unfold run in *. erewrite bind_Return_run by exact Hrun1.
    erewrite bind_Return_run by exact Hrun2. done.
  - by rewrite Hdb2, Hdb1.
Qed.

Lemma start_dashboard_editing_new_session_witness :
  ∃ us w',
    run (WidgetLockingService_rest.start_dashboard_editing example_env d1 alice)
        initial_world
      = (Return (100%positive, us), w')
    ∧ UserSession.dashboard_id us = d1
    ∧ UserSession.user_id us = 1%positive
    ∧ UserSession.is_active us = true
    ∧ UserSession.locked_widgets us = []
    ∧ sessions (db w') = <[100%positive := us]> (sessions (db initial_world))
    ∧ locks (db w') = locks (db initial_world)
    ∧ events (db w') = events (db initial_world).
Proof.
  apply (start_dashboard_editing_new_session example_clock example_uuid4
           initial_world d1 alice).
  - apply (bool_decide_unpack _). vm_compute. reflexivity.
  - vm_compute. reflexivity.
Defined.


Lemma start_dashboard_editing_twice_witness :
  ∃ us w',
    run (s1 ← WidgetLockingService_rest.start_dashboard_editing example_env d1 alice;
         s2 ← WidgetLockingService_rest.start_dashboard_editing example_env d1 alice;
         mret (s1.1, s2.1)) initial_world
      = (Return (100%positive, 100%positive), w')
    ∧ sessions (db w') = <[100%positive := us]> (sessions (db initial_world)).
Proof.
  apply (start_dashboard_editing_twice example_clock example_uuid4 initial_world d1 alice).
  - apply (bool_decide_unpack _). vm_compute. reflexivity.
  - vm_compute. reflexivity.
Defined.

Lemma select_sessions_two (P : UserSession.t → bool) (s : Store) (a b : uuid)
    (ua ub : UserSession.t) :
  a ≠ b →
  sessions s !! a = Some ua → P ua = true →
  sessions s !! b = Some ub → P ub = true →
  ∃ x y l, CoreWidgetLocking.select_sessions P s = x :: y :: l.
Proof.
  intros Hne Ha HPa Hb HPb. unfold CoreWidgetLocking.select_sessions.
  assert (Hina : (a, ua) ∈ map_to_list (filter (λ kv, P kv.2 = true) (sessions s)))
    by by apply elem_of_map_to_list, map_lookup_filter_Some.
  assert (Hinb : (b, ub) ∈ map_to_list (filter (λ kv, P kv.2 = true) (sessions s)))
    by by apply elem_of_map_to_list, map_lookup_filter_Some.
  destruct (map_to_list _) as [|x [|y l]]; [|..|by eauto].
  - by apply elem_of_nil in Hina.
  - apply list_elem_of_singleton in Hina, Hinb. congruence.
Qed.

Ltac unfold_editing :=
  unfold WidgetLockingService.stop_dashboard_editing,
    WidgetLockingService_rest.refresh_dashboard_editing,
    WidgetLockingService.initialize, get_cache, cache_manager_initialize,
    cache_setup, delete_shared, cache_delete,
    CoreWidgetLocking.log_collaboration_event.

Lemma stop_dashboard_editing_deactivates (c : nat → datetime) (u : nat → uuid)
    (w : World) (d uid sid : uuid) (u0 : UserSession.t) :
  only_session (λ us, session_of d uid us && UserSession.is_active us) (db w) sid u0 →
  ∃ w',
    run (WidgetLockingService.stop_dashboard_editing (fault_free c u) d uid) w
      = (Return true, w')
    ∧ db w' = set_sessions
                (<[sid := CoreWidgetLocking.set_session_active false u0]>) (db w).
Proof.
  intros Hsel%select_sessions_only. unfold session_of in Hsel.
  unfold_editing. msimpl. init_cases w; by eexists.
Qed.


Lemma refresh_dashboard_editing_reactivates (c : nat → datetime) (u : nat → uuid)
    (w : World) (d uid sid : uuid) (u0 : UserSession.t) :
  only_session (session_of d uid) (db w) sid u0 →
  UserSession.is_active u0 = false →
  ∃ w',
    run (WidgetLockingService_rest.refresh_dashboard_editing (fault_free c u) d uid) w
      = (Return true, w')
    ∧ db w' = set_sessions
                (<[sid := CoreWidgetLocking.set_last_activity (c (ticks w))
                            (CoreWidgetLocking.set_session_active true u0)]>) (db w).
Proof.
  intros Hone Hina.
  assert (Hact : CoreWidgetLocking.select_sessions
                   (λ us, session_of d uid us && UserSession.is_active us) (db w) = []).
  { apply select_sessions_nil. intros sid' us Hus.
    destruct (session_of d uid us) eqn:HP; [|done]. cbn.
    destruct Hone as (Hu0 & _ & Huniq).
    rewrite (Huniq sid' us Hus HP) in Hus. congruence. }
  apply select_sessions_only in Hone. unfold session_of in Hone, Hact.
  unfold_editing. msimpl. init_cases w; by eexists.
Qed.



(** X11.  The heartbeat of an editing session without any session row of the user
    on the dashboard returns [False] and changes nothing. *)
Theorem refresh_dashboard_editing_without_session (c : nat → datetime)
    (u : nat → uuid) (w : World) (d uid : uuid) :
  no_session (session_of d uid) (db w) →
  ∃ w',
    run (WidgetLockingService_rest.refresh_dashboard_editing (fault_free c u) d uid) w
      = (Return false, w')
    ∧ db w' = db w.
Proof.
  intros Hnone.
  pose proof (select_sessions_nil (session_of d uid) (db w) Hnone) as Hany.
  assert (Hact : CoreWidgetLocking.select_sessions
                   (λ us, session_of d uid us && UserSession.is_active us) (db w) = []).
  { apply select_sessions_nil. intros sid us Hus. by rewrite (Hnone sid us Hus). }
  unfold session_of in Hany, Hact.
  unfold_editing. msimpl. init_cases w; by eexists.
Qed.

(** X12.  StopEditing followed by the heartbeat of the editing session: the
    heartbeat finds the session that was stopped and makes it active again.
    With one session row of the user on the dashboard, active before, the
    two calls return [True] and leave the row as it was but for
    [last_activity]. *)
Theorem stop_then_refresh_dashboard_editing (c : nat → datetime) (u : nat → uuid)
    (w : World) (d uid sid : uuid) (u0 : UserSession.t) :
  only_session (session_of d uid) (db w) sid u0 →
  UserSession.is_active u0 = true →
  ∃ t w',
    run (stopped ← WidgetLockingService.stop_dashboard_editing (fault_free c u) d uid;
         refreshed ← WidgetLockingService_rest.refresh_dashboard_editing
                        (fault_free c u) d uid;
         mret (stopped, refreshed)) w
      = (Return (true, true), w')
    ∧ db w' = set_sessions (<[sid := CoreWidgetLocking.set_last_activity t u0]>) (db w).
Proof.
  intros (Hu0 & HP & Huniq) Hact.
  destruct (stop_dashboard_editing_deactivates c u w d uid sid u0) as (w1 & Hrun1 & Hdb1).
  { split; [done|]. split; [by rewrite HP, Hact|].
    intros sid' u' Hu' [HP' _]%andb_true_iff. by apply (Huniq sid' u'). }
  destruct (refresh_dashboard_editing_reactivates c u w1 d uid sid
              (CoreWidgetLocking.set_session_active false u0)) as (w2 & Hrun2 & Hdb2).
  { rewrite Hdb1. split; [apply lookup_insert_eq|]. split; [done|].
    intros sid' u' Hu' HP'. destruct (decide (sid' = sid)) as [|Hne]; [done|].
    cbn in Hu'. rewrite lookup_insert_ne in Hu' by done. by apply (Huniq sid' u'). }
  { done. }
  exists (c (ticks w1)), w2. split.
  - unfold run in *. erewrite bind_Return_run by exact Hrun1.
    erewrite bind_Return_run by exact Hrun2. done.
  - rewrite Hdb2, Hdb1. unfold set_sessions. cbn. rewrite insert_insert_eq.
    do 2 f_equal. destruct u0. cbn in *. by rewrite Hact.
Qed.

(** X13.  With two session rows of the user on the dashboard and none of them
    active, StopEditing and the heartbeat of the editing session both return
    [False] and change nothing: the query for the one session of the user
    finds two rows, and the error is answered with [False]. *)
Theorem editing_fails_with_two_stopped_sessions (c : nat → datetime)
    (u : nat → uuid) (w : World) (d uid a b : uuid) (ua ub : UserSession.t) :
  a ≠ b →
  sessions (db w) !! a = Some ua → session_of d uid ua = true →
  sessions (db w) !! b = Some ub → session_of d uid ub = true →
  no_session (λ us, session_of d uid us && UserSession.is_active us) (db w) →
  (∃ w', run (WidgetLockingService.stop_dashboard_editing (fault_free c u) d uid) w
           = (Return false, w') ∧ db w' = db w)
  ∧ (∃ w', run (WidgetLockingService_rest.refresh_dashboard_editing
                  (fault_free c u) d uid) w
             = (Return false, w') ∧ db w' = db w).
Proof.
  intros Hne Ha HPa Hb HPb Hina.
  pose proof (select_sessions_nil _ (db w) Hina) as Hact.
  assert (HQa : session_of d uid ua && negb (UserSession.is_active ua) = true).
  { pose proof (Hina a ua Ha) as H. cbn in H. rewrite HPa in *.
    by destruct (UserSession.is_active ua). }
  assert (HQb : session_of d uid ub && negb (UserSession.is_active ub) = true).
  { pose proof (Hina b ub Hb) as H. cbn in H. rewrite HPb in *.
    by destruct (UserSession.is_active ub). }
  destruct (select_sessions_two
              (λ us, session_of d uid us && negb (UserSession.is_active us))
              (db w) a b ua ub Hne Ha HQa Hb HQb) as (x & y & l & Hstopped).
  destruct (select_sessions_two (session_of d uid) (db w) a b ua ub Hne Ha HPa Hb HPb)
    as (x' & y' & l' & Hany).
  unfold session_of in Hact, Hstopped, Hany.
  split; unfold_editing; msimpl; init_cases w; by eexists.
Qed.



Lemma refresh_dashboard_editing_without_session_witness :
  ∃ w',
    run (WidgetLockingService_rest.refresh_dashboard_editing example_env d1 2)
        world_after_acquire
      = (Return false, w')
    ∧ db w' = db world_after_acquire.
Proof.
  apply (refresh_dashboard_editing_without_session example_clock example_uuid4
           world_after_acquire d1 2).
  apply (bool_decide_unpack _). vm_compute. reflexivity.
Defined.

Lemma stop_then_refresh_dashboard_editing_witness :
  ∃ t w',
    run (stopped ← WidgetLockingService.stop_dashboard_editing example_env d1 1;
         refreshed ← WidgetLockingService_rest.refresh_dashboard_editing example_env d1 1;
         mret (stopped, refreshed)) world_after_acquire
      = (Return (true, true), w')
    ∧ db w' = set_sessions
                (<[100%positive := CoreWidgetLocking.set_last_activity t
                     (UserSession.mk d1 1 "A" None None 1 3 true [w1])]>)
                (db world_after_acquire).
Proof.
  apply (stop_then_refresh_dashboard_editing example_clock example_uuid4
           world_after_acquire d1 1 100 (UserSession.mk d1 1 "A" None None 1 3 true [w1])).
  - apply (bool_decide_unpack _). vm_compute. reflexivity.
  - reflexivity.
Defined.

(** After Alice opened and left [d1] twice, she can neither leave nor send a
    heartbeat. *)
Lemma editing_fails_with_two_stopped_sessions_witness :
  (∃ w', run (WidgetLockingService.stop_dashboard_editing example_env d1 1)
             world_after_two_stops
           = (Return false, w') ∧ db w' = db world_after_two_stops)
  ∧ (∃ w', run (WidgetLockingService_rest.refresh_dashboard_editing example_env d1 1)
               world_after_two_stops
             = (Return false, w') ∧ db w' = db world_after_two_stops).
Proof.
  apply (editing_fails_with_two_stopped_sessions example_clock example_uuid4
           world_after_two_stops d1 1 100 103
           (UserSession.mk d1 1 "A" None None 0 1 false [])
           (UserSession.mk d1 1 "A" None None 4 5 false [])).
  - done.
  - vm_compute. reflexivity.
  - reflexivity.
  - vm_compute. reflexivity.
  - reflexivity.
  - apply (bool_decide_unpack _). vm_compute. reflexivity.
Defined.

(** ** One active session of a user on a dashboard *)

Lemma elem_of_select_sessions (P : UserSession.t → bool) (s : Store) (sid : uuid)
    (u : UserSession.t) :
  (sid, u) ∈ CoreWidgetLocking.select_sessions P s
  ↔ sessions s !! sid = Some u ∧ P u = true.
Proof.
  unfold CoreWidgetLocking.select_sessions.
  by rewrite elem_of_map_to_list, map_lookup_filter_Some.
Qed.

(** What the three operations on editing sessions do to the committed store
    when no backend call fails. *)
Lemma start_dashboard_editing_effect (c : nat → datetime) (u : nat → uuid)
    (w : World) (d : uuid) (ui : UserInfo.t) :
  sessions (db w) !! u (draws w) = None →
  let w' := (run (WidgetLockingService_rest.start_dashboard_editing
                    (fault_free c u) d ui) w).2 in
  db w' = db w
  ∨ ∃ us,
      no_session (λ us, session_of d (UserInfo.user_id ui) us && UserSession.is_active us)
        (db w)
      ∧ UserSession.dashboard_id us = d
      ∧ UserSession.user_id us = UserInfo.user_id ui
      ∧ db w' = set_sessions (<[u (draws w) := us]>) (db w).
Proof.
  intros Hfresh.
  destruct (CoreWidgetLocking.select_sessions
              (λ us, session_of d (UserInfo.user_id ui) us && UserSession.is_active us)
              (db w)) as [|[sid u0] [|[sid' u1] rest]] eqn:Hsel.
  - right. eexists. split.
    { intros sid us Hus. cbn. apply not_true_iff_false. intros HP.
      assert (Hin : (sid, us) ∈ CoreWidgetLocking.select_sessions
                (λ us, session_of d (UserInfo.user_id ui) us && UserSession.is_active us)
                (db w)) by by apply elem_of_select_sessions.
      rewrite Hsel in Hin. by apply elem_of_nil in Hin. }
    unfold session_of in Hsel.
    unfold WidgetLockingService_rest.start_dashboard_editing,
      WidgetLockingService.initialize, get_cache, cache_manager_initialize,
      cache_setup, CoreWidgetLocking.get_or_create_user_session,
      CoreWidgetLocking.add_session, delete_shared, cache_delete,
      CoreWidgetLocking.log_collaboration_event.
    msimpl. init_cases w; cbn; repeat split; reflexivity.
  - left. unfold session_of in Hsel.
    unfold WidgetLockingService_rest.start_dashboard_editing,
      WidgetLockingService.initialize, get_cache, cache_manager_initialize,
      cache_setup, CoreWidgetLocking.get_or_create_user_session,
      CoreWidgetLocking.add_session, delete_shared, cache_delete,
      CoreWidgetLocking.log_collaboration_event.
    msimpl. init_cases w; reflexivity.
  - left. unfold session_of in Hsel.
    unfold WidgetLockingService_rest.start_dashboard_editing,
      WidgetLockingService.initialize, get_cache, cache_manager_initialize,
      cache_setup, CoreWidgetLocking.get_or_create_user_session,
      CoreWidgetLocking.add_session, delete_shared, cache_delete,
      CoreWidgetLocking.log_collaboration_event.
    msimpl. init_cases w; reflexivity.
Qed.

Lemma stop_dashboard_editing_effect (c : nat → datetime) (u : nat → uuid)
    (w : World) (d uid : uuid) :
  let w' := (run (WidgetLockingService.stop_dashboard_editing (fault_free c u) d uid) w).2 in
  db w' = db w
  ∨ ∃ sid u0,
      sessions (db w) !! sid = Some u0
      ∧ db w' = set_sessions
                  (<[sid := CoreWidgetLocking.set_session_active false u0]>) (db w).
Proof.
  destruct (CoreWidgetLocking.select_sessions
              (λ us, session_of d uid us && UserSession.is_active us)
              (db w)) as [|[sid u0] [|[sid' u1] rest]] eqn:Hsel.
  - left.
    destruct (CoreWidgetLocking.select_sessions
                (λ us, session_of d uid us && negb (UserSession.is_active us))
                (db w)) as [|[sid u0] [|[sid' u1] rest]] eqn:Hina;
      unfold session_of in Hsel, Hina; unfold_editing; msimpl.
    + init_cases w.
      all: destruct (CoreWidgetLocking.select_locks _ (db w)) as [|[wid l] active_locks];
        msimpl; [reflexivity|].
      all: match goal with
           | |- context [for_each ?ls ?f ?w0] =>
               pose proof (keeps_db_for_each ls f) as Hk;
               destruct (for_each_Return ls f w0) as [w2 Hfe];
               [|specialize (Hk ltac:(intros [??]; by keeps) w0);
                 rewrite Hfe in *; cbn in Hk |- *]
           end.
      all: try (intros [??] ?; by eexists).
      all: first [reflexivity | assumption].
    + init_cases w; reflexivity.
    + init_cases w; reflexivity.
  - right. exists sid, u0. split.
    { assert (Hin : (sid, u0) ∈ CoreWidgetLocking.select_sessions
                (λ us, session_of d uid us && UserSession.is_active us) (db w))
        by (rewrite Hsel; apply list_elem_of_here).
      by apply elem_of_select_sessions in Hin as [? _]. }
    unfold session_of in Hsel. unfold_editing. msimpl. init_cases w; reflexivity.
  - left. unfold session_of in Hsel. unfold_editing. msimpl. init_cases w; reflexivity.
Qed.

Lemma refresh_dashboard_editing_effect (c : nat → datetime) (u : nat → uuid)
    (w : World) (d uid : uuid) :
  let w' := (run (WidgetLockingService_rest.refresh_dashboard_editing
                    (fault_free c u) d uid) w).2 in
  db w' = db w
  ∨ (∃ sid u0 t,
       sessions (db w) !! sid = Some u0
       ∧ db w' = set_sessions
                   (<[sid := CoreWidgetLocking.set_last_activity t u0]>) (db w))
  ∨ (∃ sid u0 t,
       sessions (db w) !! sid = Some u0
       ∧ session_of d uid u0 = true
       ∧ no_session (λ us, session_of d uid us && UserSession.is_active us) (db w)
       ∧ db w' = set_sessions
                   (<[sid := CoreWidgetLocking.set_last_activity t
                               (CoreWidgetLocking.set_session_active true u0)]>) (db w)).
Proof.
  destruct (CoreWidgetLocking.select_sessions
              (λ us, session_of d uid us && UserSession.is_active us)
              (db w)) as [|[sid u0] [|[sid' u1] rest]] eqn:Hsel.
  - destruct (CoreWidgetLocking.select_sessions (session_of d uid) (db w))
      as [|[sid u0] [|[sid' u1] rest]] eqn:Hany.
    + left. unfold session_of in Hsel, Hany. unfold_editing. msimpl.
      init_cases w; reflexivity.
    + right. right. exists sid, u0, (c (ticks w)).
      assert (Hin : (sid, u0) ∈ CoreWidgetLocking.select_sessions (session_of d uid) (db w))
        by (rewrite Hany; apply list_elem_of_here).
      apply elem_of_select_sessions in Hin as [Hu0 HP].
      split; [done|]. split; [done|]. split.
      { intros sid' us Hus. cbn. apply not_true_iff_false. intros HP'.
        assert (Hin : (sid', us) ∈ CoreWidgetLocking.select_sessions
                  (λ us, session_of d uid us && UserSession.is_active us) (db w))
          by by apply elem_of_select_sessions.
        rewrite Hsel in Hin. by apply elem_of_nil in Hin. }
      unfold session_of in Hsel, Hany. unfold_editing. msimpl.
      init_cases w; reflexivity.
    + left. unfold session_of in Hsel, Hany. unfold_editing. msimpl.
      init_cases w; reflexivity.
  - right. left. exists sid, u0, (c (ticks w)). split.
    { assert (Hin : (sid, u0) ∈ CoreWidgetLocking.select_sessions
                (λ us, session_of d uid us && UserSession.is_active us) (db w))
        by (rewrite Hsel; apply list_elem_of_here).
      by apply elem_of_select_sessions in Hin as [? _]. }
    unfold session_of in Hsel. unfold_editing. msimpl. init_cases w; reflexivity.
  - left. unfold session_of in Hsel. unfold_editing. msimpl. init_cases w; reflexivity.
Qed.

Lemma one_active_session_each_update (s : Store) (sid : uuid) (u0 u' : UserSession.t) :
  one_active_session_each s →
  sessions s !! sid = Some u0 →
  (UserSession.is_active u' = true → UserSession.is_active u0 = true) →
  UserSession.dashboard_id u' = UserSession.dashboard_id u0 →
  UserSession.user_id u' = UserSession.user_id u0 →
  one_active_session_each (set_sessions (<[sid := u']>) s).
Proof.
  intros Hinv Hu0 Hact Hd Hu a ua Ha b ub Hb Haa Hba Hdab Huab. cbn in Ha, Hb.
  assert (Hold : ∀ x ux, <[sid := u']> (sessions s) !! x = Some ux →
            UserSession.is_active ux = true →
            ∃ ux0, sessions s !! x = Some ux0
                   ∧ UserSession.is_active ux0 = true
                   ∧ UserSession.dashboard_id ux0 = UserSession.dashboard_id ux
                   ∧ UserSession.user_id ux0 = UserSession.user_id ux).
  { intros x ux Hx Hxa. destruct (decide (x = sid)) as [->|Hne].
    - rewrite lookup_insert_eq in Hx. injection Hx as <-. exists u0. auto.
    - rewrite lookup_insert_ne in Hx by done. exists ux. auto. }
  destruct (Hold a ua Ha Haa) as (ua0 & Ha0 & ? & ? & ?).
  destruct (Hold b ub Hb Hba) as (ub0 & Hb0 & ? & ? & ?).
  apply (Hinv a ua0 Ha0 b ub0 Hb0); congruence.
Qed.

Lemma one_active_session_each_new (s : Store) (sid d uid : uuid) (u' : UserSession.t)
    (old : option UserSession.t) :
  one_active_session_each s →
  sessions s !! sid = old →
  no_session (λ us, session_of d uid us && UserSession.is_active us) s →
  UserSession.dashboard_id u' = d →
  UserSession.user_id u' = uid →
  one_active_session_each (set_sessions (<[sid := u']>) s).
Proof.
  intros Hinv _ Hnone Hd Hu a ua Ha b ub Hb Haa Hba Hdab Huab. cbn in Ha, Hb.
  assert (Hother : ∀ x ux, x ≠ sid → sessions s !! x = Some ux →
            UserSession.is_active ux = true →
            UserSession.dashboard_id ux = d → UserSession.user_id ux = uid → False).
  { intros x ux _ Hx Hxa Hxd Hxu. specialize (Hnone x ux Hx). cbn in Hnone.
    unfold session_of in Hnone. by rewrite Hxd, Hxu, !Pos.eqb_refl, Hxa in Hnone. }
  destruct (decide (a = sid)) as [->|Hna], (decide (b = sid)) as [->|Hnb]; [done|..].
  - rewrite lookup_insert_eq in Ha. injection Ha as <-.
    rewrite lookup_insert_ne in Hb by done.
    destruct (Hother b ub Hnb Hb Hba); congruence.
  - rewrite lookup_insert_eq in Hb. injection Hb as <-.
    rewrite lookup_insert_ne in Ha by done.
    destruct (Hother a ua Hna Ha Haa); congruence.
  - rewrite lookup_insert_ne in Ha, Hb by done.
    by apply (Hinv a ua Ha b ub Hb).
Qed.

(** X28.  StartEditing, StopEditing and the session heartbeat never give a user a
    second active session on a dashboard: when no two active session rows
    are of the same user on the same dashboard before one of these
    operations, none are afterwards, for any user and dashboard the
    operation is called with.  No backend call fails, and [uuid4] draws an
    identifier that no session row has. *)
Theorem editing_keeps_one_active_session_each (c : nat → datetime) (u : nat → uuid)
    (w : World) (d uid : uuid) (ui : UserInfo.t) :
  one_active_session_each (db w) →
  sessions (db w) !! u (draws w) = None →
  one_active_session_each
    (db (run (WidgetLockingService_rest.start_dashboard_editing (fault_free c u) d ui) w).2)
  ∧ one_active_session_each
      (db (run (WidgetLockingService.stop_dashboard_editing (fault_free c u) d uid) w).2)
  ∧ one_active_session_each
      (db (run (WidgetLockingService_rest.refresh_dashboard_editing
                  (fault_free c u) d uid) w).2).
Proof.
  intros Hinv Hfresh. split; [|split].
  - destruct (start_dashboard_editing_effect c u w d ui Hfresh)
      as [->|(us & Hnone & Hd & Hu & ->)]; [done|].
    by apply (one_active_session_each_new (db w) _ d (UserInfo.user_id ui) us None).
  - destruct (stop_dashboard_editing_effect c u w d uid) as [->|(sid & u0 & Hu0 & ->)];
      [done|].
    by apply (one_active_session_each_update (db w) sid u0).
  - destruct (refresh_dashboard_editing_effect c u w d uid)
      as [->|[(sid & u0 & t & Hu0 & ->)|(sid & u0 & t & Hu0 & HP & Hnone & ->)]];
      [done|..].
    + by apply (one_active_session_each_update (db w) sid u0).
    + apply andb_true_iff in HP as [Hd%Pos.eqb_eq Hu%Pos.eqb_eq].
      by apply (one_active_session_each_new (db w) sid d uid _ (Some u0)).
Qed.

(** Alice, who has an active session on [d1], opens [d1] again, leaves it,
    or sends a heartbeat. *)
Lemma editing_keeps_one_active_session_each_witness :
  one_active_session_each
    (db (run (WidgetLockingService_rest.start_dashboard_editing example_env d1 alice)
             world_after_acquire).2)
  ∧ one_active_session_each
      (db (run (WidgetLockingService.stop_dashboard_editing example_env d1 1)
               world_after_acquire).2)
  ∧ one_active_session_each
      (db (run (WidgetLockingService_rest.refresh_dashboard_editing example_env d1 1)
               world_after_acquire).2).
Proof.
  apply (editing_keeps_one_active_session_each example_clock example_uuid4
           world_after_acquire d1 1 alice).
  - apply (bool_decide_unpack _). vm_compute. reflexivity.
  - vm_compute. reflexivity.
Defined.

(** ** ReleaseLock: the audit trail and the cache *)

(** X4.  The release of the service, when no backend call fails, returns [False]
    exactly when the widget has an active lock on the dashboard that another
    user owns, and then it changes nothing.  In every other case, also when
    nothing was locked, it returns [True], commits one [lock_released] event
    of the requester to the audit trail, and leaves no entry of the widget in
    the lock cache or in the status cache. *)
Theorem release_logs_one_event (c : nat → datetime) (u : nat → uuid)
    (w : World) (d wid : uuid) (ui : UserInfo.t) :
  (service_initialized w = true → cache_initialized w = true) →
  let refused :=
    match active_lock_on (db w) d wid with
    | Some l => negb (Pos.eqb (WidgetLock.user_id l) (UserInfo.user_id ui))
    | None => false
    end in
  ∃ w',
    run (WidgetLockingService.release_widget_lock (fault_free c u) d wid ui) w
      = (Return (negb refused), w')
    ∧ if refused then db w' = db w ∧ cache w' = cache w
      else
        (∃ ev, events (db w') = events (db w) ++ [ev]
               ∧ CollaborationEvent.event_type ev = "lock_released"%string
               ∧ CollaborationEvent.dashboard_id ev = d
               ∧ CollaborationEvent.widget_id ev = Some wid
               ∧ CollaborationEvent.user_id ev = UserInfo.user_id ui)
        ∧ cache w' !! WidgetLockingService._cache_key_widget_lock wid = None
        ∧ cache w' !! WidgetLockingService._cache_key_widget_status wid = None.
Proof.
  intros Hready refused. subst refused.
  assert (Hgone : ∀ (m : gmap (string * uuid) CacheEntry) t1 t2,
            let m' := filter (λ kv, t1 ∉ tags kv.2)
                        (filter (λ kv, t2 ∉ tags kv.2)
                           (delete (WidgetLockingService._cache_key_widget_status wid)
                              (delete (WidgetLockingService._cache_key_widget_lock wid) m))) in
            m' !! WidgetLockingService._cache_key_widget_lock wid = None
            ∧ m' !! WidgetLockingService._cache_key_widget_status wid = None).
  { intros m t1 t2. cbn. split.
    - apply map_lookup_filter_None. left. apply map_lookup_filter_None. left.
      rewrite lookup_delete_ne by done. apply lookup_delete_eq.
    - apply map_lookup_filter_None. left. apply map_lookup_filter_None. left.
      apply lookup_delete_eq. }
  unfold active_lock_on, WidgetLockingService.release_widget_lock,
    WidgetLockingService.initialize, get_cache, cache_manager_initialize,
    cache_setup, delete_shared, cache_delete, delete_multi_level_by_tags,
    delete_by_tags, WidgetLockingService.dashboard_tags, cache_delete_tags,
    CoreWidgetLocking.release_widget_lock, CoreWidgetLocking.get_user_session,
    CoreWidgetLocking.log_collaboration_event.
  msimpl.
  assert (Hcases : (service_initialized w = true ∧ cache_initialized w = true)
                   ∨ service_initialized w = false).
  { destruct (service_initialized w); [left|right]; auto. }
  destruct (locks (db w) !! wid) as [l|] eqn:Hl; cbn.
  2:{ destruct Hcases as [[Hsi Hci]|Hsi]; [|destruct (cache_initialized w) eqn:Hci];
        mgo; eexists; (split; [done|]); cbn; (split; [by eexists|apply Hgone]). }
  destruct (_ && _); cbn.
  2:{ destruct Hcases as [[Hsi Hci]|Hsi]; [|destruct (cache_initialized w) eqn:Hci];
        mgo; eexists; (split; [done|]); cbn; (split; [by eexists|apply Hgone]). }
  destruct (Pos.eqb_spec (WidgetLock.user_id l) (UserInfo.user_id ui)); cbn;
    [|by eexists].
  destruct (sessions (db w) !! WidgetLock.session_id l) as [s|] eqn:Hs; cbn;
    [destruct (UserSession.is_active s); cbn; [case_bool_decide; cbn|]|].
  all: destruct Hcases as [[Hsi Hci]|Hsi]; [|destruct (cache_initialized w) eqn:Hci];
    mgo; eexists; (split; [done|]); cbn; (split; [by eexists|apply Hgone]).
Qed.

(** Bob releases [w1], which nobody holds, in the initial world. *)
Lemma release_logs_one_event_witness :
  ∃ w',
    run (WidgetLockingService.release_widget_lock example_env d1 w1 bob) initial_world
      = (Return true, w')
    ∧ (∃ ev, events (db w') = events (db initial_world) ++ [ev]
             ∧ CollaborationEvent.event_type ev = "lock_released"%string
             ∧ CollaborationEvent.dashboard_id ev = d1
             ∧ CollaborationEvent.widget_id ev = Some w1
             ∧ CollaborationEvent.user_id ev = 2%positive)
      ∧ cache w' !! WidgetLockingService._cache_key_widget_lock w1 = None
      ∧ cache w' !! WidgetLockingService._cache_key_widget_status w1 = None.
Proof.
  apply (release_logs_one_event example_clock example_uuid4 initial_world d1 w1 bob).
  vm_compute. done.
Defined.

(** ** AcquireLock on a free widget *)

Lemma select_sessions_at_most_one (P : UserSession.t → bool) (s : Store) :
  at_most_one_session P s →
  CoreWidgetLocking.select_sessions P s = []
  ∨ ∃ sid u, CoreWidgetLocking.select_sessions P s = [(sid, u)]
             ∧ sessions s !! sid = Some u ∧ P u = true.
Proof.
  intros Hone.
  destruct (CoreWidgetLocking.select_sessions P s) as [|[a ua] [|[b ub] l]] eqn:Hsel;
    [by left|right|exfalso].
  - exists a, ua. split; [done|].
    assert (Hin : (a, ua) ∈ CoreWidgetLocking.select_sessions P s)
      by (rewrite Hsel; apply list_elem_of_here).
    unfold CoreWidgetLocking.select_sessions in Hin.
    by apply elem_of_map_to_list, map_lookup_filter_Some in Hin.
  - pose proof (NoDup_fst_map_to_list (filter (λ kv, P kv.2 = true) (sessions s))) as Hnd.
    unfold CoreWidgetLocking.select_sessions in Hsel.
    assert (Hina : (a, ua) ∈ map_to_list (filter (λ kv, P kv.2 = true) (sessions s)))
      by (rewrite Hsel; apply list_elem_of_here).
    assert (Hinb : (b, ub) ∈ map_to_list (filter (λ kv, P kv.2 = true) (sessions s)))
      by (rewrite Hsel; apply list_elem_of_further, list_elem_of_here).
    apply elem_of_map_to_list, map_lookup_filter_Some in Hina as [Ha HPa].
    apply elem_of_map_to_list, map_lookup_filter_Some in Hinb as [Hb HPb].
    rewrite Hsel in Hnd. cbn in Hnd.
    apply NoDup_cons in Hnd as [Hnotin _]. apply Hnotin.
    rewrite (Hone a ua Ha HPa b ub Hb HPb). apply list_elem_of_here.
Qed.

Lemma acquire_cache_check_miss (c : nat → datetime) (u : nat → uuid) (w : World)
    (wid : uuid) :
  manager_ready w →
  match cache w !! WidgetLockingService._cache_key_widget_lock wid with
  | Some e => expire_at e < c (ticks w)
  | None => True
  end →
  ∃ w1,
    WidgetLockingService.acquire_cache_check (fault_free c u) wid w = (Return None, w1)
    ∧ db w1 = db w ∧ draws w1 = draws w ∧ (ticks w ≤ ticks w1)%nat.
Proof.
  intros Hready Hcache.
  assert (Hcases : (service_initialized w = true ∧ cache_initialized w = true)
                   ∨ service_initialized w = false).
  { unfold manager_ready in Hready.
    destruct (service_initialized w); [left|right]; auto. }
  unfold WidgetLockingService.acquire_cache_check, WidgetLockingService.initialize,
    get_cache, cache_manager_initialize, cache_setup, get_shared, cache_get.
  msimpl.
  destruct Hcases as [[Hsi Hci]|Hsi]; [|destruct (cache_initialized w) eqn:Hci]; mgo;
    (destruct (cache w !! _) as [e|]; cbn;
     [destruct (Z.ltb_spec (expire_at e) (c (ticks w))); [|lia]|];
     cbn; eexists; (split; [done|]); cbn; repeat split; lia).
Qed.

Lemma acquire_store_check_passes (c : nat → datetime) (u : nat → uuid) (w : World)
    (wid : uuid) :
  match active_lock (db w) wid with
  | Some l => WidgetLock.expires_at l < c (ticks w)
  | None => True
  end →
  ∃ w2,
    with_session
      (db_lock ← CoreWidgetLocking.get_active_widget_lock (fault_free c u) wid;
       match db_lock with
       | Some l =>
           t ← now (fault_free c u);
           if negb (WidgetLock.is_expired t l)
           then mret (Some (LockAcquisitionResponse.mk false wid
                              (WidgetLock.session_id l) (WidgetLock.expires_at l)
                              ("Widget is locked by " +:+ WidgetLock.user_name l)))
           else mret None
       | None => mret None
       end) w = (Return None, w2)
    ∧ db w2 = db w ∧ draws w2 = draws w ∧ (ticks w ≤ ticks w2)%nat.
Proof.
  unfold active_lock, CoreWidgetLocking.get_active_widget_lock, WidgetLock.is_expired.
  intros Hlock. msimpl.
  destruct (locks (db w) !! wid) as [l|]; cbn; [destruct (WidgetLock.is_active l); cbn|].
  - destruct (Z.ltb_spec (WidgetLock.expires_at l) (c (ticks w))); [|lia]. cbn.
    eexists; (split; [done|]); cbn; repeat split; lia.
  - eexists; (split; [done|]); cbn; repeat split; lia.
  - eexists; (split; [done|]); cbn; repeat split; lia.
Qed.

Lemma core_acquire_on_free_widget (c : nat → datetime) (u : nat → uuid) (w : World)
    (d wid : uuid) (ui : UserInfo.t) (dur : Z) :
  monotone c →
  match active_lock (db w) wid with
  | Some l => WidgetLock.expires_at l < c (ticks w)
  | None => True
  end →
  at_most_one_session
    (λ us, session_of d (UserInfo.user_id ui) us && UserSession.is_active us) (db w) →
  sessions (db w) !! u (draws w) = None →
  ∃ sid t us w3,
    let row := WidgetLock.mk d sid (UserInfo.user_id ui)
                 (default "Unknown"%string (UserInfo.user_name ui))
                 t (t + timedelta_seconds dur) t true in
    with_session
      (CoreWidgetLocking.acquire_widget_lock (fault_free c u) d wid ui dur) w
      = (Return row, w3)
    ∧ c (ticks w) ≤ t
    ∧ locks (db w3) = <[wid := row]> (locks (db w))
    ∧ sessions (db w3) !! sid = Some us
    ∧ session_of d (UserInfo.user_id ui) us = true
    ∧ UserSession.is_active us = true
    ∧ wid ∈ UserSession.locked_widgets us
    ∧ (∀ sid', sid' ≠ sid → sessions (db w3) !! sid' = sessions (db w) !! sid')
    ∧ events (db w3) = events (db w).
Proof.
  intros Hmono Hlock Hone Hfresh.
  apply select_sessions_at_most_one in Hone.
  pose proof (Hmono (ticks w) (S (ticks w)) ltac:(lia)) as Hm1.
  pose proof (Hmono (ticks w) (S (S (ticks w))) ltac:(lia)) as Hm2.
  pose proof (Hmono (ticks w) (S (S (S (ticks w)))) ltac:(lia)) as Hm3.
  unfold active_lock in Hlock. unfold session_of in *.
  unfold CoreWidgetLocking.acquire_widget_lock,
    CoreWidgetLocking.get_or_create_user_session, CoreWidgetLocking.add_session.
  msimpl.
  destruct (locks (db w) !! wid) as [l|] eqn:Hl; cbn;
    [destruct (WidgetLock.is_active l) eqn:Hact; cbn;
     [destruct (Z.ltb_spec (c (ticks w)) (WidgetLock.expires_at l)); [lia|]; cbn|]|].
  all: destruct Hone as [Hsel|(sid0 & u0 & Hsel & Hu0 & HP)]; mgo.
  all: try (case_bool_decide as Hin; cbn).
  all: rewrite ?lookup_insert_eq; cbn.
  all: try (exfalso; by apply elem_of_nil in Hin).
  all: try (apply andb_true_iff in HP as [HP Hact0]).
  all: eexists _, _, _, _; (split; [reflexivity|]); cbn.
  all: (split; [lia|]); (split; [reflexivity|]).
  all: rewrite ?lookup_insert_eq.
  all: (split; [reflexivity|]); cbn.
  all: rewrite ?Pos.eqb_refl; cbn.
  all: split; [done|].
  all: split; [done|].
  all: split; [first [ done | apply elem_of_app; right; apply list_elem_of_here
                     | apply list_elem_of_here ]|].
  all: split; [|done].
  all: intros sid' Hne; by rewrite ?lookup_insert_ne.
Qed.

Lemma expired_stays_expired (c : nat → datetime) (s : Store) (wid : uuid) (n n' : nat) :
  monotone c → (n ≤ n')%nat →
  match active_lock s wid with
  | Some l => WidgetLock.expires_at l < c n
  | None => True
  end →
  match active_lock s wid with
  | Some l => WidgetLock.expires_at l < c n'
  | None => True
  end.
Proof.
  intros Hmono Hle. destruct (active_lock s wid); [|done].
  specialize (Hmono n n' Hle). lia.
Qed.

Lemma acquire_on_free_widget_run (c : nat → datetime) (u : nat → uuid)
    (w : World) (d wid : uuid) (ui : UserInfo.t) (dur : Z) :
  monotone c →
  manager_ready w →
  match cache w !! WidgetLockingService._cache_key_widget_lock wid with
  | Some e => expire_at e < c (ticks w)
  | None => True
  end →
  match active_lock (db w) wid with
  | Some l => WidgetLock.expires_at l < c (ticks w)
  | None => True
  end →
  at_most_one_session
    (λ us, session_of d (UserInfo.user_id ui) us && UserSession.is_active us) (db w) →
  sessions (db w) !! u (draws w) = None →
  ∃ r w' t us,
    run (WidgetLockingService.acquire_widget_lock (fault_free c u) d wid ui dur) w
      = (Return r, w')
    ∧ LockAcquisitionResponse.success r = true
    ∧ LockAcquisitionResponse.expires_at r = t + timedelta_seconds dur
    ∧ c (ticks w) ≤ t
    ∧ locks (db w')
      = <[wid := WidgetLock.mk d (LockAcquisitionResponse.session_id r)
                   (UserInfo.user_id ui)
                   (default "Unknown"%string (UserInfo.user_name ui))
                   t (t + timedelta_seconds dur) t true]> (locks (db w))
    ∧ sessions (db w') !! LockAcquisitionResponse.session_id r = Some us
    ∧ session_of d (UserInfo.user_id ui) us = true
    ∧ UserSession.is_active us = true
    ∧ wid ∈ UserSession.locked_widgets us
    ∧ (∀ sid, sid ≠ LockAcquisitionResponse.session_id r →
              sessions (db w') !! sid = sessions (db w) !! sid)
    ∧ events (db w') = events (db w).
Proof.
  intros Hmono Hready Hcache Hlock Hone Hfresh.
  destruct (acquire_cache_check_miss c u w wid Hready Hcache)
    as (w1 & Hrun1 & Hdb1 & Hdr1 & Ht1).
  destruct (acquire_store_check_passes c u w1 wid) as (w2 & Hrun2 & Hdb2 & Hdr2 & Ht2).
  { rewrite Hdb1. by apply (expired_stays_expired c (db w) wid (ticks w)). }
  destruct (core_acquire_on_free_widget c u w2 d wid ui dur Hmono)
    as (sid & t & us & w3 & Hrun3 & Hle & Hlocks & Hsid & HP & Hact & Hin & Hothers & Hev).
  { rewrite Hdb2, Hdb1.
    apply (expired_stays_expired c (db w) wid (ticks w)); [done|lia|done]. }
  { by rewrite Hdb2, Hdb1. }
  { by rewrite Hdb2, Hdb1, Hdr2, Hdr1. }
  cbv zeta in Hrun3. rewrite Hdb2, Hdb1 in Hlocks, Hothers, Hev.
  assert (Htail : ∃ w4,
    WidgetLockingService.acquire_store (fault_free c u) d wid ui dur w1
      = (Return (LockAcquisitionResponse.mk true wid sid (t + timedelta_seconds dur)
                   "Widget lock acquired successfully"), w4)
    ∧ db w4 = db w3).
  { unfold WidgetLockingService.acquire_store. cbv zeta.
    rewrite (bind_Return_run _ _ _ _ _ Hrun2). cbn match.
    rewrite (bind_Return_run _ _ _ _ _ Hrun3).
    unfold WidgetLockingService.initialize, get_cache, cache_manager_initialize,
      cache_setup, WidgetLockingService.lock_schema, set_shared, cache_set,
      delete_multi_level_by_tags, delete_by_tags,
      WidgetLockingService.dashboard_tags, cache_delete_tags,
      CoreWidgetLocking.log_collaboration_event.
    msimpl. init_cases w3; by eexists. }
  destruct Htail as (w4 & Hrun4 & Hdb4).
  exists (LockAcquisitionResponse.mk true wid sid (t + timedelta_seconds dur)
            "Widget lock acquired successfully"), w4, t, us.
  split.
  { unfold run, WidgetLockingService.acquire_widget_lock.
    erewrite bind_Return_run by (apply try_except_Return_run; exact Hrun1).
    apply try_except_Return_run. exact Hrun4. }
  cbn. rewrite Hdb4.
  assert (c (ticks w) ≤ c (ticks w2)) by (apply Hmono; lia).
  repeat split; try done. lia.
Qed.

(** X2.  AcquireLock on a widget that is free, with a duration that the request
    schema admits, when no backend call fails and the clock does not go
    back.  The widget is free when its row, if it has one, is inactive or
    past its expiry, and the lock cache has no live entry for it.  The call
    then succeeds for every requester: the row of the widget belongs to the
    requester and to the requester's session on the dashboard, its lease is
    [lock_duration] seconds from a reading of the clock taken during the
    call, the session lists the widget, and no other session row and no
    audit event is written. *)
Theorem acquire_granted_on_free_widget (c : nat → datetime) (u : nat → uuid)
    (w : World) (d wid : uuid) (ui : UserInfo.t) (dur : Z) :
  30 ≤ dur ≤ 300 →
  monotone c →
  manager_ready w →
  match cache w !! WidgetLockingService._cache_key_widget_lock wid with
  | Some e => expire_at e < c (ticks w)
  | None => True
  end →
  match active_lock (db w) wid with
  | Some l => WidgetLock.expires_at l < c (ticks w)
  | None => True
  end →
  at_most_one_session
    (λ us, session_of d (UserInfo.user_id ui) us && UserSession.is_active us) (db w) →
  sessions (db w) !! u (draws w) = None →
  ∃ r w' t us,
    run (WidgetLockingService.acquire_widget_lock (fault_free c u) d wid ui dur) w
      = (Return r, w')
    ∧ LockAcquisitionResponse.success r = true
    ∧ LockAcquisitionResponse.expires_at r = t + timedelta_seconds dur
    ∧ c (ticks w) ≤ t
    ∧ locks (db w')
      = <[wid := WidgetLock.mk d (LockAcquisitionResponse.session_id r)
                   (UserInfo.user_id ui)
                   (default "Unknown"%string (UserInfo.user_name ui))
                   t (t + timedelta_seconds dur) t true]> (locks (db w))
    ∧ sessions (db w') !! LockAcquisitionResponse.session_id r = Some us
    ∧ session_of d (UserInfo.user_id ui) us = true
    ∧ UserSession.is_active us = true
    ∧ wid ∈ UserSession.locked_widgets us
    ∧ (∀ sid, sid ≠ LockAcquisitionResponse.session_id r →
              sessions (db w') !! sid = sessions (db w) !! sid)
    ∧ events (db w') = events (db w).
Proof.
  intros _ Hmono Hready Hcache Hlock Hone Hfresh.
  destruct (acquire_on_free_widget_run c u w d wid ui dur Hmono Hready Hcache Hlock
              Hone Hfresh) as (r & w' & t & us & Hrun).
  by exists r, w', t, us.
Qed.

Lemma clock_jumping_at_monotone (k : nat) (jump : Z) :
  0 ≤ jump → monotone (clock_jumping_at k jump).
Proof.
  intros Hj i j Hij. unfold clock_jumping_at.
  destruct (Nat.ltb_spec i k), (Nat.ltb_spec j k); lia.
Qed.

(** Bob asks for [w1] 100 s after Alice acquired it for 60 s: her lease is
    over, her entry in the lock cache (30 s) too. *)
Lemma acquire_granted_on_free_widget_witness :
  ∃ r w' t us,
    run (WidgetLockingService.acquire_widget_lock late_env d1 w1 bob 60)
        world_after_acquire
      = (Return r, w')
    ∧ LockAcquisitionResponse.success r = true
    ∧ LockAcquisitionResponse.expires_at r = t + timedelta_seconds 60
    ∧ clock_jumping_at 7 100000000 (ticks world_after_acquire) ≤ t
    ∧ locks (db w')
      = <[w1 := WidgetLock.mk d1 (LockAcquisitionResponse.session_id r)
                  (UserInfo.user_id bob)
                  (default "Unknown"%string (UserInfo.user_name bob))
                  t (t + timedelta_seconds 60) t true]>
          (locks (db world_after_acquire))
    ∧ sessions (db w') !! LockAcquisitionResponse.session_id r = Some us
    ∧ session_of d1 (UserInfo.user_id bob) us = true
    ∧ UserSession.is_active us = true
    ∧ w1 ∈ UserSession.locked_widgets us
    ∧ (∀ sid, sid ≠ LockAcquisitionResponse.session_id r →
              sessions (db w') !! sid = sessions (db world_after_acquire) !! sid)
    ∧ events (db w') = events (db world_after_acquire).
Proof.
  apply (acquire_granted_on_free_widget (clock_jumping_at 7 100000000) example_uuid4
           world_after_acquire d1 w1 bob 60).
  - lia.
  - apply clock_jumping_at_monotone. lia.
  - intros _. vm_compute. reflexivity.
  - vm_compute. reflexivity.
  - vm_compute. reflexivity.
  - apply (bool_decide_unpack _). vm_compute. reflexivity.
  - vm_compute. reflexivity.
Defined.

(** ** ReleaseLock, then AcquireLock *)

Lemma release_by_owner_run (c : nat → datetime) (u : nat → uuid)
    (w : World) (d wid : uuid) (ui : UserInfo.t) (l : WidgetLock.t) :
  manager_ready w →
  active_lock_on (db w) d wid = Some l →
  WidgetLock.user_id l = UserInfo.user_id ui →
  ∃ w1,
    run (WidgetLockingService.release_widget_lock (fault_free c u) d wid ui) w
      = (Return true, w1)
    ∧ locks (db w1) = <[wid := CoreWidgetLocking.set_lock_active false l]> (locks (db w))
    ∧ (∀ sid, match sessions (db w1) !! sid, sessions (db w) !! sid with
              | Some us', Some us =>
                  UserSession.dashboard_id us' = UserSession.dashboard_id us
                  ∧ UserSession.user_id us' = UserSession.user_id us
                  ∧ UserSession.is_active us' = UserSession.is_active us
              | None, None => True
              | _, _ => False
              end)
    ∧ cache w1 !! WidgetLockingService._cache_key_widget_lock wid = None
    ∧ manager_ready w1
    ∧ draws w1 = S (draws w)
    ∧ (ticks w ≤ ticks w1)%nat.
Proof.
  intros Hready Hl Hown.
  assert (Hgone : ∀ (m : gmap (string * uuid) CacheEntry) t1 t2,
            filter (λ kv, t1 ∉ tags kv.2)
              (filter (λ kv, t2 ∉ tags kv.2)
                 (delete (WidgetLockingService._cache_key_widget_status wid)
                    (delete (WidgetLockingService._cache_key_widget_lock wid) m)))
            !! WidgetLockingService._cache_key_widget_lock wid = None).
  { intros m t1 t2.
    apply map_lookup_filter_None. left. apply map_lookup_filter_None. left.
    rewrite lookup_delete_ne by done. apply lookup_delete_eq. }
  assert (Hsame : ∀ m : gmap uuid UserSession.t, ∀ sid,
            match m !! sid, m !! sid with
            | Some us', Some us =>
                UserSession.dashboard_id us' = UserSession.dashboard_id us
                ∧ UserSession.user_id us' = UserSession.user_id us
                ∧ UserSession.is_active us' = UserSession.is_active us
            | None, None => True
            | _, _ => False
            end).
  { intros m sid. by destruct (m !! sid). }
  assert (Hcases : (service_initialized w = true ∧ cache_initialized w = true)
                   ∨ service_initialized w = false).
  { unfold manager_ready in Hready.
    destruct (service_initialized w); [left|right]; auto. }
  unfold active_lock_on in Hl. unfold manager_ready.
  unfold WidgetLockingService.release_widget_lock,
    WidgetLockingService.initialize, get_cache, cache_manager_initialize,
    cache_setup, delete_shared, cache_delete, delete_multi_level_by_tags,
    delete_by_tags, WidgetLockingService.dashboard_tags, cache_delete_tags,
    CoreWidgetLocking.release_widget_lock, CoreWidgetLocking.get_user_session,
    CoreWidgetLocking.log_collaboration_event.
  msimpl.
  destruct (locks (db w) !! wid) as [l'|] eqn:Hl'; cbn in *; [|done].
  destruct (_ && _); cbn in *; [|done]. injection Hl as ->.
  rewrite Hown, Pos.eqb_refl. cbn.
  destruct (sessions (db w) !! WidgetLock.session_id l) as [s|] eqn:Hs; cbn;
    [destruct (UserSession.is_active s) eqn:Hsa; cbn; [case_bool_decide; cbn|]|].
  all: destruct Hcases as [[Hsi Hci]|Hsi]; [|destruct (cache_initialized w) eqn:Hci];
    mgo; eexists; (split; [done|]); cbn; (split; [done|]);
    (split; [|split; [apply Hgone|split; [done|split; [done|lia]]]]).
  all: try apply Hsame.
  all: intros sid; destruct (decide (sid = WidgetLock.session_id l)) as [->|Hne];
    [rewrite lookup_insert_eq, Hs; by cbn
    |rewrite lookup_insert_ne by done; apply Hsame].
Qed.

(** X3.  A lock that its owner releases can be acquired at once by any user,
    before its expiry too: the release makes the row inactive and removes the
    entry of the widget from the lock cache, which are the two places that
    AcquireLock consults.  No backend call fails, the clock does not go
    back, and the duration asked for is one that the request schema
    admits. *)
Theorem release_then_acquire_hands_over (c : nat → datetime) (u : nat → uuid)
    (w : World) (d wid : uuid) (owner requester : UserInfo.t) (dur : Z)
    (l : WidgetLock.t) :
  30 ≤ dur ≤ 300 →
  monotone c →
  manager_ready w →
  active_lock_on (db w) d wid = Some l →
  WidgetLock.user_id l = UserInfo.user_id owner →
  at_most_one_session
    (λ us, session_of d (UserInfo.user_id requester) us && UserSession.is_active us)
    (db w) →
  sessions (db w) !! u (S (draws w)) = None →
  ∃ r w' row,
    run (released ← WidgetLockingService.release_widget_lock (fault_free c u) d wid owner;
         r ← WidgetLockingService.acquire_widget_lock (fault_free c u) d wid requester dur;
         mret (released, r)) w
      = (Return (true, r), w')
    ∧ LockAcquisitionResponse.success r = true
    ∧ locks (db w') !! wid = Some row
    ∧ WidgetLock.is_active row = true
    ∧ WidgetLock.user_id row = UserInfo.user_id requester
    ∧ WidgetLock.session_id row = LockAcquisitionResponse.session_id r
    ∧ WidgetLock.expires_at row = WidgetLock.locked_at row + timedelta_seconds dur.
Proof.
  intros _ Hmono Hready Hl Hown Hone Hfresh.
  destruct (release_by_owner_run c u w d wid owner l Hready Hl Hown)
    as (w1 & Hrun1 & Hlocks1 & Hsess1 & Hcache1 & Hready1 & Hdr1 & Ht1).
  destruct (acquire_on_free_widget_run c u w1 d wid requester dur Hmono Hready1)
    as (r & w' & t & us & Hrun2 & Hok & Hexp & _ & Hlocks2 & _).
  - by rewrite Hcache1.
  - unfold active_lock. by rewrite Hlocks1, lookup_insert_eq.
  - intros a ua Ha HPa b ub Hb HPb.
    pose proof (Hsess1 a) as Hsa. pose proof (Hsess1 b) as Hsb.
    rewrite Ha in Hsa. rewrite Hb in Hsb.
    destruct (sessions (db w) !! a) as [ua'|] eqn:Ha'; [|done].
    destruct (sessions (db w) !! b) as [ub'|] eqn:Hb'; [|done].
    destruct Hsa as (Hd1 & Hu1 & Ha1). destruct Hsb as (Hd2 & Hu2 & Ha2).
    apply (Hone a ua' Ha' ltac:(unfold session_of in *; congruence)
                b ub' Hb' ltac:(unfold session_of in *; congruence)).
  - pose proof (Hsess1 (u (draws w1))) as Hs. rewrite Hdr1 in *. rewrite Hfresh in Hs.
    by destruct (sessions (db w1) !! u (S (draws w))).
  - eexists r, w', _. split.
    { unfold run in *. rewrite (bind_Return_run _ _ _ _ _ Hrun1).
      rewrite (bind_Return_run _ _ _ _ _ Hrun2). done. }
    split; [done|]. rewrite Hlocks2, lookup_insert_eq. done.
Qed.

(** Alice releases [w1], which she acquired a few microseconds ago for 60 s,
    and Bob acquires it. *)
Lemma release_then_acquire_hands_over_witness :
  ∃ r w' row,
    run (released ← WidgetLockingService.release_widget_lock example_env d1 w1 alice;
         r ← WidgetLockingService.acquire_widget_lock example_env d1 w1 bob 60;
         mret (released, r)) world_after_acquire
      = (Return (true, r), w')
    ∧ LockAcquisitionResponse.success r = true
    ∧ locks (db w') !! w1 = Some row
    ∧ WidgetLock.is_active row = true
    ∧ WidgetLock.user_id row = UserInfo.user_id bob
    ∧ WidgetLock.session_id row = LockAcquisitionResponse.session_id r
    ∧ WidgetLock.expires_at row = WidgetLock.locked_at row + timedelta_seconds 60.
Proof.
  apply (release_then_acquire_hands_over example_clock example_uuid4
           world_after_acquire d1 w1 alice bob 60
           (WidgetLock.mk d1 100 1 "A" 3 60000003 3 true)).
  - lia.
  - intros i j Hij. unfold example_clock. lia.
  - intros _. vm_compute. reflexivity.
  - vm_compute. reflexivity.
  - reflexivity.
  - apply (bool_decide_unpack _). vm_compute. reflexivity.
  - vm_compute. reflexivity.
Defined.

(** X21.  The acquire endpoint, once the service is initialised, answers 422
    for a duration outside [30, 300], else 400 for a dashboard identifier
    that [uuid.UUID] rejects, both without touching anything, and else the
    granted lock or 409: every refusal of the service is a conflict for the
    client, the refusal after a failure of the store or of the cache
    included, so that 500 is never answered. *)
Theorem acquire_endpoint_codes (env : Env) (UUID : string → option uuid)
    (w : World) (dashboard_id : string)
    (lock_data : WidgetLockAcquireSchema.t) (client : string)
    (current_user : Router.CurrentUser) :
  service_initialized w = true →
  (∀ e, cache w !! WidgetLockingService._cache_key_widget_lock
                    (WidgetLockAcquireSchema.widget_id lock_data) = Some e →
        ∃ ld, value e = CLock ld) →
  let call := run (Router.acquire_widget_lock env UUID dashboard_id lock_data
                     client current_user) w in
  if decide (30 ≤ WidgetLockAcquireSchema.lock_duration lock_data ≤ 300) then
    match UUID dashboard_id with
    | None => call = (Raise (HTTPException 400 "Invalid dashboard ID format"), w)
    | Some _ =>
        (∃ r w', call = (Return r, w') ∧ LockAcquisitionResponse.success r = true)
        ∨ (∃ detail w', call = (Raise (HTTPException 409 detail), w'))
    end
  else call = (Raise (HTTPException 422 "lock_duration out of range"), w).
Proof.
  intros Hsi Hcache call. subst call.
  unfold run, Router.acquire_widget_lock, Router.validate_lock_data,
    Router.dashboard_uuid.
  case_decide as Hdur.
  2:{ destruct (Z.leb_spec 30 (WidgetLockAcquireSchema.lock_duration lock_data));
        destruct (Z.leb_spec (WidgetLockAcquireSchema.lock_duration lock_data) 300);
        cbn; first [lia | done]. }
  destruct (Z.leb_spec 30 (WidgetLockAcquireSchema.lock_duration lock_data)); [|lia].
  destruct (Z.leb_spec (WidgetLockAcquireSchema.lock_duration lock_data) 300); [|lia].
  cbn. destruct (UUID dashboard_id) as [d|]; [|done].
  destruct (acquire_returns_a_response env w d
              (WidgetLockAcquireSchema.widget_id lock_data)
              (UserInfo.mk (Router.cu_user_id current_user)
                 (Some (default "Unknown"%string (Router.username current_user)))
                 (Router.email current_user) (Some client))
              (WidgetLockAcquireSchema.lock_duration lock_data) Hsi Hcache)
    as (r & w' & Hr).
  unfold run in Hr.
  unfold try_except, mbind, M_bind, mret, M_ret, raise. rewrite Hr.
  destruct (LockAcquisitionResponse.success r) eqn:Hok; cbn.
  - left. by eexists _, _.
  - right. by eexists _, _.
Qed.

(** Alice asks again for [w1], which she holds, and then with an identifier
    of the dashboard that is not one. *)
Lemma acquire_endpoint_codes_witness :
  ((∃ r w', run (Router.acquire_widget_lock example_env example_UUID "d1"
                   request_60 "browser" alice_user) world_after_acquire
              = (Return r, w')
            ∧ LockAcquisitionResponse.success r = true)
   ∨ (∃ detail w',
        run (Router.acquire_widget_lock example_env example_UUID "d1"
               request_60 "browser" alice_user) world_after_acquire
        = (Raise (HTTPException 409 detail), w')))
  ∧ run (Router.acquire_widget_lock example_env example_UUID "dashboard-1"
           request_60 "browser" alice_user) world_after_acquire
    = (Raise (HTTPException 400 "Invalid dashboard ID format"), world_after_acquire).
Proof.
  split.
  - apply (acquire_endpoint_codes example_env example_UUID world_after_acquire
             "d1" request_60 "browser" alice_user).
    + vm_compute. reflexivity.
    + intros e He. vm_compute in He. injection He as <-. by eexists.
  - apply (acquire_endpoint_codes example_env example_UUID world_after_acquire
             "dashboard-1" request_60 "browser" alice_user).
    + vm_compute. reflexivity.
    + intros e He. vm_compute in He. injection He as <-. by eexists.
Defined.

(** ** The endpoints *)

(** The methods of the service that answer every exception themselves. *)
Lemma service_methods_return (env : Env) (w : World) (d wid uid : uuid)
    (caller : user_id_value) (ui : UserInfo.t) :
  (∃ r w', WidgetLockingService.release_widget_lock env d wid ui w = (Return r, w'))
  ∧ (∃ r w', WidgetLockingService.refresh_widget_lock env d wid ui w = (Return r, w'))
  ∧ (∃ r w', WidgetLockingService.stop_dashboard_editing env d uid w = (Return r, w'))
  ∧ (∃ r w', WidgetLockingService_rest.refresh_dashboard_editing env d uid w
             = (Return r, w'))
  ∧ (∃ r w', WidgetLockingService.get_widget_lock_status env wid caller w
             = (Return r, w')).
Proof.
  repeat split; apply try_except_total; intros e w0; by eexists _, _.
Qed.

(** X22.  With a well-formed dashboard identifier, the endpoints of release, lock
    heartbeat, stop and session heartbeat answer with their result or with
    one fixed client error, whatever fails in the backends: the service
    answers every exception with a negative result, which the endpoint
    reports as 403 (release) or 404 (the others), never as 500.  The status
    endpoint always answers with a status. *)
Theorem endpoints_answer_failures_with_fixed_codes (env : Env)
    (UUID : string → option uuid) (w : World) (dashboard_id widget_id : string)
    (d wid : uuid) (current_user : Router.CurrentUser) :
  UUID dashboard_id = Some d →
  UUID widget_id = Some wid →
  (∃ w', run (Router_rest.release_widget_lock env UUID dashboard_id wid current_user) w
           = (Return "Widget lock released successfully"%string, w')
         ∨ run (Router_rest.release_widget_lock env UUID dashboard_id wid current_user) w
           = (Raise (HTTPException 403 "You don't own this widget lock"), w'))
  ∧ (∃ w', (∃ r, run (Router_rest.refresh_widget_lock env UUID dashboard_id wid
                        current_user) w = (Return r, w')
                 ∧ HeartbeatResponse.success r = true)
           ∨ (∃ detail, run (Router_rest.refresh_widget_lock env UUID dashboard_id wid
                               current_user) w
                        = (Raise (HTTPException 404 detail), w')))
  ∧ (∃ w', run (Router_rest.stop_dashboard_editing env UUID dashboard_id current_user) w
           = (Return "Dashboard editing session stopped successfully"%string, w')
         ∨ run (Router_rest.stop_dashboard_editing env UUID dashboard_id current_user) w
           = (Raise (HTTPException 404 "No active editing session found"), w'))
  ∧ (∃ w', run (Router_rest.refresh_dashboard_editing env UUID dashboard_id
                  current_user) w
           = (Return "Dashboard editing session refreshed successfully"%string, w')
         ∨ run (Router_rest.refresh_dashboard_editing env UUID dashboard_id
                  current_user) w
           = (Raise (HTTPException 404 "No active editing session found"), w'))
  ∧ (∃ r w', run (Router_rest.get_widget_lock_status env UUID dashboard_id widget_id
                    current_user) w = (Return r, w')).
Proof.
  intros Hd Hwid.
  destruct (service_methods_return env w d wid (Router.cu_user_id current_user)
              (IdStr (str_uuid (Router.cu_user_id current_user)))
              (Router_rest.user_info_of current_user))
    as ((r1 & w1 & H1) & (r2 & w2 & H2) & (r3 & w3 & H3) & (r4 & w4 & H4)
        & (r5 & w5 & H5)).
  unfold run, Router_rest.release_widget_lock, Router_rest.refresh_widget_lock,
    Router_rest.stop_dashboard_editing, Router_rest.refresh_dashboard_editing,
    Router_rest.get_widget_lock_status, Router.dashboard_uuid.
  rewrite Hd, Hwid. unfold try_except, mbind, M_bind, mret, M_ret. cbn.
  rewrite H1, H2, H3, H4, H5.
  repeat split.
  - exists w1. destruct r1; cbn; auto.
  - exists w2. destruct (HeartbeatResponse.success r2) eqn:Hs; cbn; eauto.
  - exists w3. destruct r3; cbn; auto.
  - exists w4. destruct r4; cbn; auto.
  - by eexists _, _.
Qed.

(** X23.  With a malformed dashboard identifier, the endpoints that re-raise an
    [HTTPException] answer 400 and touch nothing; the status endpoint, which
    has the blanket handler only, turns its own 400 into a 500. *)
Theorem malformed_dashboard_id_codes (env : Env) (UUID : string → option uuid)
    (w : World) (dashboard_id widget_id : string) (wid : uuid)
    (current_user : Router.CurrentUser) :
  UUID dashboard_id = None →
  run (Router_rest.release_widget_lock env UUID dashboard_id wid current_user) w
    = (Raise (HTTPException 400 "Invalid dashboard ID format"), w)
  ∧ run (Router_rest.refresh_widget_lock env UUID dashboard_id wid current_user) w
    = (Raise (HTTPException 400 "Invalid dashboard ID format"), w)
  ∧ run (Router_rest.stop_dashboard_editing env UUID dashboard_id current_user) w
    = (Raise (HTTPException 400 "Invalid dashboard ID format"), w)
  ∧ run (Router_rest.refresh_dashboard_editing env UUID dashboard_id current_user) w
    = (Raise (HTTPException 400 "Invalid dashboard ID format"), w)
  ∧ ∃ detail,
      run (Router_rest.get_widget_lock_status env UUID dashboard_id widget_id
             current_user) w
      = (Raise (HTTPException 500 detail), w).
Proof.
  intros Hd.
  unfold run, Router_rest.release_widget_lock, Router_rest.refresh_widget_lock,
    Router_rest.stop_dashboard_editing, Router_rest.refresh_dashboard_editing,
    Router_rest.get_widget_lock_status, Router.dashboard_uuid.
  rewrite Hd. unfold try_except, mbind, M_bind, raise. cbn.
  repeat split. by eexists.
Qed.

Lemma endpoints_answer_failures_with_fixed_codes_witness :
  (∃ w', run (Router_rest.release_widget_lock example_env example_UUID "d1" w1 alice_user)
             world_after_acquire
           = (Return "Widget lock released successfully"%string, w')
         ∨ run (Router_rest.release_widget_lock example_env example_UUID "d1" w1 alice_user)
               world_after_acquire
           = (Raise (HTTPException 403 "You don't own this widget lock"), w'))
  ∧ (∃ w', (∃ r, run (Router_rest.refresh_widget_lock example_env example_UUID "d1" w1
                        alice_user) world_after_acquire = (Return r, w')
                 ∧ HeartbeatResponse.success r = true)
           ∨ (∃ detail, run (Router_rest.refresh_widget_lock example_env example_UUID
                               "d1" w1 alice_user) world_after_acquire
                        = (Raise (HTTPException 404 detail), w')))
  ∧ (∃ w', run (Router_rest.stop_dashboard_editing example_env example_UUID "d1"
                  alice_user) world_after_acquire
           = (Return "Dashboard editing session stopped successfully"%string, w')
         ∨ run (Router_rest.stop_dashboard_editing example_env example_UUID "d1"
                  alice_user) world_after_acquire
           = (Raise (HTTPException 404 "No active editing session found"), w'))
  ∧ (∃ w', run (Router_rest.refresh_dashboard_editing example_env example_UUID "d1"
                  alice_user) world_after_acquire
           = (Return "Dashboard editing session refreshed successfully"%string, w')
         ∨ run (Router_rest.refresh_dashboard_editing example_env example_UUID "d1"
                  alice_user) world_after_acquire
           = (Raise (HTTPException 404 "No active editing session found"), w'))
  ∧ (∃ r w', run (Router_rest.get_widget_lock_status example_env example_UUID "d1" "w1"
                    alice_user) world_after_acquire = (Return r, w')).
Proof.
  apply (endpoints_answer_failures_with_fixed_codes example_env example_UUID
           world_after_acquire "d1" "w1" d1 w1 alice_user); reflexivity.
Defined.

(** ["dashboard-1"] is not an identifier. *)
Lemma malformed_dashboard_id_codes_witness :
  run (Router_rest.release_widget_lock example_env example_UUID "dashboard-1" w1
         alice_user) world_after_acquire
    = (Raise (HTTPException 400 "Invalid dashboard ID format"), world_after_acquire)
  ∧ run (Router_rest.refresh_widget_lock example_env example_UUID "dashboard-1" w1
           alice_user) world_after_acquire
    = (Raise (HTTPException 400 "Invalid dashboard ID format"), world_after_acquire)
  ∧ run (Router_rest.stop_dashboard_editing example_env example_UUID "dashboard-1"
           alice_user) world_after_acquire
    = (Raise (HTTPException 400 "Invalid dashboard ID format"), world_after_acquire)
  ∧ run (Router_rest.refresh_dashboard_editing example_env example_UUID "dashboard-1"
           alice_user) world_after_acquire
    = (Raise (HTTPException 400 "Invalid dashboard ID format"), world_after_acquire)
  ∧ ∃ detail,
      run (Router_rest.get_widget_lock_status example_env example_UUID "dashboard-1" "w1"
             alice_user) world_after_acquire
      = (Raise (HTTPException 500 detail), world_after_acquire).
Proof.
  apply (malformed_dashboard_id_codes example_env example_UUID world_after_acquire
           "dashboard-1" "w1" w1 alice_user).
  reflexivity.
Defined.

(** ** The background service of the reaper *)

(** X24.  Whenever [update_cleanup_interval] returns, the service is not running:
    a running service is stopped before the interval is set, and the test
    that would start it again reads the flag that the stop has cleared.  The
    scheduler gets no new job: it is the one it was, shut down if the
    service was running. *)
Theorem update_cleanup_interval_leaves_service_stopped {Sched : Type}
    (add_job : Z → Sched → outcome unit * Sched)
    (scheduler_start scheduler_shutdown : Sched → outcome unit * Sched)
    (new_interval : Z) (s s' : SessionCleanupService.t) :
  SessionCleanupService.update_cleanup_interval add_job scheduler_start
    scheduler_shutdown new_interval s = (Return tt, s') →
  10 ≤ new_interval
  ∧ SessionCleanupService.is_running s' = false
  ∧ SessionCleanupService.cleanup_interval s' = new_interval
  ∧ SessionCleanupService.scheduler s'
    = if SessionCleanupService.is_running s
      then (scheduler_shutdown (SessionCleanupService.scheduler s)).2
      else SessionCleanupService.scheduler s.
Proof.
  unfold SessionCleanupService.update_cleanup_interval,
    SessionCleanupService.stop_cleanup_service,
    SessionCleanupService.start_cleanup_service.
  destruct (Z.ltb_spec new_interval 10); [done|].
  destruct s as [sc [] iv]; cbn.
  - destruct (scheduler_shutdown sc) as [[[]|e] sc']; cbn; [|done].
    intros [= <-]. done.
  - intros [= <-]. done.
Qed.

(** An interval below 10 seconds is refused and the service is left as it
    is. *)
Lemma update_cleanup_interval_minimum {Sched : Type}
    (add_job : Z → Sched → outcome unit * Sched)
    (scheduler_start scheduler_shutdown : Sched → outcome unit * Sched)
    (new_interval : Z) (s : SessionCleanupService.t) :
  new_interval < 10 →
  SessionCleanupService.update_cleanup_interval add_job scheduler_start
    scheduler_shutdown new_interval s
  = (Raise (ValueError "Cleanup interval must be at least 10 seconds"), s).
Proof.
  intros Hlt. unfold SessionCleanupService.update_cleanup_interval.
  by destruct (Z.ltb_spec new_interval 10); [|lia].
Qed.

(** X25.  The manual run of the reaper and the scheduled task never raise, and the
    committed store after them is the store before, whatever fails in the
    backends. *)
Theorem run_manual_cleanup_returns_and_keeps_store (env : Env) (w : World) :
  (∃ counts w', run (SessionCleanupService.run_manual_cleanup env) w
                = (Return counts, w') ∧ db w' = db w)
  ∧ (∃ w', run (SessionCleanupService._cleanup_task env) w = (Return tt, w')
           ∧ db w' = db w).
Proof.
  split.
  - destruct (try_except_total
                (WidgetLockingService.cleanup_stale_sessions_and_locks env)
                (λ _, mret (0%nat, 0%nat)) w) as (r & w' & Hr);
      [intros; by eexists _, _|].
    exists r, w'. split; [exact Hr|].
    assert (Hk : keeps_db (SessionCleanupService.run_manual_cleanup env)).
    { unfold SessionCleanupService.run_manual_cleanup. keeps.
      intros w0. apply cleanup_keeps_db. }
    specialize (Hk w). unfold SessionCleanupService.run_manual_cleanup in Hk.
    by rewrite Hr in Hk.
  - destruct (try_except_total
                (WidgetLockingService.cleanup_stale_sessions_and_locks env;; mret tt)
                (λ _, mret tt) w) as ([] & w' & Hr);
      [intros; by eexists _, _|].
    exists w'. split; [exact Hr|].
    assert (Hk : keeps_db (SessionCleanupService._cleanup_task env)).
    { unfold SessionCleanupService._cleanup_task. keeps.
      intros w0. apply cleanup_keeps_db. }
    specialize (Hk w). unfold SessionCleanupService._cleanup_task in Hk.
    by rewrite Hr in Hk.
Qed.

(** The interval of a running service is set to 60 s: the service is left
    stopped and its scheduler without a job. *)
Lemma update_cleanup_interval_leaves_service_stopped_witness :
  10 ≤ 60
  ∧ SessionCleanupService.is_running (SessionCleanupService.mk ([] : list Z) false 60)
    = false
  ∧ SessionCleanupService.cleanup_interval
      (SessionCleanupService.mk ([] : list Z) false 60) = 60
  ∧ SessionCleanupService.scheduler (SessionCleanupService.mk ([] : list Z) false 60)
    = if SessionCleanupService.is_running running_service
      then (example_scheduler_shutdown (SessionCleanupService.scheduler running_service)).2
      else SessionCleanupService.scheduler running_service.
Proof.
  apply (update_cleanup_interval_leaves_service_stopped example_add_job
           example_scheduler_start example_scheduler_shutdown 60 running_service).
  reflexivity.
Defined.

(** ** What a positive answer guarantees *)

#[export] Instance same_locks_preorder : PreOrder same_locks.
Proof. split; [done|]. unfold same_locks. intros ??? ??. congruence. Qed.

#[export] Instance no_lock_step_preorder : PreOrder no_lock_step.
Proof.
  split; [by intros ??|]. unfold no_lock_step. intros w1 w2 w3 H12 H23 H1.
  destruct (H12 H1) as [Hd Ht]. destruct H23 as [Hd' Ht']; [congruence|].
  split; congruence.
Qed.

Ltac no_lock_leaf := unfold no_lock_step; cbn; intuition congruence.

Lemma same_locks_of_keeps_db {A} (m : M A) : keeps_db m → respects same_locks m.
Proof. intros Hm w. unfold same_locks. by rewrite Hm. Qed.

Lemma same_locks_with_session {A} (m : M A) :
  respects no_lock_step m → respects same_locks (with_session m).
Proof.
  intros Hm.
  assert (Hb : respects no_lock_step
                 (try_finally (try_except m (λ e, rollback;; raise e)) close))
    by respects_go no_lock_leaf.
  intros w. unfold with_session, modify, mbind, M_bind. cbn.
  specialize (Hb (set_txn (λ _, db w) w)).
  destruct (try_finally _ _ _) as [[a|e] w']; cbn in *; by apply Hb.
Qed.

Ltac same_locks_go :=
  repeat first
    [ solve [apply same_locks_of_keeps_db; keeps]
    | apply same_locks_with_session; solve [respects_go no_lock_leaf]
    | respects_step ltac:(fail) ].

Lemma same_locks_run {A} (m : M A) (w w' : World) (o : outcome A) :
  respects same_locks m → m w = (o, w') → locks (db w') = locks (db w).
Proof. intros Hm H. specialize (Hm w). by rewrite H in Hm. Qed.

(** What [CoreWidgetLocking.release_widget_lock] leaves when it returns
    [True], whatever fails in the backends. *)
Lemma core_release_True (env : Env) (d wid : uuid) (ui : UserInfo.t) (w w' : World) :
  with_session (CoreWidgetLocking.release_widget_lock env d wid ui) w
    = (Return true, w') →
  active_lock_on (db w') d wid = None.
Proof.
  intros (w1 & H & ->)%with_session_Return_inv. cbn.
  unfold CoreWidgetLocking.release_widget_lock in H.
  apply try_except_reraise_inv in H.
  apply bind_Return_inv in H as (widget_lock & w2 & Hsel & H).
  unfold execute_select, backend in Hsel. msimpl. cbn in Hsel.
  destruct (fault env (steps w)); [done|]. cbn in Hsel.
  injection Hsel as <- <-.
  unfold active_lock_on.
  destruct (locks (db w) !! wid) as [l|] eqn:Hl; cbn in H.
  2:{ injection H as <-. cbn. by rewrite Hl. }
  destruct (Pos.eqb (WidgetLock.dashboard_id l) d && WidgetLock.is_active l) eqn:Hb;
    cbn in H.
  2:{ injection H as <-. cbn. by rewrite Hl, Hb. }
  destruct (negb _); cbn in H; [done|].
  unfold CoreWidgetLocking.get_user_session, execute_select, backend in H.
  msimpl. cbn in H.
  destruct (fault env (S (steps w))); cbn in H.
  - destruct (fault env (S (S (steps w)))); cbn in H; [done|].
    injection H as <-. cbn. rewrite lookup_insert_eq. cbn.
    by rewrite andb_false_r.
  - destruct (sessions (db w) !! WidgetLock.session_id l) as [s|]; cbn in H;
      [destruct (UserSession.is_active s); cbn in H;
       [destruct (bool_decide _); cbn in H|]|].
    all: destruct (fault env (S (S (steps w)))); cbn in H; [done|].
    all: injection H as <-; cbn; rewrite lookup_insert_eq; cbn.
    all: by rewrite andb_false_r.
Qed.

(** X29.  A release that the service answers with [True] leaves the widget without
    an active lock on the dashboard, whatever fails in the backends: either
    none existed, or the lock of the requester was made inactive and that was
    committed. *)
Theorem release_success_means_unlocked (env : Env) (w w' : World) (d wid : uuid)
    (ui : UserInfo.t) :
  run (WidgetLockingService.release_widget_lock env d wid ui) w = (Return true, w') →
  active_lock_on (db w') d wid = None.
Proof.
  unfold run, WidgetLockingService.release_widget_lock.
  intros [H|(e & w1 & _ & [=])]%try_except_Return_inv.
  apply bind_Return_inv in H as (success & w1 & Hcore & H).
  destruct success; cbn in H; [|done].
  apply core_release_True in Hcore.
  unfold active_lock_on in *.
  erewrite same_locks_run; [exact Hcore| |exact H].
  same_locks_go.
Qed.

(** Alice releases [w1], which she holds. *)
Lemma release_success_means_unlocked_witness :
  active_lock_on
    (db (run (WidgetLockingService.release_widget_lock example_env d1 w1 alice)
             world_after_acquire).2) d1 w1
  = None.
Proof.
  eapply (release_success_means_unlocked example_env world_after_acquire _ d1 w1 alice).
  vm_compute. reflexivity.
Defined.






(** ** Every lock row has its session row *)

(** The invariant passes from a store to one in which the session rows are
    still there, of the same user on the same dashboard, and in which every
    lock row either has its session row or is, for the session, the user and
    the dashboard, a row of the first store. *)
Lemma locks_have_sessions_grows (s s' : Store) :
  locks_have_sessions s →
  (∀ sid us, sessions s !! sid = Some us →
     ∃ us', sessions s' !! sid = Some us'
            ∧ UserSession.dashboard_id us' = UserSession.dashboard_id us
            ∧ UserSession.user_id us' = UserSession.user_id us) →
  (∀ wid l', locks s' !! wid = Some l' →
     lock_has_session s' l' = true
     ∨ ∃ l, locks s !! wid = Some l
            ∧ WidgetLock.session_id l' = WidgetLock.session_id l
            ∧ WidgetLock.dashboard_id l' = WidgetLock.dashboard_id l
            ∧ WidgetLock.user_id l' = WidgetLock.user_id l) →
  locks_have_sessions s'.
Proof.
  intros Hinv Hsess Hlocks wid l' Hl'. cbn.
  destruct (Hlocks wid l' Hl') as [H|(l & Hl & Hs & Hd & Hu)]; [done|].
  specialize (Hinv wid l Hl). cbn in Hinv.
  unfold lock_has_session in *. rewrite Hs, Hd, Hu.
  destruct (sessions s !! WidgetLock.session_id l) as [us|] eqn:Hus; [|done].
  destruct (Hsess _ us Hus) as (us' & -> & -> & ->). done.
Qed.

(** Running a session block on its branches: the failures of the backend,
    the rows found. *)
Ltac sym_exec :=
  repeat match goal with
         | |- context [for_each ?ls ?f ?w0] =>
             let Hk := fresh "Hk" in
             pose proof (keeps_db_for_each ls f ltac:(intros [??]; keeps) w0) as Hk;
             destruct (for_each ls f w0) as [[[]|?] ?]; cbn in Hk |- *
         | |- context [<[?k := _]> _ !! ?k] => rewrite lookup_insert_eq; cbn
         | |- context [fault ?e ?n] => destruct (fault e n) eqn:?; cbn
         | |- context [match locks ?s !! ?k with _ => _ end] =>
             destruct (locks s !! k) eqn:?; cbn
         | |- context [match sessions ?s !! ?k with _ => _ end] =>
             destruct (sessions s !! k) eqn:?; cbn
         | |- context [match CoreWidgetLocking.select_sessions ?P ?s with _ => _ end] =>
             let Hsel := fresh "Hsel" in
             destruct (CoreWidgetLocking.select_sessions P s) as [|[??] [|??]] eqn:Hsel;
             cbn
         | |- context [match CoreWidgetLocking.select_locks ?P ?s with _ => _ end] =>
             destruct (CoreWidgetLocking.select_locks P s) as [|[??] ?];
             cbn -[for_each]
         | |- context [if ?b then _ else _] => destruct b eqn:?; cbn
         end.

(** The two premises of [locks_have_sessions_grows] for a store that was
    built from [s] by insertions. *)
Ltac grows_sessions :=
  let sid := fresh "sid" in
  let us := fresh "us" in
  let Hus := fresh "Hus" in
  intros sid us Hus; cbn;
  repeat match goal with
         | |- context [<[?k := _]> _ !! sid] =>
             destruct (decide (sid = k)) as [->|];
             [rewrite lookup_insert_eq|rewrite lookup_insert_ne by done]
         end;
  first [ eexists; split; [eassumption|split; reflexivity]
        | exfalso; congruence
        | simplify_eq; eexists; split; [reflexivity|split; reflexivity] ].

Ltac lock_session_ok :=
  unfold lock_has_session; cbn; rewrite ?lookup_insert_eq; cbn;
  apply andb_true_iff; split; apply Pos.eqb_eq; congruence.

Ltac grows_locks :=
  let wid := fresh "wid" in
  let l' := fresh "l'" in
  let Hl' := fresh "Hl'" in
  intros wid l' Hl'; cbn in Hl';
  repeat match type of Hl' with
         | <[?k := _]> _ !! wid = _ =>
             destruct (decide (wid = k)) as [->|];
             [rewrite lookup_insert_eq in Hl'|rewrite lookup_insert_ne in Hl' by done]
         end;
  first [ right; eexists; split; [eassumption|]; done
        | simplify_eq; right; eexists; split; [eassumption|]; done
        | simplify_eq; left; lock_session_ok ].

Lemma inv_step_release (env : Env) (d wid : uuid) (ui : UserInfo.t) :
  respects inv_step
    (with_session (CoreWidgetLocking.release_widget_lock env d wid ui)).
Proof.
  intros w Hinv.
  unfold CoreWidgetLocking.release_widget_lock, CoreWidgetLocking.get_user_session.
  msimpl. sym_exec.
  all: try exact Hinv.
  all: apply (locks_have_sessions_grows (db w)); [exact Hinv|grows_sessions|grows_locks].
Qed.

#[export] Instance inv_step_preorder : PreOrder inv_step.
Proof. split; unfold inv_step; [by intros ?|intros ???; tauto]. Qed.

Lemma inv_step_of_keeps_db {A} (m : M A) : keeps_db m → respects inv_step m.
Proof. intros Hk w Hinv. by rewrite Hk. Qed.

Lemma select_sessions_head (P : UserSession.t → bool) (s : Store) (sid : uuid)
    (us : UserSession.t) (rest : list (uuid * UserSession.t)) :
  CoreWidgetLocking.select_sessions P s = (sid, us) :: rest →
  sessions s !! sid = Some us ∧ P us = true.
Proof.
  intros Hsel. apply elem_of_select_sessions. rewrite Hsel. apply list_elem_of_here.
Qed.

Ltac select_facts :=
  repeat match goal with
         | H : CoreWidgetLocking.select_sessions _ _ = (_, _) :: _ |- _ =>
             apply select_sessions_head in H as [? ?]
         end;
  repeat match goal with
         | H : _ && _ = true |- _ => apply andb_true_iff in H as [? ?]
         | H : (_ =? _)%positive = true |- _ => apply Pos.eqb_eq in H
         end.

Ltac inv_close Hinv w :=
  first
    [ exact Hinv
    | match goal with H : db _ = _ |- _ => rewrite H end; exact Hinv
    | select_facts;
      apply (locks_have_sessions_grows (db w));
      [exact Hinv|grows_sessions|grows_locks] ].

Lemma inv_step_get_or_create (env : Env) (d : uuid) (ui : UserInfo.t) :
  respects inv_step
    (with_session (CoreWidgetLocking.get_or_create_user_session env d ui)).
Proof.
  intros w Hinv.
  unfold CoreWidgetLocking.get_or_create_user_session, CoreWidgetLocking.add_session.
  msimpl. sym_exec.
  all: inv_close Hinv w.
Qed.

Lemma inv_step_acquire (env : Env) (d wid : uuid) (ui : UserInfo.t) (dur : Z) :
  respects inv_step
    (with_session (CoreWidgetLocking.acquire_widget_lock env d wid ui dur)).
Proof.
  intros w Hinv.
  unfold CoreWidgetLocking.acquire_widget_lock,
    CoreWidgetLocking.get_or_create_user_session, CoreWidgetLocking.add_session.
  msimpl. sym_exec.
  all: inv_close Hinv w.
Qed.

(** A session block: either it commits nothing, or it is one of the blocks
    above, or it is run on its branches. *)
Ltac inv_block :=
  first
    [ apply inv_step_of_keeps_db; solve [keeps]
    | apply inv_step_acquire
    | apply inv_step_release
    | apply inv_step_get_or_create
    | let w := fresh "w" in
      let Hinv := fresh "Hinv" in
      intros w Hinv; autounfold with prog; msimpl; sym_exec; inv_close Hinv w ].

Ltac inv_go :=
  repeat lazymatch goal with
         | |- respects _ (with_session _) => inv_block
         | |- respects _ (_ ≫= _) => apply respects_bind; [tc_solve| |intros]
         | |- respects _ (try_except _ _) =>
             apply respects_try_except; [tc_solve| |intros]
         | |- respects _ (match ?x with _ => _ end) => destruct x
         | |- respects _ (let _ := _ in _) => cbv zeta
         | |- respects _ _ => apply inv_step_of_keeps_db; solve [keeps]
         end.

(** X31.  Every operation of the service keeps the invariant that each lock
    row has its session row, whatever fails in the backends: a lock row is
    written only by [acquire_widget_lock], after the session that
    [get_or_create_user_session] gave it was committed, and no operation
    deletes a session row or changes its user or its dashboard. *)
Theorem locks_have_sessions_kept (env : Env) (w : World) (d wid uid : uuid)
    (current_user_id : user_id_value) (ui : UserInfo.t) (dur : Z) :
  locks_have_sessions (db w) →
  locks_have_sessions
    (db (run (WidgetLockingService.acquire_widget_lock env d wid ui dur) w).2)
  ∧ locks_have_sessions
      (db (run (WidgetLockingService.refresh_widget_lock env d wid ui) w).2)
  ∧ locks_have_sessions
      (db (run (WidgetLockingService.release_widget_lock env d wid ui) w).2)
  ∧ locks_have_sessions
      (db (run (WidgetLockingService.get_widget_lock_status env wid
                  current_user_id) w).2)
  ∧ locks_have_sessions
      (db (run (WidgetLockingService_rest.start_dashboard_editing env d ui) w).2)
  ∧ locks_have_sessions
      (db (run (WidgetLockingService.stop_dashboard_editing env d uid) w).2)
  ∧ locks_have_sessions
      (db (run (WidgetLockingService_rest.refresh_dashboard_editing env d uid) w).2)
  ∧ locks_have_sessions
      (db (run (WidgetLockingService.cleanup_stale_sessions_and_locks env) w).2).
Proof.
  intros Hinv. unfold run.
  split_and!.
  - assert (H : respects inv_step
                  (WidgetLockingService.acquire_widget_lock env d wid ui dur)).
    { unfold WidgetLockingService.acquire_widget_lock,
        WidgetLockingService.acquire_store.
      inv_go. apply inv_step_of_keeps_db, keeps_db_acquire_cache_check. }
    by apply H.
  - assert (H : respects inv_step
                  (WidgetLockingService.refresh_widget_lock env d wid ui)).
    { unfold WidgetLockingService.refresh_widget_lock. inv_go. }
    by apply H.
  - assert (H : respects inv_step
                  (WidgetLockingService.release_widget_lock env d wid ui)).
    { unfold WidgetLockingService.release_widget_lock. inv_go. }
    by apply H.
  - assert (H : keeps_db (WidgetLockingService.get_widget_lock_status env wid
                            current_user_id)).
    { unfold WidgetLockingService.get_widget_lock_status,
        WidgetLockingService.get_widget_lock_status_body. keeps. }
    by rewrite H.
  - assert (H : respects inv_step
                  (WidgetLockingService_rest.start_dashboard_editing env d ui)).
    { unfold WidgetLockingService_rest.start_dashboard_editing. inv_go. }
    by apply H.
  - assert (H : respects inv_step
                  (WidgetLockingService.stop_dashboard_editing env d uid)).
    { unfold WidgetLockingService.stop_dashboard_editing. inv_go. }
    by apply H.
  - assert (H : respects inv_step
                  (WidgetLockingService_rest.refresh_dashboard_editing env d uid)).
    { unfold WidgetLockingService_rest.refresh_dashboard_editing. inv_go. }
    by apply H.
  - by rewrite cleanup_keeps_db.
Qed.

(** The store in which Alice holds [w1], the next backend call failing. *)
Lemma locks_have_sessions_kept_witness :
  locks_have_sessions
    (db (run (WidgetLockingService.acquire_widget_lock
                (failing_env (steps world_after_acquire)) d1 w1 bob 60)
             world_after_acquire).2)
  ∧ locks_have_sessions
      (db (run (WidgetLockingService.refresh_widget_lock
                  (failing_env (steps world_after_acquire)) d1 w1 bob)
               world_after_acquire).2)
  ∧ locks_have_sessions
      (db (run (WidgetLockingService.release_widget_lock
                  (failing_env (steps world_after_acquire)) d1 w1 bob)
               world_after_acquire).2)
  ∧ locks_have_sessions
      (db (run (WidgetLockingService.get_widget_lock_status
                  (failing_env (steps world_after_acquire)) w1 (caller bob))
               world_after_acquire).2)
  ∧ locks_have_sessions
      (db (run (WidgetLockingService_rest.start_dashboard_editing
                  (failing_env (steps world_after_acquire)) d1 bob)
               world_after_acquire).2)
  ∧ locks_have_sessions
      (db (run (WidgetLockingService.stop_dashboard_editing
                  (failing_env (steps world_after_acquire)) d1 2)
               world_after_acquire).2)
  ∧ locks_have_sessions
      (db (run (WidgetLockingService_rest.refresh_dashboard_editing
                  (failing_env (steps world_after_acquire)) d1 2)
               world_after_acquire).2)
  ∧ locks_have_sessions
      (db (run (WidgetLockingService.cleanup_stale_sessions_and_locks
                  (failing_env (steps world_after_acquire)))
               world_after_acquire).2).
Proof.
  apply (locks_have_sessions_kept (failing_env (steps world_after_acquire))
           world_after_acquire d1 w1 2 (caller bob) bob 60).
  apply (bool_decide_unpack _). vm_compute. reflexivity.
Defined.

(** The store is empty at first. *)
Lemma locks_have_sessions_initially : locks_have_sessions (db initial_world).
Proof. apply map_Forall_empty. Qed.
